(** * Weighted BBR congestion control for MPTCP subflows

    A shallow embedding of [net/mptcp/mptcp_wbbr.c] and the properties of
    its per-ACK decisions: the multipath weight, the congestion window, the
    pacing rate, the PROBE_BW gain cycle and the long-term (policer)
    bandwidth estimator.

    Unsigned C integers are integers of [Z] reduced modulo their width at
    every operation that can leave the range; one-bit bit-fields are
    booleans, wider bit-fields are reduced modulo their width when stored. *)

From Stdlib Require Import ZArith List Bool Lia.
Import ListNotations.
Local Open Scope Z_scope.

(** ** Machine arithmetic *)

Definition u32 (x : Z) : Z := x mod 2 ^ 32.
Definition u64 (x : Z) : Z := x mod 2 ^ 64.
(** The value of a 32-bit pattern read as a signed [s32]. *)
Definition s32 (x : Z) : Z := (x + 2 ^ 31) mod 2 ^ 32 - 2 ^ 31.
(** Storing into a bit-field of [n] bits. *)
Definition bits (n x : Z) : Z := x mod 2 ^ n.

(** [before(seq1, seq2)] and [after(seq2, seq1)] of [net/tcp.h]: wrapping
    comparison of 32-bit sequence numbers and jiffies. *)
Definition before (seq1 seq2 : Z) : bool := s32 (seq1 - seq2) <? 0.
Definition after (seq2 seq1 : Z) : bool := before seq1 seq2.

(** [do_div(n, base)]: 64-bit dividend, divisor truncated to 32 bits. *)
Definition do_div (n base : Z) : Z := u64 n / u32 base.
Definition div64_u64 (dividend divisor : Z) : Z := dividend / divisor.

(** The kernel's [abs()] on a 32-bit operand goes through a signed [int]. *)
Definition abs_int (x : Z) : Z := u32 (Z.abs (s32 x)).

(** ** Constants *)

Definition BW_SCALE : Z := 24.
Definition BW_UNIT : Z := Z.shiftl 1 BW_SCALE.
Definition WBBR_SCALE : Z := 8.
Definition WBBR_UNIT : Z := Z.shiftl 1 WBBR_SCALE.

Definition USEC_PER_SEC : Z := 1000000.
Definition USEC_PER_MSEC : Z := 1000.
Definition TCP_INIT_CWND : Z := 10.
(** [enum tcp_ca_state]. *)
Definition TCP_CA_Open : Z := 0.
Definition TCP_CA_Disorder : Z := 1.
Definition TCP_CA_CWR : Z := 2.
Definition TCP_CA_Recovery : Z := 3.
Definition TCP_CA_Loss : Z := 4.

Inductive wbbr_mode : Set :=
| WBBR_STARTUP    (* ramp up sending rate rapidly to fill pipe *)
| WBBR_DRAIN      (* drain any queue created during startup *)
| WBBR_PROBE_BW   (* discover, share bw: pace around estimated bw *)
| WBBR_PROBE_RTT. (* cut cwnd to min to probe min_rtt *)

Definition wbbr_mode_eqb (a b : wbbr_mode) : bool :=
  match a, b with
  | WBBR_STARTUP, WBBR_STARTUP | WBBR_DRAIN, WBBR_DRAIN
  | WBBR_PROBE_BW, WBBR_PROBE_BW | WBBR_PROBE_RTT, WBBR_PROBE_RTT => true
  | _, _ => false
  end.

Definition CYCLE_LEN : Z := 8.
Definition wbbr_bw_rtts : Z := CYCLE_LEN + 2.
Definition wbbr_min_rtt_win_sec : Z := 10.
Definition wbbr_probe_rtt_mode_ms : Z := 200.
Definition wbbr_min_tso_rate : Z := 1200000.
Definition wbbr_high_gain : Z := WBBR_UNIT * 2885 / 1000 + 1.
Definition wbbr_drain_gain : Z := WBBR_UNIT * 1000 / 2885.
Definition wbbr_cwnd_gain : Z := WBBR_UNIT * 2.
Definition wbbr_pacing_gain : list Z :=
  [ WBBR_UNIT * 5 / 4;   (* probe for more available bw *)
    WBBR_UNIT * 3 / 4;   (* drain queue and/or yield bw to other flows *)
    WBBR_UNIT; WBBR_UNIT; WBBR_UNIT;   (* cruise at 1.0*bw to utilize pipe, *)
    WBBR_UNIT; WBBR_UNIT; WBBR_UNIT ]. (* without creating excess queue... *)
Definition wbbr_cycle_rand : Z := 7.
Definition wbbr_cwnd_min_target : Z := 4.
Definition wbbr_full_bw_thresh : Z := WBBR_UNIT * 5 / 4.
Definition wbbr_full_bw_cnt : Z := 3.
Definition wbbr_lt_intvl_min_rtts : Z := 4.
Definition wbbr_lt_loss_thresh : Z := 50.
Definition wbbr_lt_bw_ratio : Z := WBBR_UNIT / 8.
Definition wbbr_lt_bw_diff : Z := 4000 / 8.
Definition wbbr_lt_bw_max_rtts : Z := 48.

(** ** Data *)

(** [struct skb_mstamp]: a microsecond stamp paired with a jiffies stamp. *)
Record skb_mstamp : Set := { stamp_us : Z; stamp_jiffies : Z }.

(** [struct minmax] of [linux/win_minmax.h]: the best three samples of a
    windowed extremum, each a time [t] and a value [v]. *)
Record minmax_sample : Set := { t : Z; v : Z }.
Record minmax : Set := { s0 : minmax_sample; s1 : minmax_sample; s2 : minmax_sample }.

Definition minmax_get (m : minmax) : Z := v (s0 m).
Definition minmax_reset (tm meas : Z) : minmax :=
  let val := {| t := tm; v := meas |} in {| s0 := val; s1 := val; s2 := val |}.

(** [struct wbbr], the congestion control block of one subflow. *)
Record wbbr : Set := {
  min_rtt_us : Z;             (* min RTT in min_rtt_win_sec window *)
  min_rtt_stamp : Z;          (* timestamp of min_rtt_us *)
  probe_rtt_done_stamp : Z;   (* end time for WBBR_PROBE_RTT mode *)
  bw : minmax;                (* Max recent delivery rate in pkts/uS << 24 *)
  rtt_cnt : Z;                (* count of packet-timed rounds elapsed *)
  next_rtt_delivered : Z;     (* scb->tx.delivered at end of round *)
  cycle_mstamp : skb_mstamp;  (* time of this cycle phase start *)
  mode : wbbr_mode;           (* current wbbr_mode in state machine *)
  prev_ca_state : Z;          (* :3, CA state on previous ACK *)
  packet_conservation : bool; (* use packet conservation? *)
  restore_cwnd : bool;        (* decided to revert cwnd to old value *)
  round_start : bool;         (* start of packet-timed tx->ack round? *)
  tso_segs_goal : Z;          (* :7, segments we want in each skb we send *)
  idle_restart : bool;        (* restarting after idle? *)
  probe_rtt_round_done : bool;(* a WBBR_PROBE_RTT round at 4 pkts? *)
  lt_is_sampling : bool;      (* taking long-term ("LT") samples now? *)
  lt_rtt_cnt : Z;             (* :7, round trips in long-term interval *)
  lt_use_bw : bool;           (* use lt_bw as our bw estimate? *)
  lt_bw : Z;                  (* LT est delivery rate in pkts/uS << 24 *)
  lt_last_delivered : Z;      (* LT intvl start: tp->delivered *)
  lt_last_stamp : Z;          (* LT intvl start: tp->delivered_mstamp *)
  lt_last_lost : Z;           (* LT intvl start: tp->lost *)
  pacing_gain : Z;            (* :10, current gain for setting pacing rate *)
  cwnd_gain : Z;              (* :10, current gain for setting cwnd *)
  full_bw_cnt : Z;            (* :3, number of rounds without large bw gains *)
  cycle_idx : Z;              (* :3, current index in pacing_gain cycle array *)
  has_seen_rtt : bool;        (* have we seen an RTT sample yet? *)
  prior_cwnd : Z;             (* prior cwnd upon entering loss recovery *)
  full_bw : Z;                (* recent bw, to estimate if pipe is full *)
  instant_rate : Z
}.

(** A subflow socket as [mptcp_for_each_sk] visits it: the answer of
    [mptcp_sk_can_send] and its congestion control block. *)
Record subflow : Set := { sub_can_send : bool; sub_ca : wbbr }.

(** The socket of the subflow under control: the fields of [struct sock],
    [struct tcp_sock] and [struct inet_connection_sock] that the module
    reads or writes, and its private block [ca] ([inet_csk_ca(sk)]).
    [packets_in_flight] is [tcp_packets_in_flight(tp)] and [tcp_min_rtt] is
    [tcp_min_rtt(tp)].  [siblings] is [None] when [tp->mpcb] is [NULL];
    otherwise it lists the other subflows of the connection, and [can_send]
    is [mptcp_sk_can_send] of this socket itself. *)
Record sock : Set := {
  snd_cwnd : Z;
  snd_cwnd_clamp : Z;
  delivered : Z;
  lost : Z;
  delivered_mstamp : skb_mstamp;
  app_limited : Z;
  srtt_us : Z;
  mss_cache : Z;
  tcp_min_rtt : Z;
  packets_in_flight : Z;
  icsk_ca_state : Z;
  sk_pacing_rate : Z;
  sk_max_pacing_rate : Z;
  can_send : bool;
  siblings : option (list subflow);
  ca : wbbr
}.

(** [struct rate_sample] of [net/tcp.h]: [rs_delivered] is an [s32],
    [rs_interval_us] and [rs_rtt_us] are [long], [rs_losses] is an [int],
    the other counters are [u32]. *)
Record rate_sample : Set := {
  rs_prior_delivered : Z;
  rs_delivered : Z;
  rs_interval_us : Z;
  rs_rtt_us : Z;
  rs_losses : Z;
  rs_acked_sacked : Z;
  rs_prior_in_flight : Z;
  rs_is_app_limited : bool
}.

(** ** Field updates *)

Definition set_min_rtt_us (v : Z) (w : wbbr) : wbbr :=
  {| min_rtt_us := v; min_rtt_stamp := min_rtt_stamp w; probe_rtt_done_stamp := probe_rtt_done_stamp w;
     bw := bw w; rtt_cnt := rtt_cnt w; next_rtt_delivered := next_rtt_delivered w;
     cycle_mstamp := cycle_mstamp w; mode := mode w; prev_ca_state := prev_ca_state w;
     packet_conservation := packet_conservation w; restore_cwnd := restore_cwnd w; round_start := round_start w;
     tso_segs_goal := tso_segs_goal w; idle_restart := idle_restart w; probe_rtt_round_done := probe_rtt_round_done w;
     lt_is_sampling := lt_is_sampling w; lt_rtt_cnt := lt_rtt_cnt w; lt_use_bw := lt_use_bw w;
     lt_bw := lt_bw w; lt_last_delivered := lt_last_delivered w; lt_last_stamp := lt_last_stamp w;
     lt_last_lost := lt_last_lost w; pacing_gain := pacing_gain w; cwnd_gain := cwnd_gain w;
     full_bw_cnt := full_bw_cnt w; cycle_idx := cycle_idx w; has_seen_rtt := has_seen_rtt w;
     prior_cwnd := prior_cwnd w; full_bw := full_bw w; instant_rate := instant_rate w |}.

Definition set_min_rtt_stamp (v : Z) (w : wbbr) : wbbr :=
  {| min_rtt_us := min_rtt_us w; min_rtt_stamp := v; probe_rtt_done_stamp := probe_rtt_done_stamp w;
     bw := bw w; rtt_cnt := rtt_cnt w; next_rtt_delivered := next_rtt_delivered w;
     cycle_mstamp := cycle_mstamp w; mode := mode w; prev_ca_state := prev_ca_state w;
     packet_conservation := packet_conservation w; restore_cwnd := restore_cwnd w; round_start := round_start w;
     tso_segs_goal := tso_segs_goal w; idle_restart := idle_restart w; probe_rtt_round_done := probe_rtt_round_done w;
     lt_is_sampling := lt_is_sampling w; lt_rtt_cnt := lt_rtt_cnt w; lt_use_bw := lt_use_bw w;
     lt_bw := lt_bw w; lt_last_delivered := lt_last_delivered w; lt_last_stamp := lt_last_stamp w;
     lt_last_lost := lt_last_lost w; pacing_gain := pacing_gain w; cwnd_gain := cwnd_gain w;
     full_bw_cnt := full_bw_cnt w; cycle_idx := cycle_idx w; has_seen_rtt := has_seen_rtt w;
     prior_cwnd := prior_cwnd w; full_bw := full_bw w; instant_rate := instant_rate w |}.

Definition set_probe_rtt_done_stamp (v : Z) (w : wbbr) : wbbr :=
  {| min_rtt_us := min_rtt_us w; min_rtt_stamp := min_rtt_stamp w; probe_rtt_done_stamp := v;
     bw := bw w; rtt_cnt := rtt_cnt w; next_rtt_delivered := next_rtt_delivered w;
     cycle_mstamp := cycle_mstamp w; mode := mode w; prev_ca_state := prev_ca_state w;
     packet_conservation := packet_conservation w; restore_cwnd := restore_cwnd w; round_start := round_start w;
     tso_segs_goal := tso_segs_goal w; idle_restart := idle_restart w; probe_rtt_round_done := probe_rtt_round_done w;
     lt_is_sampling := lt_is_sampling w; lt_rtt_cnt := lt_rtt_cnt w; lt_use_bw := lt_use_bw w;
     lt_bw := lt_bw w; lt_last_delivered := lt_last_delivered w; lt_last_stamp := lt_last_stamp w;
     lt_last_lost := lt_last_lost w; pacing_gain := pacing_gain w; cwnd_gain := cwnd_gain w;
     full_bw_cnt := full_bw_cnt w; cycle_idx := cycle_idx w; has_seen_rtt := has_seen_rtt w;
     prior_cwnd := prior_cwnd w; full_bw := full_bw w; instant_rate := instant_rate w |}.

Definition set_bw (v : minmax) (w : wbbr) : wbbr :=
  {| min_rtt_us := min_rtt_us w; min_rtt_stamp := min_rtt_stamp w; probe_rtt_done_stamp := probe_rtt_done_stamp w;
     bw := v; rtt_cnt := rtt_cnt w; next_rtt_delivered := next_rtt_delivered w;
     cycle_mstamp := cycle_mstamp w; mode := mode w; prev_ca_state := prev_ca_state w;
     packet_conservation := packet_conservation w; restore_cwnd := restore_cwnd w; round_start := round_start w;
     tso_segs_goal := tso_segs_goal w; idle_restart := idle_restart w; probe_rtt_round_done := probe_rtt_round_done w;
     lt_is_sampling := lt_is_sampling w; lt_rtt_cnt := lt_rtt_cnt w; lt_use_bw := lt_use_bw w;
     lt_bw := lt_bw w; lt_last_delivered := lt_last_delivered w; lt_last_stamp := lt_last_stamp w;
     lt_last_lost := lt_last_lost w; pacing_gain := pacing_gain w; cwnd_gain := cwnd_gain w;
     full_bw_cnt := full_bw_cnt w; cycle_idx := cycle_idx w; has_seen_rtt := has_seen_rtt w;
     prior_cwnd := prior_cwnd w; full_bw := full_bw w; instant_rate := instant_rate w |}.

Definition set_rtt_cnt (v : Z) (w : wbbr) : wbbr :=
  {| min_rtt_us := min_rtt_us w; min_rtt_stamp := min_rtt_stamp w; probe_rtt_done_stamp := probe_rtt_done_stamp w;
     bw := bw w; rtt_cnt := v; next_rtt_delivered := next_rtt_delivered w;
     cycle_mstamp := cycle_mstamp w; mode := mode w; prev_ca_state := prev_ca_state w;
     packet_conservation := packet_conservation w; restore_cwnd := restore_cwnd w; round_start := round_start w;
     tso_segs_goal := tso_segs_goal w; idle_restart := idle_restart w; probe_rtt_round_done := probe_rtt_round_done w;
     lt_is_sampling := lt_is_sampling w; lt_rtt_cnt := lt_rtt_cnt w; lt_use_bw := lt_use_bw w;
     lt_bw := lt_bw w; lt_last_delivered := lt_last_delivered w; lt_last_stamp := lt_last_stamp w;
     lt_last_lost := lt_last_lost w; pacing_gain := pacing_gain w; cwnd_gain := cwnd_gain w;
     full_bw_cnt := full_bw_cnt w; cycle_idx := cycle_idx w; has_seen_rtt := has_seen_rtt w;
     prior_cwnd := prior_cwnd w; full_bw := full_bw w; instant_rate := instant_rate w |}.

Definition set_next_rtt_delivered (v : Z) (w : wbbr) : wbbr :=
  {| min_rtt_us := min_rtt_us w; min_rtt_stamp := min_rtt_stamp w; probe_rtt_done_stamp := probe_rtt_done_stamp w;
     bw := bw w; rtt_cnt := rtt_cnt w; next_rtt_delivered := v;
     cycle_mstamp := cycle_mstamp w; mode := mode w; prev_ca_state := prev_ca_state w;
     packet_conservation := packet_conservation w; restore_cwnd := restore_cwnd w; round_start := round_start w;
     tso_segs_goal := tso_segs_goal w; idle_restart := idle_restart w; probe_rtt_round_done := probe_rtt_round_done w;
     lt_is_sampling := lt_is_sampling w; lt_rtt_cnt := lt_rtt_cnt w; lt_use_bw := lt_use_bw w;
     lt_bw := lt_bw w; lt_last_delivered := lt_last_delivered w; lt_last_stamp := lt_last_stamp w;
     lt_last_lost := lt_last_lost w; pacing_gain := pacing_gain w; cwnd_gain := cwnd_gain w;
     full_bw_cnt := full_bw_cnt w; cycle_idx := cycle_idx w; has_seen_rtt := has_seen_rtt w;
     prior_cwnd := prior_cwnd w; full_bw := full_bw w; instant_rate := instant_rate w |}.

Definition set_cycle_mstamp (v : skb_mstamp) (w : wbbr) : wbbr :=
  {| min_rtt_us := min_rtt_us w; min_rtt_stamp := min_rtt_stamp w; probe_rtt_done_stamp := probe_rtt_done_stamp w;
     bw := bw w; rtt_cnt := rtt_cnt w; next_rtt_delivered := next_rtt_delivered w;
     cycle_mstamp := v; mode := mode w; prev_ca_state := prev_ca_state w;
     packet_conservation := packet_conservation w; restore_cwnd := restore_cwnd w; round_start := round_start w;
     tso_segs_goal := tso_segs_goal w; idle_restart := idle_restart w; probe_rtt_round_done := probe_rtt_round_done w;
     lt_is_sampling := lt_is_sampling w; lt_rtt_cnt := lt_rtt_cnt w; lt_use_bw := lt_use_bw w;
     lt_bw := lt_bw w; lt_last_delivered := lt_last_delivered w; lt_last_stamp := lt_last_stamp w;
     lt_last_lost := lt_last_lost w; pacing_gain := pacing_gain w; cwnd_gain := cwnd_gain w;
     full_bw_cnt := full_bw_cnt w; cycle_idx := cycle_idx w; has_seen_rtt := has_seen_rtt w;
     prior_cwnd := prior_cwnd w; full_bw := full_bw w; instant_rate := instant_rate w |}.

Definition set_mode (v : wbbr_mode) (w : wbbr) : wbbr :=
  {| min_rtt_us := min_rtt_us w; min_rtt_stamp := min_rtt_stamp w; probe_rtt_done_stamp := probe_rtt_done_stamp w;
     bw := bw w; rtt_cnt := rtt_cnt w; next_rtt_delivered := next_rtt_delivered w;
     cycle_mstamp := cycle_mstamp w; mode := v; prev_ca_state := prev_ca_state w;
     packet_conservation := packet_conservation w; restore_cwnd := restore_cwnd w; round_start := round_start w;
     tso_segs_goal := tso_segs_goal w; idle_restart := idle_restart w; probe_rtt_round_done := probe_rtt_round_done w;
     lt_is_sampling := lt_is_sampling w; lt_rtt_cnt := lt_rtt_cnt w; lt_use_bw := lt_use_bw w;
     lt_bw := lt_bw w; lt_last_delivered := lt_last_delivered w; lt_last_stamp := lt_last_stamp w;
     lt_last_lost := lt_last_lost w; pacing_gain := pacing_gain w; cwnd_gain := cwnd_gain w;
     full_bw_cnt := full_bw_cnt w; cycle_idx := cycle_idx w; has_seen_rtt := has_seen_rtt w;
     prior_cwnd := prior_cwnd w; full_bw := full_bw w; instant_rate := instant_rate w |}.

Definition set_prev_ca_state (v : Z) (w : wbbr) : wbbr :=
  {| min_rtt_us := min_rtt_us w; min_rtt_stamp := min_rtt_stamp w; probe_rtt_done_stamp := probe_rtt_done_stamp w;
     bw := bw w; rtt_cnt := rtt_cnt w; next_rtt_delivered := next_rtt_delivered w;
     cycle_mstamp := cycle_mstamp w; mode := mode w; prev_ca_state := v;
     packet_conservation := packet_conservation w; restore_cwnd := restore_cwnd w; round_start := round_start w;
     tso_segs_goal := tso_segs_goal w; idle_restart := idle_restart w; probe_rtt_round_done := probe_rtt_round_done w;
     lt_is_sampling := lt_is_sampling w; lt_rtt_cnt := lt_rtt_cnt w; lt_use_bw := lt_use_bw w;
     lt_bw := lt_bw w; lt_last_delivered := lt_last_delivered w; lt_last_stamp := lt_last_stamp w;
     lt_last_lost := lt_last_lost w; pacing_gain := pacing_gain w; cwnd_gain := cwnd_gain w;
     full_bw_cnt := full_bw_cnt w; cycle_idx := cycle_idx w; has_seen_rtt := has_seen_rtt w;
     prior_cwnd := prior_cwnd w; full_bw := full_bw w; instant_rate := instant_rate w |}.

Definition set_packet_conservation (v : bool) (w : wbbr) : wbbr :=
  {| min_rtt_us := min_rtt_us w; min_rtt_stamp := min_rtt_stamp w; probe_rtt_done_stamp := probe_rtt_done_stamp w;
     bw := bw w; rtt_cnt := rtt_cnt w; next_rtt_delivered := next_rtt_delivered w;
     cycle_mstamp := cycle_mstamp w; mode := mode w; prev_ca_state := prev_ca_state w;
     packet_conservation := v; restore_cwnd := restore_cwnd w; round_start := round_start w;
     tso_segs_goal := tso_segs_goal w; idle_restart := idle_restart w; probe_rtt_round_done := probe_rtt_round_done w;
     lt_is_sampling := lt_is_sampling w; lt_rtt_cnt := lt_rtt_cnt w; lt_use_bw := lt_use_bw w;
     lt_bw := lt_bw w; lt_last_delivered := lt_last_delivered w; lt_last_stamp := lt_last_stamp w;
     lt_last_lost := lt_last_lost w; pacing_gain := pacing_gain w; cwnd_gain := cwnd_gain w;
     full_bw_cnt := full_bw_cnt w; cycle_idx := cycle_idx w; has_seen_rtt := has_seen_rtt w;
     prior_cwnd := prior_cwnd w; full_bw := full_bw w; instant_rate := instant_rate w |}.

Definition set_restore_cwnd (v : bool) (w : wbbr) : wbbr :=
  {| min_rtt_us := min_rtt_us w; min_rtt_stamp := min_rtt_stamp w; probe_rtt_done_stamp := probe_rtt_done_stamp w;
     bw := bw w; rtt_cnt := rtt_cnt w; next_rtt_delivered := next_rtt_delivered w;
     cycle_mstamp := cycle_mstamp w; mode := mode w; prev_ca_state := prev_ca_state w;
     packet_conservation := packet_conservation w; restore_cwnd := v; round_start := round_start w;
     tso_segs_goal := tso_segs_goal w; idle_restart := idle_restart w; probe_rtt_round_done := probe_rtt_round_done w;
     lt_is_sampling := lt_is_sampling w; lt_rtt_cnt := lt_rtt_cnt w; lt_use_bw := lt_use_bw w;
     lt_bw := lt_bw w; lt_last_delivered := lt_last_delivered w; lt_last_stamp := lt_last_stamp w;
     lt_last_lost := lt_last_lost w; pacing_gain := pacing_gain w; cwnd_gain := cwnd_gain w;
     full_bw_cnt := full_bw_cnt w; cycle_idx := cycle_idx w; has_seen_rtt := has_seen_rtt w;
     prior_cwnd := prior_cwnd w; full_bw := full_bw w; instant_rate := instant_rate w |}.

Definition set_round_start (v : bool) (w : wbbr) : wbbr :=
  {| min_rtt_us := min_rtt_us w; min_rtt_stamp := min_rtt_stamp w; probe_rtt_done_stamp := probe_rtt_done_stamp w;
     bw := bw w; rtt_cnt := rtt_cnt w; next_rtt_delivered := next_rtt_delivered w;
     cycle_mstamp := cycle_mstamp w; mode := mode w; prev_ca_state := prev_ca_state w;
     packet_conservation := packet_conservation w; restore_cwnd := restore_cwnd w; round_start := v;
     tso_segs_goal := tso_segs_goal w; idle_restart := idle_restart w; probe_rtt_round_done := probe_rtt_round_done w;
     lt_is_sampling := lt_is_sampling w; lt_rtt_cnt := lt_rtt_cnt w; lt_use_bw := lt_use_bw w;
     lt_bw := lt_bw w; lt_last_delivered := lt_last_delivered w; lt_last_stamp := lt_last_stamp w;
     lt_last_lost := lt_last_lost w; pacing_gain := pacing_gain w; cwnd_gain := cwnd_gain w;
     full_bw_cnt := full_bw_cnt w; cycle_idx := cycle_idx w; has_seen_rtt := has_seen_rtt w;
     prior_cwnd := prior_cwnd w; full_bw := full_bw w; instant_rate := instant_rate w |}.

Definition set_tso_segs_goal (v : Z) (w : wbbr) : wbbr :=
  {| min_rtt_us := min_rtt_us w; min_rtt_stamp := min_rtt_stamp w; probe_rtt_done_stamp := probe_rtt_done_stamp w;
     bw := bw w; rtt_cnt := rtt_cnt w; next_rtt_delivered := next_rtt_delivered w;
     cycle_mstamp := cycle_mstamp w; mode := mode w; prev_ca_state := prev_ca_state w;
     packet_conservation := packet_conservation w; restore_cwnd := restore_cwnd w; round_start := round_start w;
     tso_segs_goal := v; idle_restart := idle_restart w; probe_rtt_round_done := probe_rtt_round_done w;
     lt_is_sampling := lt_is_sampling w; lt_rtt_cnt := lt_rtt_cnt w; lt_use_bw := lt_use_bw w;
     lt_bw := lt_bw w; lt_last_delivered := lt_last_delivered w; lt_last_stamp := lt_last_stamp w;
     lt_last_lost := lt_last_lost w; pacing_gain := pacing_gain w; cwnd_gain := cwnd_gain w;
     full_bw_cnt := full_bw_cnt w; cycle_idx := cycle_idx w; has_seen_rtt := has_seen_rtt w;
     prior_cwnd := prior_cwnd w; full_bw := full_bw w; instant_rate := instant_rate w |}.

Definition set_idle_restart (v : bool) (w : wbbr) : wbbr :=
  {| min_rtt_us := min_rtt_us w; min_rtt_stamp := min_rtt_stamp w; probe_rtt_done_stamp := probe_rtt_done_stamp w;
     bw := bw w; rtt_cnt := rtt_cnt w; next_rtt_delivered := next_rtt_delivered w;
     cycle_mstamp := cycle_mstamp w; mode := mode w; prev_ca_state := prev_ca_state w;
     packet_conservation := packet_conservation w; restore_cwnd := restore_cwnd w; round_start := round_start w;
     tso_segs_goal := tso_segs_goal w; idle_restart := v; probe_rtt_round_done := probe_rtt_round_done w;
     lt_is_sampling := lt_is_sampling w; lt_rtt_cnt := lt_rtt_cnt w; lt_use_bw := lt_use_bw w;
     lt_bw := lt_bw w; lt_last_delivered := lt_last_delivered w; lt_last_stamp := lt_last_stamp w;
     lt_last_lost := lt_last_lost w; pacing_gain := pacing_gain w; cwnd_gain := cwnd_gain w;
     full_bw_cnt := full_bw_cnt w; cycle_idx := cycle_idx w; has_seen_rtt := has_seen_rtt w;
     prior_cwnd := prior_cwnd w; full_bw := full_bw w; instant_rate := instant_rate w |}.

Definition set_probe_rtt_round_done (v : bool) (w : wbbr) : wbbr :=
  {| min_rtt_us := min_rtt_us w; min_rtt_stamp := min_rtt_stamp w; probe_rtt_done_stamp := probe_rtt_done_stamp w;
     bw := bw w; rtt_cnt := rtt_cnt w; next_rtt_delivered := next_rtt_delivered w;
     cycle_mstamp := cycle_mstamp w; mode := mode w; prev_ca_state := prev_ca_state w;
     packet_conservation := packet_conservation w; restore_cwnd := restore_cwnd w; round_start := round_start w;
     tso_segs_goal := tso_segs_goal w; idle_restart := idle_restart w; probe_rtt_round_done := v;
     lt_is_sampling := lt_is_sampling w; lt_rtt_cnt := lt_rtt_cnt w; lt_use_bw := lt_use_bw w;
     lt_bw := lt_bw w; lt_last_delivered := lt_last_delivered w; lt_last_stamp := lt_last_stamp w;
     lt_last_lost := lt_last_lost w; pacing_gain := pacing_gain w; cwnd_gain := cwnd_gain w;
     full_bw_cnt := full_bw_cnt w; cycle_idx := cycle_idx w; has_seen_rtt := has_seen_rtt w;
     prior_cwnd := prior_cwnd w; full_bw := full_bw w; instant_rate := instant_rate w |}.

Definition set_lt_is_sampling (v : bool) (w : wbbr) : wbbr :=
  {| min_rtt_us := min_rtt_us w; min_rtt_stamp := min_rtt_stamp w; probe_rtt_done_stamp := probe_rtt_done_stamp w;
     bw := bw w; rtt_cnt := rtt_cnt w; next_rtt_delivered := next_rtt_delivered w;
     cycle_mstamp := cycle_mstamp w; mode := mode w; prev_ca_state := prev_ca_state w;
     packet_conservation := packet_conservation w; restore_cwnd := restore_cwnd w; round_start := round_start w;
     tso_segs_goal := tso_segs_goal w; idle_restart := idle_restart w; probe_rtt_round_done := probe_rtt_round_done w;
     lt_is_sampling := v; lt_rtt_cnt := lt_rtt_cnt w; lt_use_bw := lt_use_bw w;
     lt_bw := lt_bw w; lt_last_delivered := lt_last_delivered w; lt_last_stamp := lt_last_stamp w;
     lt_last_lost := lt_last_lost w; pacing_gain := pacing_gain w; cwnd_gain := cwnd_gain w;
     full_bw_cnt := full_bw_cnt w; cycle_idx := cycle_idx w; has_seen_rtt := has_seen_rtt w;
     prior_cwnd := prior_cwnd w; full_bw := full_bw w; instant_rate := instant_rate w |}.

Definition set_lt_rtt_cnt (v : Z) (w : wbbr) : wbbr :=
  {| min_rtt_us := min_rtt_us w; min_rtt_stamp := min_rtt_stamp w; probe_rtt_done_stamp := probe_rtt_done_stamp w;
     bw := bw w; rtt_cnt := rtt_cnt w; next_rtt_delivered := next_rtt_delivered w;
     cycle_mstamp := cycle_mstamp w; mode := mode w; prev_ca_state := prev_ca_state w;
     packet_conservation := packet_conservation w; restore_cwnd := restore_cwnd w; round_start := round_start w;
     tso_segs_goal := tso_segs_goal w; idle_restart := idle_restart w; probe_rtt_round_done := probe_rtt_round_done w;
     lt_is_sampling := lt_is_sampling w; lt_rtt_cnt := v; lt_use_bw := lt_use_bw w;
     lt_bw := lt_bw w; lt_last_delivered := lt_last_delivered w; lt_last_stamp := lt_last_stamp w;
     lt_last_lost := lt_last_lost w; pacing_gain := pacing_gain w; cwnd_gain := cwnd_gain w;
     full_bw_cnt := full_bw_cnt w; cycle_idx := cycle_idx w; has_seen_rtt := has_seen_rtt w;
     prior_cwnd := prior_cwnd w; full_bw := full_bw w; instant_rate := instant_rate w |}.

Definition set_lt_use_bw (v : bool) (w : wbbr) : wbbr :=
  {| min_rtt_us := min_rtt_us w; min_rtt_stamp := min_rtt_stamp w; probe_rtt_done_stamp := probe_rtt_done_stamp w;
     bw := bw w; rtt_cnt := rtt_cnt w; next_rtt_delivered := next_rtt_delivered w;
     cycle_mstamp := cycle_mstamp w; mode := mode w; prev_ca_state := prev_ca_state w;
     packet_conservation := packet_conservation w; restore_cwnd := restore_cwnd w; round_start := round_start w;
     tso_segs_goal := tso_segs_goal w; idle_restart := idle_restart w; probe_rtt_round_done := probe_rtt_round_done w;
     lt_is_sampling := lt_is_sampling w; lt_rtt_cnt := lt_rtt_cnt w; lt_use_bw := v;
     lt_bw := lt_bw w; lt_last_delivered := lt_last_delivered w; lt_last_stamp := lt_last_stamp w;
     lt_last_lost := lt_last_lost w; pacing_gain := pacing_gain w; cwnd_gain := cwnd_gain w;
     full_bw_cnt := full_bw_cnt w; cycle_idx := cycle_idx w; has_seen_rtt := has_seen_rtt w;
     prior_cwnd := prior_cwnd w; full_bw := full_bw w; instant_rate := instant_rate w |}.

Definition set_lt_bw (v : Z) (w : wbbr) : wbbr :=
  {| min_rtt_us := min_rtt_us w; min_rtt_stamp := min_rtt_stamp w; probe_rtt_done_stamp := probe_rtt_done_stamp w;
     bw := bw w; rtt_cnt := rtt_cnt w; next_rtt_delivered := next_rtt_delivered w;
     cycle_mstamp := cycle_mstamp w; mode := mode w; prev_ca_state := prev_ca_state w;
     packet_conservation := packet_conservation w; restore_cwnd := restore_cwnd w; round_start := round_start w;
     tso_segs_goal := tso_segs_goal w; idle_restart := idle_restart w; probe_rtt_round_done := probe_rtt_round_done w;
     lt_is_sampling := lt_is_sampling w; lt_rtt_cnt := lt_rtt_cnt w; lt_use_bw := lt_use_bw w;
     lt_bw := v; lt_last_delivered := lt_last_delivered w; lt_last_stamp := lt_last_stamp w;
     lt_last_lost := lt_last_lost w; pacing_gain := pacing_gain w; cwnd_gain := cwnd_gain w;
     full_bw_cnt := full_bw_cnt w; cycle_idx := cycle_idx w; has_seen_rtt := has_seen_rtt w;
     prior_cwnd := prior_cwnd w; full_bw := full_bw w; instant_rate := instant_rate w |}.

Definition set_lt_last_delivered (v : Z) (w : wbbr) : wbbr :=
  {| min_rtt_us := min_rtt_us w; min_rtt_stamp := min_rtt_stamp w; probe_rtt_done_stamp := probe_rtt_done_stamp w;
     bw := bw w; rtt_cnt := rtt_cnt w; next_rtt_delivered := next_rtt_delivered w;
     cycle_mstamp := cycle_mstamp w; mode := mode w; prev_ca_state := prev_ca_state w;
     packet_conservation := packet_conservation w; restore_cwnd := restore_cwnd w; round_start := round_start w;
     tso_segs_goal := tso_segs_goal w; idle_restart := idle_restart w; probe_rtt_round_done := probe_rtt_round_done w;
     lt_is_sampling := lt_is_sampling w; lt_rtt_cnt := lt_rtt_cnt w; lt_use_bw := lt_use_bw w;
     lt_bw := lt_bw w; lt_last_delivered := v; lt_last_stamp := lt_last_stamp w;
     lt_last_lost := lt_last_lost w; pacing_gain := pacing_gain w; cwnd_gain := cwnd_gain w;
     full_bw_cnt := full_bw_cnt w; cycle_idx := cycle_idx w; has_seen_rtt := has_seen_rtt w;
     prior_cwnd := prior_cwnd w; full_bw := full_bw w; instant_rate := instant_rate w |}.

Definition set_lt_last_stamp (v : Z) (w : wbbr) : wbbr :=
  {| min_rtt_us := min_rtt_us w; min_rtt_stamp := min_rtt_stamp w; probe_rtt_done_stamp := probe_rtt_done_stamp w;
     bw := bw w; rtt_cnt := rtt_cnt w; next_rtt_delivered := next_rtt_delivered w;
     cycle_mstamp := cycle_mstamp w; mode := mode w; prev_ca_state := prev_ca_state w;
     packet_conservation := packet_conservation w; restore_cwnd := restore_cwnd w; round_start := round_start w;
     tso_segs_goal := tso_segs_goal w; idle_restart := idle_restart w; probe_rtt_round_done := probe_rtt_round_done w;
     lt_is_sampling := lt_is_sampling w; lt_rtt_cnt := lt_rtt_cnt w; lt_use_bw := lt_use_bw w;
     lt_bw := lt_bw w; lt_last_delivered := lt_last_delivered w; lt_last_stamp := v;
     lt_last_lost := lt_last_lost w; pacing_gain := pacing_gain w; cwnd_gain := cwnd_gain w;
     full_bw_cnt := full_bw_cnt w; cycle_idx := cycle_idx w; has_seen_rtt := has_seen_rtt w;
     prior_cwnd := prior_cwnd w; full_bw := full_bw w; instant_rate := instant_rate w |}.

Definition set_lt_last_lost (v : Z) (w : wbbr) : wbbr :=
  {| min_rtt_us := min_rtt_us w; min_rtt_stamp := min_rtt_stamp w; probe_rtt_done_stamp := probe_rtt_done_stamp w;
     bw := bw w; rtt_cnt := rtt_cnt w; next_rtt_delivered := next_rtt_delivered w;
     cycle_mstamp := cycle_mstamp w; mode := mode w; prev_ca_state := prev_ca_state w;
     packet_conservation := packet_conservation w; restore_cwnd := restore_cwnd w; round_start := round_start w;
     tso_segs_goal := tso_segs_goal w; idle_restart := idle_restart w; probe_rtt_round_done := probe_rtt_round_done w;
     lt_is_sampling := lt_is_sampling w; lt_rtt_cnt := lt_rtt_cnt w; lt_use_bw := lt_use_bw w;
     lt_bw := lt_bw w; lt_last_delivered := lt_last_delivered w; lt_last_stamp := lt_last_stamp w;
     lt_last_lost := v; pacing_gain := pacing_gain w; cwnd_gain := cwnd_gain w;
     full_bw_cnt := full_bw_cnt w; cycle_idx := cycle_idx w; has_seen_rtt := has_seen_rtt w;
     prior_cwnd := prior_cwnd w; full_bw := full_bw w; instant_rate := instant_rate w |}.

Definition set_pacing_gain (v : Z) (w : wbbr) : wbbr :=
  {| min_rtt_us := min_rtt_us w; min_rtt_stamp := min_rtt_stamp w; probe_rtt_done_stamp := probe_rtt_done_stamp w;
     bw := bw w; rtt_cnt := rtt_cnt w; next_rtt_delivered := next_rtt_delivered w;
     cycle_mstamp := cycle_mstamp w; mode := mode w; prev_ca_state := prev_ca_state w;
     packet_conservation := packet_conservation w; restore_cwnd := restore_cwnd w; round_start := round_start w;
     tso_segs_goal := tso_segs_goal w; idle_restart := idle_restart w; probe_rtt_round_done := probe_rtt_round_done w;
     lt_is_sampling := lt_is_sampling w; lt_rtt_cnt := lt_rtt_cnt w; lt_use_bw := lt_use_bw w;
     lt_bw := lt_bw w; lt_last_delivered := lt_last_delivered w; lt_last_stamp := lt_last_stamp w;
     lt_last_lost := lt_last_lost w; pacing_gain := v; cwnd_gain := cwnd_gain w;
     full_bw_cnt := full_bw_cnt w; cycle_idx := cycle_idx w; has_seen_rtt := has_seen_rtt w;
     prior_cwnd := prior_cwnd w; full_bw := full_bw w; instant_rate := instant_rate w |}.

Definition set_cwnd_gain (v : Z) (w : wbbr) : wbbr :=
  {| min_rtt_us := min_rtt_us w; min_rtt_stamp := min_rtt_stamp w; probe_rtt_done_stamp := probe_rtt_done_stamp w;
     bw := bw w; rtt_cnt := rtt_cnt w; next_rtt_delivered := next_rtt_delivered w;
     cycle_mstamp := cycle_mstamp w; mode := mode w; prev_ca_state := prev_ca_state w;
     packet_conservation := packet_conservation w; restore_cwnd := restore_cwnd w; round_start := round_start w;
     tso_segs_goal := tso_segs_goal w; idle_restart := idle_restart w; probe_rtt_round_done := probe_rtt_round_done w;
     lt_is_sampling := lt_is_sampling w; lt_rtt_cnt := lt_rtt_cnt w; lt_use_bw := lt_use_bw w;
     lt_bw := lt_bw w; lt_last_delivered := lt_last_delivered w; lt_last_stamp := lt_last_stamp w;
     lt_last_lost := lt_last_lost w; pacing_gain := pacing_gain w; cwnd_gain := v;
     full_bw_cnt := full_bw_cnt w; cycle_idx := cycle_idx w; has_seen_rtt := has_seen_rtt w;
     prior_cwnd := prior_cwnd w; full_bw := full_bw w; instant_rate := instant_rate w |}.

Definition set_full_bw_cnt (v : Z) (w : wbbr) : wbbr :=
  {| min_rtt_us := min_rtt_us w; min_rtt_stamp := min_rtt_stamp w; probe_rtt_done_stamp := probe_rtt_done_stamp w;
     bw := bw w; rtt_cnt := rtt_cnt w; next_rtt_delivered := next_rtt_delivered w;
     cycle_mstamp := cycle_mstamp w; mode := mode w; prev_ca_state := prev_ca_state w;
     packet_conservation := packet_conservation w; restore_cwnd := restore_cwnd w; round_start := round_start w;
     tso_segs_goal := tso_segs_goal w; idle_restart := idle_restart w; probe_rtt_round_done := probe_rtt_round_done w;
     lt_is_sampling := lt_is_sampling w; lt_rtt_cnt := lt_rtt_cnt w; lt_use_bw := lt_use_bw w;
     lt_bw := lt_bw w; lt_last_delivered := lt_last_delivered w; lt_last_stamp := lt_last_stamp w;
     lt_last_lost := lt_last_lost w; pacing_gain := pacing_gain w; cwnd_gain := cwnd_gain w;
     full_bw_cnt := v; cycle_idx := cycle_idx w; has_seen_rtt := has_seen_rtt w;
     prior_cwnd := prior_cwnd w; full_bw := full_bw w; instant_rate := instant_rate w |}.

Definition set_cycle_idx (v : Z) (w : wbbr) : wbbr :=
  {| min_rtt_us := min_rtt_us w; min_rtt_stamp := min_rtt_stamp w; probe_rtt_done_stamp := probe_rtt_done_stamp w;
     bw := bw w; rtt_cnt := rtt_cnt w; next_rtt_delivered := next_rtt_delivered w;
     cycle_mstamp := cycle_mstamp w; mode := mode w; prev_ca_state := prev_ca_state w;
     packet_conservation := packet_conservation w; restore_cwnd := restore_cwnd w; round_start := round_start w;
     tso_segs_goal := tso_segs_goal w; idle_restart := idle_restart w; probe_rtt_round_done := probe_rtt_round_done w;
     lt_is_sampling := lt_is_sampling w; lt_rtt_cnt := lt_rtt_cnt w; lt_use_bw := lt_use_bw w;
     lt_bw := lt_bw w; lt_last_delivered := lt_last_delivered w; lt_last_stamp := lt_last_stamp w;
     lt_last_lost := lt_last_lost w; pacing_gain := pacing_gain w; cwnd_gain := cwnd_gain w;
     full_bw_cnt := full_bw_cnt w; cycle_idx := v; has_seen_rtt := has_seen_rtt w;
     prior_cwnd := prior_cwnd w; full_bw := full_bw w; instant_rate := instant_rate w |}.

Definition set_has_seen_rtt (v : bool) (w : wbbr) : wbbr :=
  {| min_rtt_us := min_rtt_us w; min_rtt_stamp := min_rtt_stamp w; probe_rtt_done_stamp := probe_rtt_done_stamp w;
     bw := bw w; rtt_cnt := rtt_cnt w; next_rtt_delivered := next_rtt_delivered w;
     cycle_mstamp := cycle_mstamp w; mode := mode w; prev_ca_state := prev_ca_state w;
     packet_conservation := packet_conservation w; restore_cwnd := restore_cwnd w; round_start := round_start w;
     tso_segs_goal := tso_segs_goal w; idle_restart := idle_restart w; probe_rtt_round_done := probe_rtt_round_done w;
     lt_is_sampling := lt_is_sampling w; lt_rtt_cnt := lt_rtt_cnt w; lt_use_bw := lt_use_bw w;
     lt_bw := lt_bw w; lt_last_delivered := lt_last_delivered w; lt_last_stamp := lt_last_stamp w;
     lt_last_lost := lt_last_lost w; pacing_gain := pacing_gain w; cwnd_gain := cwnd_gain w;
     full_bw_cnt := full_bw_cnt w; cycle_idx := cycle_idx w; has_seen_rtt := v;
     prior_cwnd := prior_cwnd w; full_bw := full_bw w; instant_rate := instant_rate w |}.

Definition set_prior_cwnd (v : Z) (w : wbbr) : wbbr :=
  {| min_rtt_us := min_rtt_us w; min_rtt_stamp := min_rtt_stamp w; probe_rtt_done_stamp := probe_rtt_done_stamp w;
     bw := bw w; rtt_cnt := rtt_cnt w; next_rtt_delivered := next_rtt_delivered w;
     cycle_mstamp := cycle_mstamp w; mode := mode w; prev_ca_state := prev_ca_state w;
     packet_conservation := packet_conservation w; restore_cwnd := restore_cwnd w; round_start := round_start w;
     tso_segs_goal := tso_segs_goal w; idle_restart := idle_restart w; probe_rtt_round_done := probe_rtt_round_done w;
     lt_is_sampling := lt_is_sampling w; lt_rtt_cnt := lt_rtt_cnt w; lt_use_bw := lt_use_bw w;
     lt_bw := lt_bw w; lt_last_delivered := lt_last_delivered w; lt_last_stamp := lt_last_stamp w;
     lt_last_lost := lt_last_lost w; pacing_gain := pacing_gain w; cwnd_gain := cwnd_gain w;
     full_bw_cnt := full_bw_cnt w; cycle_idx := cycle_idx w; has_seen_rtt := has_seen_rtt w;
     prior_cwnd := v; full_bw := full_bw w; instant_rate := instant_rate w |}.

Definition set_full_bw (v : Z) (w : wbbr) : wbbr :=
  {| min_rtt_us := min_rtt_us w; min_rtt_stamp := min_rtt_stamp w; probe_rtt_done_stamp := probe_rtt_done_stamp w;
     bw := bw w; rtt_cnt := rtt_cnt w; next_rtt_delivered := next_rtt_delivered w;
     cycle_mstamp := cycle_mstamp w; mode := mode w; prev_ca_state := prev_ca_state w;
     packet_conservation := packet_conservation w; restore_cwnd := restore_cwnd w; round_start := round_start w;
     tso_segs_goal := tso_segs_goal w; idle_restart := idle_restart w; probe_rtt_round_done := probe_rtt_round_done w;
     lt_is_sampling := lt_is_sampling w; lt_rtt_cnt := lt_rtt_cnt w; lt_use_bw := lt_use_bw w;
     lt_bw := lt_bw w; lt_last_delivered := lt_last_delivered w; lt_last_stamp := lt_last_stamp w;
     lt_last_lost := lt_last_lost w; pacing_gain := pacing_gain w; cwnd_gain := cwnd_gain w;
     full_bw_cnt := full_bw_cnt w; cycle_idx := cycle_idx w; has_seen_rtt := has_seen_rtt w;
     prior_cwnd := prior_cwnd w; full_bw := v; instant_rate := instant_rate w |}.

Definition set_instant_rate (v : Z) (w : wbbr) : wbbr :=
  {| min_rtt_us := min_rtt_us w; min_rtt_stamp := min_rtt_stamp w; probe_rtt_done_stamp := probe_rtt_done_stamp w;
     bw := bw w; rtt_cnt := rtt_cnt w; next_rtt_delivered := next_rtt_delivered w;
     cycle_mstamp := cycle_mstamp w; mode := mode w; prev_ca_state := prev_ca_state w;
     packet_conservation := packet_conservation w; restore_cwnd := restore_cwnd w; round_start := round_start w;
     tso_segs_goal := tso_segs_goal w; idle_restart := idle_restart w; probe_rtt_round_done := probe_rtt_round_done w;
     lt_is_sampling := lt_is_sampling w; lt_rtt_cnt := lt_rtt_cnt w; lt_use_bw := lt_use_bw w;
     lt_bw := lt_bw w; lt_last_delivered := lt_last_delivered w; lt_last_stamp := lt_last_stamp w;
     lt_last_lost := lt_last_lost w; pacing_gain := pacing_gain w; cwnd_gain := cwnd_gain w;
     full_bw_cnt := full_bw_cnt w; cycle_idx := cycle_idx w; has_seen_rtt := has_seen_rtt w;
     prior_cwnd := prior_cwnd w; full_bw := full_bw w; instant_rate := v |}.

Definition set_snd_cwnd (v : Z) (sk : sock) : sock :=
  {| snd_cwnd := v; snd_cwnd_clamp := snd_cwnd_clamp sk; delivered := delivered sk;
     lost := lost sk; delivered_mstamp := delivered_mstamp sk; app_limited := app_limited sk;
     srtt_us := srtt_us sk; mss_cache := mss_cache sk; tcp_min_rtt := tcp_min_rtt sk;
     packets_in_flight := packets_in_flight sk; icsk_ca_state := icsk_ca_state sk; sk_pacing_rate := sk_pacing_rate sk;
     sk_max_pacing_rate := sk_max_pacing_rate sk; can_send := can_send sk; siblings := siblings sk;
     ca := ca sk |}.

Definition set_app_limited (v : Z) (sk : sock) : sock :=
  {| snd_cwnd := snd_cwnd sk; snd_cwnd_clamp := snd_cwnd_clamp sk; delivered := delivered sk;
     lost := lost sk; delivered_mstamp := delivered_mstamp sk; app_limited := v;
     srtt_us := srtt_us sk; mss_cache := mss_cache sk; tcp_min_rtt := tcp_min_rtt sk;
     packets_in_flight := packets_in_flight sk; icsk_ca_state := icsk_ca_state sk; sk_pacing_rate := sk_pacing_rate sk;
     sk_max_pacing_rate := sk_max_pacing_rate sk; can_send := can_send sk; siblings := siblings sk;
     ca := ca sk |}.

Definition set_sk_pacing_rate (v : Z) (sk : sock) : sock :=
  {| snd_cwnd := snd_cwnd sk; snd_cwnd_clamp := snd_cwnd_clamp sk; delivered := delivered sk;
     lost := lost sk; delivered_mstamp := delivered_mstamp sk; app_limited := app_limited sk;
     srtt_us := srtt_us sk; mss_cache := mss_cache sk; tcp_min_rtt := tcp_min_rtt sk;
     packets_in_flight := packets_in_flight sk; icsk_ca_state := icsk_ca_state sk; sk_pacing_rate := v;
     sk_max_pacing_rate := sk_max_pacing_rate sk; can_send := can_send sk; siblings := siblings sk;
     ca := ca sk |}.

Definition set_ca (v : wbbr) (sk : sock) : sock :=
  {| snd_cwnd := snd_cwnd sk; snd_cwnd_clamp := snd_cwnd_clamp sk; delivered := delivered sk;
     lost := lost sk; delivered_mstamp := delivered_mstamp sk; app_limited := app_limited sk;
     srtt_us := srtt_us sk; mss_cache := mss_cache sk; tcp_min_rtt := tcp_min_rtt sk;
     packets_in_flight := packets_in_flight sk; icsk_ca_state := icsk_ca_state sk; sk_pacing_rate := sk_pacing_rate sk;
     sk_max_pacing_rate := sk_max_pacing_rate sk; can_send := can_send sk; siblings := siblings sk;
     ca := v |}.

(** [wbbr->field = v] on the block of a socket. *)
Definition upd (f : wbbr -> wbbr) (sk : sock) : sock := set_ca (f (ca sk)) sk.

(** ** The kernel around the module

    Helpers of the kernel that the module calls and that live outside
    [mptcp_wbbr.c], as they answer during one invocation: the jiffies clock
    [tcp_time_stamp], the tick rate [HZ], the time conversions, the
    difference of two [skb_mstamp] in microseconds, the MTU for an MSS, the
    TSO autosizing, the running maximum of [lib/win_minmax.c] and the draw
    of [prandom_u32_max]. *)
Class kernel : Type := {
  tcp_time_stamp : Z;
  HZ : Z;
  jiffies_to_usecs : Z -> Z;
  msecs_to_jiffies : Z -> Z;
  skb_mstamp_us_delta : skb_mstamp -> skb_mstamp -> Z;
  tcp_mss_to_mtu : sock -> Z -> Z;
  tcp_tso_autosize : sock -> Z -> Z -> Z;
  minmax_running_max : minmax -> Z -> Z -> Z -> minmax;
  prandom_u32_max : Z -> Z
}.

(** ** The module *)

Section Wbbr.
Context {K : kernel}.

(** Do we estimate that STARTUP filled the pipe? *)
Definition wbbr_full_bw_reached (sk : sock) : bool :=
  wbbr_full_bw_cnt <=? full_bw_cnt (ca sk).

(** Return the windowed max recent bandwidth sample, in pkts/uS << BW_SCALE. *)
Definition wbbr_max_bw (sk : sock) : Z := minmax_get (bw (ca sk)).

(** Return the estimated bandwidth of the path, in pkts/uS << BW_SCALE. *)
Definition wbbr_bw (sk : sock) : Z :=
  if lt_use_bw (ca sk) then lt_bw (ca sk) else wbbr_max_bw sk.

(** Return rate in bytes per second, optionally with a gain; every step is
    a [u64] operation. *)
Definition wbbr_rate_bytes_per_sec (sk : sock) (rate gain : Z) : Z :=
  let rate := u64 (rate * tcp_mss_to_mtu sk (mss_cache sk)) in
  let rate := u64 (rate * gain) in
  let rate := Z.shiftr rate WBBR_SCALE in
  let rate := u64 (rate * USEC_PER_SEC) in
  Z.shiftr rate BW_SCALE.

(** Convert a WBBR bw and gain factor to a pacing rate in bytes per second.
    The parameter [bw] and the result are [u32]. *)
Definition wbbr_bw_to_pacing_rate (sk : sock) (bw gain : Z) : Z :=
  let rate := wbbr_rate_bytes_per_sec sk (u32 bw) gain in
  u32 (Z.min rate (sk_max_pacing_rate sk)).

(** Initialize pacing rate to: high_gain * init_cwnd / RTT. *)
Definition wbbr_init_pacing_rate_from_rtt (sk : sock) : sock :=
  let '(rtt_us, sk) :=
    if negb (srtt_us sk =? 0)
    then (Z.max (Z.shiftr (srtt_us sk) 3) 1, upd (set_has_seen_rtt true) sk)
    else (USEC_PER_MSEC, sk) in
  let bw := do_div (snd_cwnd sk * BW_UNIT) rtt_us in
  set_sk_pacing_rate (wbbr_bw_to_pacing_rate sk bw wbbr_high_gain) sk.

(** Pace using current bw estimate and a gain factor. *)
Definition wbbr_set_pacing_rate (sk : sock) (bw gain : Z) : sock :=
  let rate := wbbr_bw_to_pacing_rate sk bw gain in
  let sk :=
    if negb (has_seen_rtt (ca sk)) && negb (srtt_us sk =? 0)
    then wbbr_init_pacing_rate_from_rtt sk else sk in
  if wbbr_full_bw_reached sk || (sk_pacing_rate sk <? rate)
  then set_sk_pacing_rate rate sk else sk.

Definition wbbr_set_tso_segs_goal (sk : sock) : sock :=
  let min_segs := if sk_pacing_rate sk <? Z.shiftr wbbr_min_tso_rate 3 then 1 else 2 in
  upd (set_tso_segs_goal (Z.min (tcp_tso_autosize sk (mss_cache sk) min_segs) 127)) sk.

(** Save "last known good" cwnd so we can restore it after losses or PROBE_RTT. *)
Definition wbbr_save_cwnd (sk : sock) : sock :=
  if (prev_ca_state (ca sk) <? TCP_CA_Recovery)
     && negb (wbbr_mode_eqb (mode (ca sk)) WBBR_PROBE_RTT)
  then upd (set_prior_cwnd (snd_cwnd sk)) sk
  else upd (set_prior_cwnd (Z.max (prior_cwnd (ca sk)) (snd_cwnd sk))) sk.

(** Find target cwnd: [bw * min_rtt * gain], with room for three skbs of
    [tso_segs_goal] segments, rounded up to the next even number. *)
Definition wbbr_target_cwnd (sk : sock) (bw gain : Z) : Z :=
  if min_rtt_us (ca sk) =? 2 ^ 32 - 1       (* no valid RTT samples yet? *)
  then TCP_INIT_CWND
  else
    let w := u64 (u32 bw * min_rtt_us (ca sk)) in
    let cwnd := u32 (u64 (Z.shiftr (u64 (w * gain)) WBBR_SCALE + BW_UNIT - 1) / BW_UNIT) in
    let cwnd := u32 (cwnd + 3 * tso_segs_goal (ca sk)) in
    Z.land (u32 (cwnd + 1)) (2 ^ 32 - 2).

(** On the first round of recovery follow packet conservation; after
    recovery restore the cwnd saved when it started.  Returns whether
    packet conservation is in use, [*new_cwnd] and the socket. *)
Definition wbbr_set_cwnd_to_recover_or_restore
    (sk : sock) (rs : rate_sample) (acked : Z) : bool * Z * sock :=
  let prev_state := prev_ca_state (ca sk) in
  let state := icsk_ca_state sk in
  let cwnd := snd_cwnd sk in
  let cwnd := if 0 <? rs_losses rs
              then u32 (Z.max (s32 (cwnd - rs_losses rs)) 1) else cwnd in
  let '(cwnd, sk) :=
    if (state =? TCP_CA_Recovery) && negb (prev_state =? TCP_CA_Recovery)
    then (* Starting 1st round of Recovery, so do packet conservation. *)
      (u32 (packets_in_flight sk + acked),
       upd (set_next_rtt_delivered (delivered sk))
           (upd (set_packet_conservation true) sk))
    else if (TCP_CA_Recovery <=? prev_state) && (state <? TCP_CA_Recovery)
    then (* Exiting loss recovery; restore cwnd saved before recovery. *)
      (cwnd, upd (set_packet_conservation false) (upd (set_restore_cwnd true) sk))
    else (cwnd, sk) in
  let sk := upd (set_prev_ca_state (bits 3 state)) sk in
  let '(cwnd, sk) :=
    if restore_cwnd (ca sk)
    then (Z.max cwnd (prior_cwnd (ca sk)), upd (set_restore_cwnd false) sk)
    else (cwnd, sk) in
  if packet_conservation (ca sk)
  then (true, Z.max cwnd (u32 (packets_in_flight sk + acked)), sk)
  else (false, cwnd, sk).

(** Slow-start up toward target cwnd, or snap down to target if we're
    above it. *)
Definition wbbr_set_cwnd (sk : sock) (rs : rate_sample) (acked bw gain : Z) : sock :=
  if acked =? 0 then sk
  else
    let '(conserving, cwnd, sk) := wbbr_set_cwnd_to_recover_or_restore sk rs acked in
    let cwnd :=
      if conserving then cwnd
      else
        let target_cwnd := wbbr_target_cwnd sk bw gain in
        let cwnd :=
          if wbbr_full_bw_reached sk  (* only cut cwnd if we filled the pipe *)
          then Z.min (u32 (cwnd + acked)) target_cwnd
          else if (cwnd <? target_cwnd) || (delivered sk <? TCP_INIT_CWND)
          then u32 (cwnd + acked)
          else cwnd in
        Z.max cwnd wbbr_cwnd_min_target in
    let sk := set_snd_cwnd (Z.min cwnd (snd_cwnd_clamp sk)) sk in  (* apply global cap *)
    if wbbr_mode_eqb (mode (ca sk)) WBBR_PROBE_RTT  (* drain queue, refresh min_rtt *)
    then set_snd_cwnd (Z.min (snd_cwnd sk) wbbr_cwnd_min_target) sk
    else sk.

(** End cycle phase if it's time and/or we hit the phase's in-flight target. *)
Definition wbbr_is_next_cycle_phase (sk : sock) (rs : rate_sample) : bool :=
  let is_full_length :=
    min_rtt_us (ca sk) <? skb_mstamp_us_delta (delivered_mstamp sk) (cycle_mstamp (ca sk)) in
  if pacing_gain (ca sk) =? WBBR_UNIT
  then is_full_length                       (* just use wall clock time *)
  else
    let inflight := rs_prior_in_flight rs in (* what was in-flight before ACK? *)
    let bw := wbbr_max_bw sk in
    if WBBR_UNIT <? pacing_gain (ca sk)
    then is_full_length &&
         (negb (rs_losses rs =? 0) ||       (* perhaps pacing_gain*BDP won't fit *)
          (wbbr_target_cwnd sk bw (pacing_gain (ca sk)) <=? inflight))
    else is_full_length ||
         (inflight <=? wbbr_target_cwnd sk bw WBBR_UNIT).

Definition wbbr_advance_cycle_phase (sk : sock) : sock :=
  let sk := upd (set_cycle_idx (Z.land (cycle_idx (ca sk) + 1) (CYCLE_LEN - 1))) sk in
  let sk := upd (set_cycle_mstamp (delivered_mstamp sk)) sk in
  upd (set_pacing_gain (nth (Z.to_nat (cycle_idx (ca sk))) wbbr_pacing_gain 0)) sk.

(** Gain cycling: cycle pacing gain to converge to fair share of available bw. *)
Definition wbbr_update_cycle_phase (sk : sock) (rs : rate_sample) : sock :=
  if wbbr_mode_eqb (mode (ca sk)) WBBR_PROBE_BW && negb (lt_use_bw (ca sk))
     && wbbr_is_next_cycle_phase sk rs
  then wbbr_advance_cycle_phase sk
  else sk.

Definition wbbr_reset_startup_mode (sk : sock) : sock :=
  let sk := upd (set_mode WBBR_STARTUP) sk in
  let sk := upd (set_pacing_gain wbbr_high_gain) sk in
  upd (set_cwnd_gain wbbr_high_gain) sk.

Definition wbbr_reset_probe_bw_mode (sk : sock) : sock :=
  let sk := upd (set_mode WBBR_PROBE_BW) sk in
  let sk := upd (set_pacing_gain WBBR_UNIT) sk in
  let sk := upd (set_cwnd_gain wbbr_cwnd_gain) sk in
  let sk := upd (set_cycle_idx
                   (bits 3 (CYCLE_LEN - 1 - prandom_u32_max wbbr_cycle_rand))) sk in
  wbbr_advance_cycle_phase sk.   (* flip to next phase of gain cycle *)

Definition wbbr_reset_mode (sk : sock) : sock :=
  if negb (wbbr_full_bw_reached sk)
  then wbbr_reset_startup_mode sk
  else wbbr_reset_probe_bw_mode sk.

(** Start a new long-term sampling interval. *)
Definition wbbr_reset_lt_bw_sampling_interval (sk : sock) : sock :=
  let sk := upd (set_lt_last_stamp (stamp_jiffies (delivered_mstamp sk))) sk in
  let sk := upd (set_lt_last_delivered (delivered sk)) sk in
  let sk := upd (set_lt_last_lost (lost sk)) sk in
  upd (set_lt_rtt_cnt 0) sk.

(** Completely reset long-term bandwidth sampling. *)
Definition wbbr_reset_lt_bw_sampling (sk : sock) : sock :=
  let sk := upd (set_lt_bw 0) sk in
  let sk := upd (set_lt_use_bw false) sk in
  let sk := upd (set_lt_is_sampling false) sk in
  wbbr_reset_lt_bw_sampling_interval sk.

(** The test of [wbbr_lt_bw_interval_done]: is the new bw close to the
    [lt_bw] of the previous interval?  Every product is a [u32] product;
    the byte rate is compared as a [u64]. *)
Definition wbbr_lt_bw_is_consistent (sk : sock) (bw : Z) : bool :=
  let diff := abs_int (u32 (bw - lt_bw (ca sk))) in
  (u32 (diff * WBBR_UNIT) <=? u32 (wbbr_lt_bw_ratio * lt_bw (ca sk)))
  || (wbbr_rate_bytes_per_sec sk diff WBBR_UNIT <=? wbbr_lt_bw_diff).

(** Long-term bw sampling interval is done. Estimate whether we're policed. *)
Definition wbbr_lt_bw_interval_done (sk : sock) (bw : Z) : sock :=
  if negb (lt_bw (ca sk) =? 0) && wbbr_lt_bw_is_consistent sk bw
  then (* All criteria are met; estimate we're policed. *)
    let sk := upd (set_lt_bw (Z.shiftr (u32 (bw + lt_bw (ca sk))) 1)) sk in (* avg 2 intvls *)
    let sk := upd (set_lt_use_bw true) sk in
    let sk := upd (set_pacing_gain WBBR_UNIT) sk in  (* try to avoid drops *)
    upd (set_lt_rtt_cnt 0) sk
  else
    let sk := upd (set_lt_bw bw) sk in
    wbbr_reset_lt_bw_sampling_interval sk.

(** The return statement through which [wbbr_lt_bw_sampling] leaves. *)
Inductive lt_exit : Set :=
| LT_using_lt_bw      (* already using long-term rate *)
| LT_lt_bw_expired    (* long-term rate used for wbbr_lt_bw_max_rtts rounds *)
| LT_await_loss       (* not sampling and no loss yet *)
| LT_app_limited      (* ran out of data: sampling reset *)
| LT_too_short        (* sampling interval needs to be longer *)
| LT_too_long         (* interval is too long: sampling reset *)
| LT_no_loss          (* no packet lost on this ACK *)
| LT_low_loss         (* loss rate below wbbr_lt_loss_thresh *)
| LT_sub_jiffy        (* interval is less than one jiffy *)
| LT_bogus_usecs      (* jiffies_to_usecs() returned a bogus 0: sampling reset *)
| LT_interval_done (bw : Z). (* interval closed with this delivery rate *)

(** [wbbr_lt_bw_sampling], together with the exit it took. *)
Definition wbbr_lt_bw_sampling_exit (sk : sock) (rs : rate_sample) : lt_exit * sock :=
  if lt_use_bw (ca sk)       (* already using long-term rate, lt_bw? *)
  then
    if wbbr_mode_eqb (mode (ca sk)) WBBR_PROBE_BW && round_start (ca sk)
    then
      let sk := upd (set_lt_rtt_cnt (bits 7 (lt_rtt_cnt (ca sk) + 1))) sk in
      if wbbr_lt_bw_max_rtts <=? lt_rtt_cnt (ca sk)
      then (LT_lt_bw_expired,
            wbbr_reset_probe_bw_mode         (* restart gain cycling *)
              (wbbr_reset_lt_bw_sampling sk)) (* stop using lt_bw *)
      else (LT_using_lt_bw, sk)
    else (LT_using_lt_bw, sk)
  else
    (* Wait for the first loss before sampling. *)
    if negb (lt_is_sampling (ca sk)) && (rs_losses rs =? 0)
    then (LT_await_loss, sk)
    else
      let sk :=
        if negb (lt_is_sampling (ca sk))
        then upd (set_lt_is_sampling true) (wbbr_reset_lt_bw_sampling_interval sk)
        else sk in
      (* To avoid underestimates, reset sampling if we run out of data. *)
      if rs_is_app_limited rs
      then (LT_app_limited, wbbr_reset_lt_bw_sampling sk)
      else
        let sk :=
          if round_start (ca sk)
          then upd (set_lt_rtt_cnt (bits 7 (lt_rtt_cnt (ca sk) + 1))) sk
          else sk in  (* count round trips in this interval *)
        if lt_rtt_cnt (ca sk) <? wbbr_lt_intvl_min_rtts
        then (LT_too_short, sk)
        else if 4 * wbbr_lt_intvl_min_rtts <? lt_rtt_cnt (ca sk)
        then (LT_too_long, wbbr_reset_lt_bw_sampling sk)
        else if rs_losses rs =? 0
        then (LT_no_loss, sk)
        else
          (* Calculate packets lost and delivered in sampling interval. *)
          let lost_ := u32 (lost sk - lt_last_lost (ca sk)) in
          let delivered_ := u32 (delivered sk - lt_last_delivered (ca sk)) in
          (* Is loss rate (lost/delivered) >= lt_loss_thresh? If not, wait. *)
          if (delivered_ =? 0)
             || (u32 (Z.shiftl lost_ WBBR_SCALE) <? u32 (wbbr_lt_loss_thresh * delivered_))
          then (LT_low_loss, sk)
          else
            (* Find average delivery rate in this sampling interval. *)
            let tj := s32 (stamp_jiffies (delivered_mstamp sk) - lt_last_stamp (ca sk)) in
            if tj <? 1
            then (LT_sub_jiffy, sk)
            else
              let tu := s32 (jiffies_to_usecs tj) in
              if tu <? 1
              then (LT_bogus_usecs, wbbr_reset_lt_bw_sampling sk)
              else
                let bw := do_div (delivered_ * BW_UNIT) tu in
                (LT_interval_done (u32 bw), wbbr_lt_bw_interval_done sk (u32 bw)).

(** Detect token-bucket policers: two consecutive sampling intervals with
    consistent throughput and high packet loss. *)
Definition wbbr_lt_bw_sampling (sk : sock) (rs : rate_sample) : sock :=
  snd (wbbr_lt_bw_sampling_exit sk rs).

(** Estimate the bandwidth based on how fast packets are delivered. *)
Definition wbbr_update_bw (sk : sock) (rs : rate_sample) : sock :=
  let sk := upd (set_round_start false) sk in
  if (rs_delivered rs <? 0) || (rs_interval_us rs <=? 0)
  then sk  (* Not a valid observation *)
  else
    (* See if we've reached the next RTT *)
    let sk :=
      if negb (before (rs_prior_delivered rs) (next_rtt_delivered (ca sk)))
      then
        let sk := upd (set_next_rtt_delivered (delivered sk)) sk in
        let sk := upd (set_rtt_cnt (u32 (rtt_cnt (ca sk) + 1))) sk in
        let sk := upd (set_round_start true) sk in
        upd (set_packet_conservation false) sk
      else sk in
    let sk := wbbr_lt_bw_sampling sk rs in
    let sample := do_div (rs_delivered rs * BW_UNIT) (rs_interval_us rs) in
    if negb (rs_is_app_limited rs) || (wbbr_max_bw sk <=? sample)
    then (* Incorporate new sample into our max bw filter. *)
      upd (set_bw (minmax_running_max (bw (ca sk)) wbbr_bw_rtts (rtt_cnt (ca sk))
                                      (u32 sample))) sk
    else sk.

(** Estimate when the pipe is full, using the change in delivery rate. *)
Definition wbbr_check_full_bw_reached (sk : sock) (rs : rate_sample) : sock :=
  if wbbr_full_bw_reached sk || negb (round_start (ca sk)) || rs_is_app_limited rs
  then sk
  else
    let bw_thresh := u32 (Z.shiftr (full_bw (ca sk) * wbbr_full_bw_thresh) WBBR_SCALE) in
    if bw_thresh <=? wbbr_max_bw sk
    then upd (set_full_bw_cnt 0) (upd (set_full_bw (wbbr_max_bw sk)) sk)
    else upd (set_full_bw_cnt (bits 3 (full_bw_cnt (ca sk) + 1))) sk.

(** If pipe is probably full, drain the queue and then enter steady-state. *)
Definition wbbr_check_drain (sk : sock) (rs : rate_sample) : sock :=
  let sk :=
    if wbbr_mode_eqb (mode (ca sk)) WBBR_STARTUP && wbbr_full_bw_reached sk
    then
      let sk := upd (set_mode WBBR_DRAIN) sk in           (* drain queue we created *)
      let sk := upd (set_pacing_gain wbbr_drain_gain) sk in (* pace slow to drain *)
      upd (set_cwnd_gain wbbr_high_gain) sk                (* maintain cwnd *)
    else sk in
  if wbbr_mode_eqb (mode (ca sk)) WBBR_DRAIN
     && (packets_in_flight sk <=? wbbr_target_cwnd sk (wbbr_max_bw sk) WBBR_UNIT)
  then wbbr_reset_probe_bw_mode sk  (* we estimate queue is drained *)
  else sk.

(** Track the min RTT and run the PROBE_RTT mode. *)
Definition wbbr_update_min_rtt (sk : sock) (rs : rate_sample) : sock :=
  (* Track min RTT seen in the min_rtt_win_sec filter window: *)
  let filter_expired :=
    after tcp_time_stamp (u32 (min_rtt_stamp (ca sk) + wbbr_min_rtt_win_sec * HZ)) in
  let sk :=
    if (0 <=? rs_rtt_us rs)
       && ((rs_rtt_us rs <=? min_rtt_us (ca sk)) || filter_expired)
    then upd (set_min_rtt_stamp tcp_time_stamp)
             (upd (set_min_rtt_us (u32 (rs_rtt_us rs))) sk)
    else sk in
  let sk :=
    if (0 <? wbbr_probe_rtt_mode_ms) && filter_expired
       && negb (idle_restart (ca sk))
       && negb (wbbr_mode_eqb (mode (ca sk)) WBBR_PROBE_RTT)
    then
      let sk := upd (set_mode WBBR_PROBE_RTT) sk in  (* dip, drain queue *)
      let sk := upd (set_pacing_gain WBBR_UNIT) sk in
      let sk := upd (set_cwnd_gain WBBR_UNIT) sk in
      let sk := wbbr_save_cwnd sk in  (* note cwnd so we can restore it *)
      upd (set_probe_rtt_done_stamp 0) sk
    else sk in
  let sk :=
    if wbbr_mode_eqb (mode (ca sk)) WBBR_PROBE_RTT
    then
      (* Ignore low rate samples during this mode. *)
      let sum := u32 (delivered sk + packets_in_flight sk) in
      let sk := set_app_limited (if sum =? 0 then 1 else sum) sk in
      (* Maintain min packets in flight for max(200 ms, 1 round). *)
      if (probe_rtt_done_stamp (ca sk) =? 0)
         && (packets_in_flight sk <=? wbbr_cwnd_min_target)
      then
        let sk := upd (set_probe_rtt_done_stamp
                         (u32 (tcp_time_stamp + msecs_to_jiffies wbbr_probe_rtt_mode_ms))) sk in
        let sk := upd (set_probe_rtt_round_done false) sk in
        upd (set_next_rtt_delivered (delivered sk)) sk
      else if negb (probe_rtt_done_stamp (ca sk) =? 0)
      then
        let sk :=
          if round_start (ca sk) then upd (set_probe_rtt_round_done true) sk else sk in
        if probe_rtt_round_done (ca sk)
           && after tcp_time_stamp (probe_rtt_done_stamp (ca sk))
        then
          let sk := upd (set_min_rtt_stamp tcp_time_stamp) sk in
          let sk := upd (set_restore_cwnd true) sk in  (* snap to prior_cwnd *)
          wbbr_reset_mode sk
        else sk
      else sk
    else sk in
  upd (set_idle_restart false) sk.

Definition wbbr_update_model (sk : sock) (rs : rate_sample) : sock :=
  let sk := wbbr_update_bw sk rs in
  let sk := wbbr_update_cycle_phase sk rs in
  let sk := wbbr_check_full_bw_reached sk rs in
  let sk := wbbr_check_drain sk rs in
  wbbr_update_min_rtt sk rs.

(** The subflows that [mptcp_for_each_sk(tp->mpcb, sub_sk)] visits: this
    socket itself, with its block as it is now, and its siblings. *)
Definition mpcb (sk : sock) : option (list subflow) :=
  option_map (cons {| sub_can_send := can_send sk; sub_ca := ca sk |}) (siblings sk).

(** The sum of [instant_rate] over the subflows that can send, a [u64]. *)
Definition wbbr_total_rate (subs : list subflow) : Z :=
  fold_left
    (fun total_rate sub =>
       if sub_can_send sub
       then u64 (total_rate + instant_rate (sub_ca sub))
       else total_rate)
    subs 0.

(** The share of this subflow in the rate of the connection, in units of
    [1 / WBBR_UNIT]; [mpcb] is [None] for a [NULL] pointer.  The product
    [wbbr->instant_rate * WBBR_UNIT] is a [u32] product. *)
Definition wbbr_weight (mpcb : option (list subflow)) (w : wbbr) : Z :=
  match mpcb with
  | None => WBBR_UNIT
  | Some subs =>
    let total_rate := wbbr_total_rate subs in
    if negb (total_rate =? 0) && negb (instant_rate w =? 0)
    then div64_u64 (u32 (instant_rate w * WBBR_UNIT)) total_rate
    else WBBR_UNIT
  end.

(** The gain that [wbbr_main] hands to [wbbr_set_pacing_rate]: the [u64]
    product of the pacing gain and the weight, scaled down and cast to
    [int]. *)
Definition wbbr_weighted_gain (sk : sock) : Z :=
  s32 (Z.shiftr (u64 (pacing_gain (ca sk) * wbbr_weight (mpcb sk) (ca sk))) WBBR_SCALE).

Definition wbbr_main (sk : sock) (rs : rate_sample) : sock :=
  let sk := wbbr_update_model sk rs in
  let rate := wbbr_bw sk in
  let sk := upd (set_instant_rate rate) sk in
  let sk := wbbr_set_pacing_rate sk rate (wbbr_weighted_gain sk) in
  let sk := wbbr_set_tso_segs_goal sk in
  wbbr_set_cwnd sk rs (rs_acked_sacked rs) rate (cwnd_gain (ca sk)).

Definition wbbr_init (sk : sock) : sock :=
  let sk := upd (set_prior_cwnd 0) sk in
  let sk := upd (set_tso_segs_goal 0) sk in  (* default segs per skb until first ACK *)
  let sk := upd (set_rtt_cnt 0) sk in
  let sk := upd (set_next_rtt_delivered 0) sk in
  let sk := upd (set_prev_ca_state TCP_CA_Open) sk in
  let sk := upd (set_packet_conservation false) sk in
  let sk := upd (set_probe_rtt_done_stamp 0) sk in
  let sk := upd (set_probe_rtt_round_done false) sk in
  let sk := upd (set_min_rtt_us (tcp_min_rtt sk)) sk in
  let sk := upd (set_min_rtt_stamp tcp_time_stamp) sk in
  let sk := upd (set_bw (minmax_reset (rtt_cnt (ca sk)) 0)) sk in  (* init max bw to 0 *)
  let sk := upd (set_has_seen_rtt false) sk in
  let sk := wbbr_init_pacing_rate_from_rtt sk in
  let sk := upd (set_restore_cwnd false) sk in
  let sk := upd (set_round_start false) sk in
  let sk := upd (set_idle_restart false) sk in
  let sk := upd (set_full_bw 0) sk in
  let sk := upd (set_full_bw_cnt 0) sk in
  let sk := upd (set_cycle_mstamp {| stamp_us := 0; stamp_jiffies := 0 |}) sk in
  let sk := upd (set_cycle_idx 0) sk in
  let sk := upd (set_instant_rate 0) sk in
  let sk := wbbr_reset_lt_bw_sampling sk in
  wbbr_reset_startup_mode sk.

(** Entering loss recovery, so save cwnd for when we exit or undo recovery. *)
Definition wbbr_ssthresh (sk : sock) : sock := wbbr_save_cwnd sk.

(** [wbbr_set_state]: an RTO is treated like the end of a round, with one
    loss. *)
Definition wbbr_set_state (sk : sock) (new_state : Z) : sock :=
  if new_state =? TCP_CA_Loss
  then
    let rs := {| rs_prior_delivered := 0; rs_delivered := 0; rs_interval_us := 0;
                 rs_rtt_us := 0; rs_losses := 1; rs_acked_sacked := 0;
                 rs_prior_in_flight := 0; rs_is_app_limited := false |} in
    let sk := upd (set_prev_ca_state TCP_CA_Loss) sk in
    let sk := upd (set_full_bw 0) sk in
    let sk := upd (set_round_start true) sk in  (* treat RTO like end of a round *)
    wbbr_lt_bw_sampling sk rs
  else sk.

(** Return count of segments we want in the skbs we send, or 0 for default. *)
Definition wbbr_tso_segs_goal (sk : sock) : Z := tso_segs_goal (ca sk).

(** [enum tcp_ca_event] of [net/tcp.h]. *)
Inductive tcp_ca_event : Set :=
| CA_EVENT_TX_START       (* first transmit when no packets in flight *)
| CA_EVENT_CWND_RESTART   (* congestion window restart *)
| CA_EVENT_COMPLETE_CWR   (* end of congestion recovery *)
| CA_EVENT_LOSS           (* loss timeout *)
| CA_EVENT_ECN_NO_CE      (* ECT set, but not CE marked *)
| CA_EVENT_ECN_IS_CE      (* received CE marked IP packet *)
| CA_EVENT_DELAYED_ACK    (* Delayed ack is sent *)
| CA_EVENT_NON_DELAYED_ACK.

Definition is_tx_start (event : tcp_ca_event) : bool :=
  match event with CA_EVENT_TX_START => true | _ => false end.

Definition wbbr_cwnd_event (sk : sock) (event : tcp_ca_event) : sock :=
  if is_tx_start event && negb (app_limited sk =? 0)
  then
    let sk := upd (set_idle_restart true) sk in
    (* Avoid pointless buffer overflows: pace at est. bw if we don't
       need more speed (we're restarting from idle and app-limited). *)
    if wbbr_mode_eqb (mode (ca sk)) WBBR_PROBE_BW
    then wbbr_set_pacing_rate sk (wbbr_bw sk) WBBR_UNIT
    else sk
  else sk.

(** Provision 3 * cwnd since WBBR may slow-start even during recovery. *)
Definition wbbr_sndbuf_expand (sk : sock) : Z := 3.

Definition wbbr_undo_cwnd (sk : sock) : Z := snd_cwnd sk.

(** [struct tcp_bbr_info] of [linux/inet_diag.h], and the attribute numbers
    of the same header. *)
Record tcp_bbr_info : Set := {
  bbr_bw_lo : Z;       (* lower 32 bits of bw *)
  bbr_bw_hi : Z;       (* upper 32 bits of bw *)
  bbr_min_rtt : Z;     (* min-filtered RTT in uSec *)
  bbr_pacing_gain : Z; (* pacing gain shifted left 8 bits *)
  bbr_cwnd_gain : Z    (* cwnd gain shifted left 8 bits *)
}.
Definition INET_DIAG_VEGASINFO : Z := 3.
Definition INET_DIAG_BBRINFO : Z := 16.

(** [wbbr_get_info]: [None] when it returns 0 and leaves [info] alone,
    otherwise the [info->bbr] it fills (with [*attr = INET_DIAG_BBRINFO]). *)
Definition wbbr_get_info (sk : sock) (ext : Z) : option tcp_bbr_info :=
  if negb (Z.land ext (Z.shiftl 1 (INET_DIAG_BBRINFO - 1)) =? 0)
     || negb (Z.land ext (Z.shiftl 1 (INET_DIAG_VEGASINFO - 1)) =? 0)
  then
    let rate := wbbr_bw sk in
    let rate := Z.shiftr (u64 (u64 (rate * mss_cache sk) * USEC_PER_SEC)) BW_SCALE in
    Some {| bbr_bw_lo := u32 rate;
            bbr_bw_hi := u32 (Z.shiftr rate 32);
            bbr_min_rtt := min_rtt_us (ca sk);
            bbr_pacing_gain := pacing_gain (ca sk);
            bbr_cwnd_gain := cwnd_gain (ca sk) |}
  else None.

End Wbbr.

(** ** The rules as the specification words them

    Written in unbounded integer arithmetic from the text of the
    specification, to be compared with the functions above. *)

Definition cdiv (a b : Z) : Z := (a + b - 1) / b.
Definition next_even (n : Z) : Z := n + n mod 2.

(** "sum the instantaneous rate of every sibling subflow currently eligible
    to send". *)
Definition eligible_rate_sum (subs : list subflow) : Z :=
  fold_right Z.add 0 (map (fun sub => instant_rate (sub_ca sub)) (filter sub_can_send subs)).

(** "If the group has no siblings (single-path) or the sum is zero, the
    weight is unity. Otherwise weight = (this subflow's instantaneous rate x
    unit-scale) / total rate." *)
Definition spec_weight (mpcb : option (list subflow)) (w : wbbr) : Z :=
  match mpcb with
  | None => WBBR_UNIT
  | Some subs =>
    if eligible_rate_sum subs =? 0 then WBBR_UNIT
    else instant_rate w * WBBR_UNIT / eligible_rate_sum subs
  end.

(** "Target window = ceil(bandwidth x min-RTT x gain / unit-scale), plus
    headroom of 3 x burst-size-goal, rounded up to an even number", the
    bandwidth being [bw / BW_UNIT] packets per microsecond. *)
Definition spec_target_cwnd (bw min_rtt gain tso_goal : Z) : Z :=
  next_even (cdiv (bw * min_rtt * gain) (WBBR_UNIT * BW_UNIT) + 3 * tso_goal).

(** What [wbbr_target_cwnd] computes when nothing overflows: the gain is
    applied with a truncating shift before the ceiling. *)
Definition fixed_target_cwnd (bw min_rtt gain tso_goal : Z) : Z :=
  next_even (cdiv (bw * min_rtt * gain / WBBR_UNIT) BW_UNIT + 3 * tso_goal).

(** "a phase ends when its wall-clock duration has reached one min-RTT
    interval", alone at gain 1.0, with the in-flight or loss condition
    above 1.0, or early on a drained pipe below 1.0. *)
Definition spec_phase_ends
    (gain elapsed min_rtt inflight losses target_at_gain target_at_unit : Z) : bool :=
  let reached := min_rtt <=? elapsed in
  if gain =? WBBR_UNIT then reached
  else if WBBR_UNIT <? gain
  then reached && (negb (losses =? 0) || (target_at_gain <=? inflight))
  else reached || (inflight <=? target_at_unit).

(** The same rule with the comparison of [wbbr_is_next_cycle_phase]: the
    phase must have lasted longer than [min_rtt_us]. *)
Definition strict_phase_ends
    (gain elapsed min_rtt inflight losses target_at_gain target_at_unit : Z) : bool :=
  let exceeded := min_rtt <? elapsed in
  if gain =? WBBR_UNIT then exceeded
  else if WBBR_UNIT <? gain
  then exceeded && (negb (losses =? 0) || (target_at_gain <=? inflight))
  else exceeded || (inflight <=? target_at_unit).

(** "Two consecutive closing estimates are judged consistent if their
    relative difference is <= 1/8 or their absolute byte-rate difference is
    <= 500 bytes/sec"; [mtu] bytes per packet, rates in packets per
    microsecond scaled by [BW_UNIT]. *)
Definition spec_lt_consistent (bw prev mtu : Z) : Prop :=
  8 * Z.abs (bw - prev) <= prev \/
  Z.abs (bw - prev) * mtu * USEC_PER_SEC / BW_UNIT <= 500.

(** Long-term sampling has been restarted from scratch at the current
    counters of [sk]. *)
Definition lt_sampling_restarted (sk sk' : sock) : Prop :=
  lt_is_sampling (ca sk') = false /\ lt_use_bw (ca sk') = false /\
  lt_bw (ca sk') = 0 /\ lt_rtt_cnt (ca sk') = 0 /\
  lt_last_delivered (ca sk') = delivered sk /\ lt_last_lost (ca sk') = lost sk /\
  lt_last_stamp (ca sk') = stamp_jiffies (delivered_mstamp sk).

(** Rounds counted in the sampling interval once the current ACK is in. *)
Definition lt_rounds (sk : sock) : Z :=
  if round_start (ca sk) then bits 7 (lt_rtt_cnt (ca sk) + 1) else lt_rtt_cnt (ca sk).

(** Packets lost and delivered since the sampling interval started. *)
Definition lt_lost (sk : sock) : Z := u32 (lost sk - lt_last_lost (ca sk)).
Definition lt_delivered (sk : sock) : Z := u32 (delivered sk - lt_last_delivered (ca sk)).

(** ** Test vectors *)

Definition no_stamp : skb_mstamp := {| stamp_us := 0; stamp_jiffies := 0 |}.

Definition wbbr_blank : wbbr :=
  {| min_rtt_us := 0; min_rtt_stamp := 0; probe_rtt_done_stamp := 0;
     bw := minmax_reset 0 0; rtt_cnt := 0; next_rtt_delivered := 0;
     cycle_mstamp := no_stamp; mode := WBBR_STARTUP; prev_ca_state := 0;
     packet_conservation := false; restore_cwnd := false; round_start := false;
     tso_segs_goal := 0; idle_restart := false; probe_rtt_round_done := false;
     lt_is_sampling := false; lt_rtt_cnt := 0; lt_use_bw := false;
     lt_bw := 0; lt_last_delivered := 0; lt_last_stamp := 0;
     lt_last_lost := 0; pacing_gain := 0; cwnd_gain := 0;
     full_bw_cnt := 0; cycle_idx := 0; has_seen_rtt := false;
     prior_cwnd := 0; full_bw := 0; instant_rate := 0 |}.

(** A freshly connected socket: initial window of 10, MSS 1460, no RTT
    sample yet, no multipath control block. *)
Definition sock_blank : sock :=
  {| snd_cwnd := 10; snd_cwnd_clamp := 2 ^ 32 - 1; delivered := 0; lost := 0;
     delivered_mstamp := no_stamp; app_limited := 0; srtt_us := 0;
     mss_cache := 1460; tcp_min_rtt := 2 ^ 32 - 1; packets_in_flight := 0;
     icsk_ca_state := TCP_CA_Open; sk_pacing_rate := 0;
     sk_max_pacing_rate := 2 ^ 32 - 1; can_send := true; siblings := None;
     ca := wbbr_blank |}.

Definition sample_blank : rate_sample :=
  {| rs_prior_delivered := 0; rs_delivered := 0; rs_interval_us := 0;
     rs_rtt_us := -1; rs_losses := 0; rs_acked_sacked := 0;
     rs_prior_in_flight := 0; rs_is_app_limited := false |}.

(** A kernel ticking at [HZ = 1000], read at jiffies [now], whose random
    generator answers [draw]; 40 bytes of headers per segment; the TSO
    autosizing answers the minimum it is asked for; stamps are compared by
    their microseconds.  The running maximum forgets the earlier samples
    when the new one is at least the stored maximum, and otherwise keeps
    the stored maximum: so does [minmax_running_max] as long as the stored
    maximum is younger than the window of [wbbr_bw_rtts] rounds, which it
    is throughout the test vectors below. *)
Definition test_kernel (now draw : Z) : kernel :=
  {| tcp_time_stamp := now;
     HZ := 1000;
     jiffies_to_usecs := fun j => u32 (1000 * j);
     msecs_to_jiffies := fun m => m;
     skb_mstamp_us_delta := fun t1 t0 => u32 (stamp_us t1 - stamp_us t0);
     tcp_mss_to_mtu := fun _ mss => mss + 40;
     tcp_tso_autosize := fun _ _ min_segs => min_segs;
     minmax_running_max :=
       fun m _ tm meas => if minmax_get m <=? meas then minmax_reset tm meas else m;
     prandom_u32_max := fun _ => draw |}.

(** Two subflows of one connection at 3,000,000 and 1,000,000. *)
Definition sub_fast : subflow :=
  {| sub_can_send := true; sub_ca := set_instant_rate 3000000 wbbr_blank |}.
Definition sub_slow : subflow :=
  {| sub_can_send := true; sub_ca := set_instant_rate 1000000 wbbr_blank |}.
(** A subflow that has no bandwidth estimate yet. *)
Definition sub_idle : subflow :=
  {| sub_can_send := true; sub_ca := wbbr_blank |}.

(** One acknowledgment as the stack presents it: the clocks, the counters
    of the connection, and the rate sample. *)
Record ack : Set := {
  at_jiffies : Z;
  at_us : Z;
  tcp_delivered : Z;
  tcp_lost : Z;
  tcp_in_flight : Z;
  tcp_ca_state : Z;
  sample : rate_sample
}.

(** The stack updates its counters, then calls [wbbr_main]; the random
    generator answers [draw]. *)
Definition receive (draw : Z) (sk : sock) (a : ack) : sock :=
  @wbbr_main (test_kernel (at_jiffies a) draw)
    {| snd_cwnd := snd_cwnd sk; snd_cwnd_clamp := snd_cwnd_clamp sk;
       delivered := tcp_delivered a; lost := tcp_lost a;
       delivered_mstamp := {| stamp_us := at_us a; stamp_jiffies := at_jiffies a |};
       app_limited := app_limited sk; srtt_us := srtt_us sk; mss_cache := mss_cache sk;
       tcp_min_rtt := tcp_min_rtt sk; packets_in_flight := tcp_in_flight a;
       icsk_ca_state := tcp_ca_state a; sk_pacing_rate := sk_pacing_rate sk;
       sk_max_pacing_rate := sk_max_pacing_rate sk; can_send := can_send sk;
       siblings := siblings sk; ca := ca sk |}
    (sample a).

(** A policed path: a round of 10 ms per acknowledgment, [pkts] packets
    delivered and a quarter as many lost in each, a steady delivery rate. *)
Definition policed_round (pkts i : Z) : ack :=
  {| at_jiffies := 10 * i; at_us := 10000 * i;
     tcp_delivered := pkts * i; tcp_lost := pkts / 4 * i;
     tcp_in_flight := 10; tcp_ca_state := TCP_CA_Open;
     sample := {| rs_prior_delivered := pkts * (i - 1); rs_delivered := pkts;
                  rs_interval_us := 10000; rs_rtt_us := 10000; rs_losses := pkts / 4;
                  rs_acked_sacked := 10; rs_prior_in_flight := 10;
                  rs_is_app_limited := false |} |}.

(** Seven such rounds and an eighth that delivers [extra] more packets. *)
Definition policed_path (pkts extra : Z) : list ack :=
  map (policed_round pkts) [1; 2; 3; 4; 5; 6; 7] ++
  [ {| at_jiffies := 80; at_us := 80000;
       tcp_delivered := pkts * 8 + extra; tcp_lost := pkts / 4 * 8;
       tcp_in_flight := 10; tcp_ca_state := TCP_CA_Open;
       sample := {| rs_prior_delivered := pkts * 7; rs_delivered := pkts + extra;
                    rs_interval_us := 10000; rs_rtt_us := 10000; rs_losses := pkts / 4;
                    rs_acked_sacked := 10; rs_prior_in_flight := 10;
                    rs_is_app_limited := false |} |} ].

(** After eight steady rounds of 100 packets: ten seconds later, a round
    with a longer RTT and 4 packets in flight; then a round 201 ms after
    that; then one more round, 13 ms later and again with losses. *)
Definition probe_rtt_rounds : list ack :=
  [ {| at_jiffies := 10081; at_us := 10081000; tcp_delivered := 900; tcp_lost := 225;
       tcp_in_flight := 4; tcp_ca_state := TCP_CA_Open;
       sample := {| rs_prior_delivered := 800; rs_delivered := 100;
                    rs_interval_us := 10000; rs_rtt_us := 12000; rs_losses := 25;
                    rs_acked_sacked := 10; rs_prior_in_flight := 10;
                    rs_is_app_limited := false |} |};
    {| at_jiffies := 10282; at_us := 10282000; tcp_delivered := 904; tcp_lost := 225;
       tcp_in_flight := 4; tcp_ca_state := TCP_CA_Open;
       sample := {| rs_prior_delivered := 900; rs_delivered := 4;
                    rs_interval_us := 12000; rs_rtt_us := 12000; rs_losses := 0;
                    rs_acked_sacked := 4; rs_prior_in_flight := 4;
                    rs_is_app_limited := false |} |} ].

Definition later_round : ack :=
  {| at_jiffies := 10295; at_us := 10295000; tcp_delivered := 1004; tcp_lost := 250;
     tcp_in_flight := 10; tcp_ca_state := TCP_CA_Open;
     sample := {| rs_prior_delivered := 904; rs_delivered := 100;
                  rs_interval_us := 12000; rs_rtt_us := 12500; rs_losses := 25;
                  rs_acked_sacked := 10; rs_prior_in_flight := 10;
                  rs_is_app_limited := false |} |}.

(** The socket [start] after [wbbr_init] at jiffies 0 and the given rounds. *)
Definition after_rounds (draw : Z) (start : sock) (rounds : list ack) : sock :=
  fold_left (receive draw) rounds (@wbbr_init (test_kernel 0 draw) start).

(** A socket with a small MSS: 256 bytes per packet on the wire. *)
Definition sock_small_mss : sock :=
  {| snd_cwnd := 10; snd_cwnd_clamp := 2 ^ 32 - 1; delivered := 0; lost := 0;
     delivered_mstamp := no_stamp; app_limited := 0; srtt_us := 0;
     mss_cache := 216; tcp_min_rtt := 2 ^ 32 - 1; packets_in_flight := 0;
     icsk_ca_state := TCP_CA_Open; sk_pacing_rate := 0;
     sk_max_pacing_rate := 2 ^ 32 - 1; can_send := true; siblings := None;
     ca := wbbr_blank |}.

(** ** Views of a socket *)

(** The part of the block that holds the bandwidth model: the max filter,
    the round count, the full-pipe estimate and the long-term sampler. *)
Definition bw_model (sk : sock) :=
  (bw (ca sk), rtt_cnt (ca sk), (full_bw (ca sk), full_bw_cnt (ca sk)),
   (lt_is_sampling (ca sk), lt_rtt_cnt (ca sk), lt_use_bw (ca sk), lt_bw (ca sk)),
   (lt_last_delivered (ca sk), lt_last_stamp (ca sk), lt_last_lost (ca sk))).

(** What the model update leaves alone: the window, its clamp, the pacing
    rate, the smoothed RTT and the flag of the pacing bootstrap. *)
Definition stack_view (sk : sock) :=
  (snd_cwnd sk, snd_cwnd_clamp sk, sk_pacing_rate sk, srtt_us sk, has_seen_rtt (ca sk)).

(** The socket fields that the module reads and never writes. *)
Definition tcp_facts (sk : sock) :=
  (snd_cwnd_clamp sk, delivered sk, lost sk, delivered_mstamp sk,
   (srtt_us sk, mss_cache sk, tcp_min_rtt sk, packets_in_flight sk),
   (icsk_ca_state sk, sk_max_pacing_rate sk, can_send sk, siblings sk)).

(** The window gain that goes with a mode. *)
Definition cwnd_gain_of (m : wbbr_mode) : Z :=
  match m with
  | WBBR_STARTUP | WBBR_DRAIN => wbbr_high_gain
  | WBBR_PROBE_BW => wbbr_cwnd_gain
  | WBBR_PROBE_RTT => WBBR_UNIT
  end.

(** The counters kept in narrow bit-fields are within the ranges the code
    lets them reach. *)
Definition counters_in_range (w : wbbr) : Prop :=
  0 <= cycle_idx w < CYCLE_LEN /\
  0 <= full_bw_cnt w <= wbbr_full_bw_cnt /\
  0 <= lt_rtt_cnt w < wbbr_lt_bw_max_rtts /\
  (lt_use_bw w = false -> lt_rtt_cnt w <= 4 * wbbr_lt_intvl_min_rtts).

(** One step of the mode machine, as the steps of the model update take
    it: the mode stays, with its window gain, or moves to PROBE_BW (from
    DRAIN, or with the pipe full), to DRAIN (pipe full), back to STARTUP
    (pipe not full) or to PROBE_RTT, each with the window gain of the mode
    entered; the full-pipe count and the long-term counters stay. *)
Definition mode_step (w w' : wbbr) : Prop :=
  full_bw_cnt w' = full_bw_cnt w /\ lt_rtt_cnt w' = lt_rtt_cnt w /\
  lt_use_bw w' = lt_use_bw w /\
  ((mode w' = mode w /\ cwnd_gain w' = cwnd_gain w /\
    (cycle_idx w' = cycle_idx w \/ 0 <= cycle_idx w' < CYCLE_LEN))
   \/ (mode w' = WBBR_PROBE_BW /\ cwnd_gain w' = wbbr_cwnd_gain /\
       0 <= cycle_idx w' < CYCLE_LEN /\
       (mode w = WBBR_DRAIN \/ wbbr_full_bw_cnt <= full_bw_cnt w))
   \/ (mode w' = WBBR_DRAIN /\ cwnd_gain w' = wbbr_high_gain /\
       cycle_idx w' = cycle_idx w /\ wbbr_full_bw_cnt <= full_bw_cnt w)
   \/ (mode w' = WBBR_STARTUP /\ cwnd_gain w' = wbbr_high_gain /\
       cycle_idx w' = cycle_idx w /\ full_bw_cnt w < wbbr_full_bw_cnt)
   \/ (mode w' = WBBR_PROBE_RTT /\ cwnd_gain w' = WBBR_UNIT /\
       cycle_idx w' = cycle_idx w)).

(** The steady modes are entered only once the pipe was found full. *)
Definition mode_follows_pipe (w : wbbr) : Prop :=
  mode w = WBBR_DRAIN \/ mode w = WBBR_PROBE_BW -> wbbr_full_bw_cnt <= full_bw_cnt w.

(** [n] phases further in the gain cycle. *)
Fixpoint advance_phases (n : nat) (sk : sock) : sock :=
  match n with
  | O => sk
  | S n => advance_phases n (wbbr_advance_cycle_phase sk)
  end.

(** ** Proof automation *)

(** Frame properties: split on every test and compare the fields. *)
Ltac frame_ifs :=
  repeat match goal with
         | |- context [if ?c then _ else _] => destruct c
         end;
  reflexivity.

Ltac lt_step :=
  cbn [ca upd set_ca fst snd
       lt_is_sampling lt_rtt_cnt lt_use_bw lt_bw lt_last_delivered lt_last_stamp lt_last_lost
       round_start delivered lost delivered_mstamp
       set_lt_is_sampling set_lt_rtt_cnt set_lt_use_bw set_lt_bw set_lt_last_delivered
       set_lt_last_stamp set_lt_last_lost negb andb orb] in *.

Ltac lt_leaf :=
  solve [ cbn [fst snd orb andb];
          repeat (intros;
                  match goal with
                  | |- _ /\ _ => split
                  | _ => first [ assumption | congruence | lia | reflexivity
                               | unfold lt_sampling_restarted; repeat split; reflexivity ]
                  end) ].

(** * Properties *)

(** ** Machine arithmetic *)

Lemma u32_small (x : Z) : 0 <= x < 2 ^ 32 -> u32 x = x.
Proof. intros H. unfold u32. apply Z.mod_small. exact H. Qed.

Lemma u64_small (x : Z) : 0 <= x < 2 ^ 64 -> u64 x = x.
Proof. intros H. unfold u64. apply Z.mod_small. exact H. Qed.

Lemma u32_range (x : Z) : 0 <= u32 x < 2 ^ 32.
Proof. unfold u32. apply Z.mod_pos_bound. lia. Qed.

Lemma u64_range (x : Z) : 0 <= u64 x < 2 ^ 64.
Proof. unfold u64. apply Z.mod_pos_bound. lia. Qed.

Lemma u64_add_l (a b : Z) : u64 (u64 a + b) = u64 (a + b).
Proof. unfold u64. apply Zplus_mod_idemp_l. Qed.

Lemma s32_small (x : Z) : - 2 ^ 31 <= x < 2 ^ 31 -> s32 x = x.
Proof. intros H. unfold s32. rewrite Z.mod_small; lia. Qed.

Lemma abs_int_diff (a b : Z) :
  0 <= a < 2 ^ 32 -> 0 <= b < 2 ^ 32 -> Z.abs (a - b) < 2 ^ 31 ->
  abs_int (u32 (a - b)) = Z.abs (a - b).
Proof.
  intros Ha Hb Hd. unfold abs_int.
  assert (Hs : s32 (u32 (a - b)) = a - b).
  { unfold s32, u32. rewrite Zplus_mod_idemp_l. rewrite Z.mod_small; lia. }
  rewrite Hs. apply u32_small. lia.
Qed.

Lemma shiftr_div (x n : Z) : 0 <= n -> Z.shiftr x n = x / 2 ^ n.
Proof. intros H. apply Z.shiftr_div_pow2. exact H. Qed.

(** [x & ~1U] clears the lowest bit. *)
Lemma land_clear_bit0 (x : Z) : 0 <= x < 2 ^ 32 -> Z.land x (2 ^ 32 - 2) = x - x mod 2.
Proof.
  intros Hx.
  replace (2 ^ 32 - 2) with (Z.shiftl (Z.ones 31) 1) by reflexivity.
  replace (x - x mod 2) with (Z.shiftl (Z.shiftr x 1) 1).
  2:{ rewrite Z.shiftl_mul_pow2, Z.shiftr_div_pow2 by lia.
      change (2 ^ 1) with 2. pose proof (Z.div_mod x 2). lia. }
  apply Z.bits_inj'. intros n Hn.
  rewrite Z.land_spec, !Z.shiftl_spec by lia.
  destruct (Z.ltb_spec (n - 1) 0) as [Hneg|Hpos].
  - rewrite !(Z.testbit_neg_r _ (n - 1)) by lia. apply andb_false_r.
  - rewrite Z.shiftr_spec by lia. replace (n - 1 + 1) with n by lia.
    destruct (Z.ltb_spec (n - 1) 31) as [Hlo|Hhi].
    + rewrite Z.ones_spec_low by lia. apply andb_true_r.
    + rewrite Z.ones_spec_high by lia. rewrite andb_false_r.
      symmetry. apply Z.bits_above_log2; [lia|].
      destruct (Z.eq_dec x 0) as [->|Hnz]; [simpl; lia|].
      apply Z.log2_lt_pow2; [lia|].
      apply Z.lt_le_trans with (2 ^ 32); [lia|].
      apply Z.pow_le_mono_r; lia.
Qed.

(** Rounding up to the next even number, when [cwnd + 1] fits 32 bits. *)
Lemma round_up_even (cwnd : Z) :
  0 <= cwnd -> cwnd + 1 < 2 ^ 32 ->
  Z.land (u32 (cwnd + 1)) (2 ^ 32 - 2) = next_even cwnd.
Proof.
  intros H0 H1. rewrite u32_small by lia. rewrite land_clear_bit0 by lia.
  unfold next_even.
  pose proof (Z.mod_pos_bound cwnd 2 ltac:(lia)).
  pose proof (Z.mod_pos_bound (cwnd + 1) 2 ltac:(lia)).
  pose proof (Z.div_mod cwnd 2 ltac:(lia)).
  pose proof (Z.div_mod (cwnd + 1) 2 ltac:(lia)).
  lia.
Qed.

(** ** The multipath weight *)

Lemma eligible_rate_sum_cons (sub : subflow) (subs : list subflow) :
  eligible_rate_sum (sub :: subs) =
  (if sub_can_send sub then instant_rate (sub_ca sub) else 0) + eligible_rate_sum subs.
Proof. unfold eligible_rate_sum. simpl. destruct (sub_can_send sub); reflexivity. Qed.

Lemma wbbr_total_rate_from (subs : list subflow) (acc : Z) :
  fold_left
    (fun total_rate sub =>
       if sub_can_send sub then u64 (total_rate + instant_rate (sub_ca sub)) else total_rate)
    subs (u64 acc)
  = u64 (acc + eligible_rate_sum subs).
Proof.
  revert acc. induction subs as [|sub subs IH]; intros acc.
  - simpl. unfold eligible_rate_sum; simpl; f_equal; lia.
  - rewrite eligible_rate_sum_cons. cbn [fold_left].
    destruct (sub_can_send sub).
    + rewrite u64_add_l, IH; f_equal; lia.
    + rewrite IH; f_equal; lia.
Qed.

(** The loop of [wbbr_weight] computes the sum of the rates of the subflows
    that can send, modulo [2 ^ 64]. *)
Lemma wbbr_total_rate_sum (subs : list subflow) :
  wbbr_total_rate subs = u64 (eligible_rate_sum subs).
Proof.
  unfold wbbr_total_rate. change 0 with (u64 0) at 1.
  rewrite wbbr_total_rate_from. reflexivity.
Qed.

(** C1, as the specification states it, fails: a subflow whose own rate is
    zero beside a sibling at 1,000,000 gets the weight 256, not the share
    0 of the formula. *)
Lemma wbbr_weight_zero_rate_counterexample :
  wbbr_weight (Some [sub_idle; sub_slow]) (sub_ca sub_idle) = 256 /\
  spec_weight (Some [sub_idle; sub_slow]) (sub_ca sub_idle) = 0.
Proof. split; reflexivity. Qed.

(** C1 (amended): without a multipath control block the weight is 256.
    With one, the rates of the subflows that can send are summed; the
    weight is 256 when that sum or the subflow's own rate is zero, and
    otherwise the own rate times 256 divided by the sum -- for own rates
    below [2 ^ 24], whose product with 256 fits the 32 bits it is computed
    in. *)
Theorem wbbr_weight_share (subs : list subflow) (w : wbbr) :
  0 <= eligible_rate_sum subs < 2 ^ 64 ->
  0 <= instant_rate w < 2 ^ 24 ->
  wbbr_weight None w = WBBR_UNIT /\
  wbbr_weight (Some subs) w =
    if (eligible_rate_sum subs =? 0) || (instant_rate w =? 0)
    then WBBR_UNIT
    else instant_rate w * WBBR_UNIT / eligible_rate_sum subs.
Proof.
  intros Hsum Hown. split; [reflexivity|].
  unfold wbbr_weight. rewrite wbbr_total_rate_sum, (u64_small _ Hsum).
  destruct (eligible_rate_sum subs =? 0); [reflexivity|].
  destruct (instant_rate w =? 0); [reflexivity|].
  cbn [negb andb orb]. unfold div64_u64.
  rewrite u32_small; [reflexivity|].
  change WBBR_UNIT with 256. lia.
Qed.

(** Rates 3,000,000 and 1,000,000: the faster subflow weighs 192. *)
Lemma wbbr_weight_share_witness :
  wbbr_weight None (sub_ca sub_fast) = 256 /\
  wbbr_weight (Some [sub_fast; sub_slow]) (sub_ca sub_fast) = 192.
Proof.
  assert (Hsum : 0 <= eligible_rate_sum [sub_fast; sub_slow] < 2 ^ 64)
    by (vm_compute; split; [discriminate | reflexivity]).
  assert (Hown : 0 <= instant_rate (sub_ca sub_fast) < 2 ^ 24)
    by (vm_compute; split; [discriminate | reflexivity]).
  exact (wbbr_weight_share [sub_fast; sub_slow] (sub_ca sub_fast) Hsum Hown).
Defined.

(** ... and the slower one 64. *)
Example wbbr_weight_slow_subflow :
  wbbr_weight (Some [sub_fast; sub_slow]) (sub_ca sub_slow) = 64.
Proof. reflexivity. Qed.

(** Own rates from [2 ^ 24] on wrap in the 32-bit product: a lone subflow
    at exactly [2 ^ 24] is given the weight 0. *)
Example wbbr_weight_wraps :
  wbbr_weight (Some [ {| sub_can_send := true;
                         sub_ca := set_instant_rate (2 ^ 24) wbbr_blank |} ])
              (set_instant_rate (2 ^ 24) wbbr_blank) = 0.
Proof. reflexivity. Qed.

(** C10: when the subflows that can send have a nonzero total rate and the
    subflow's own rate is zero, [wbbr_weight] answers 256 and not the share
    0, and the gain handed to the pacing rate is the pacing gain itself. *)
Theorem wbbr_weight_zero_own_rate (subs : list subflow) (w : wbbr) :
  wbbr_total_rate subs <> 0 ->
  instant_rate w = 0 ->
  wbbr_weight (Some subs) w = WBBR_UNIT /\
  wbbr_weight (Some subs) w <> instant_rate w * WBBR_UNIT / wbbr_total_rate subs /\
  forall gain, 0 <= gain < 2 ^ 10 ->
    s32 (Z.shiftr (u64 (gain * wbbr_weight (Some subs) w)) WBBR_SCALE) = gain.
Proof.
  intros Htotal Hown.
  assert (Hw : wbbr_weight (Some subs) w = WBBR_UNIT).
  { unfold wbbr_weight. rewrite Hown. simpl (0 =? 0).
    rewrite andb_false_r. reflexivity. }
  rewrite Hw, Hown. repeat split.
  - rewrite Z.mul_0_l, Z.div_0_l by exact Htotal. discriminate.
  - intros gain Hg. change WBBR_UNIT with 256. change WBBR_SCALE with 8.
    rewrite u64_small by lia. rewrite shiftr_div by lia.
    change (2 ^ 8) with 256. rewrite Z.div_mul by lia.
    apply s32_small. lia.
Qed.

Lemma wbbr_weight_zero_own_rate_witness :
  wbbr_weight (Some [sub_idle; sub_slow]) (sub_ca sub_idle) = WBBR_UNIT /\
  wbbr_weight (Some [sub_idle; sub_slow]) (sub_ca sub_idle) <>
    instant_rate (sub_ca sub_idle) * WBBR_UNIT / wbbr_total_rate [sub_idle; sub_slow] /\
  forall gain, 0 <= gain < 2 ^ 10 ->
    s32 (Z.shiftr (u64 (gain * wbbr_weight (Some [sub_idle; sub_slow]) (sub_ca sub_idle)))
                  WBBR_SCALE) = gain.
Proof.
  apply (wbbr_weight_zero_own_rate [sub_idle; sub_slow] (sub_ca sub_idle)).
  - vm_compute. discriminate.
  - reflexivity.
Defined.

(** ** The target congestion window *)

Lemma next_even_bound (n : Z) : n <= next_even n <= n + 1.
Proof. unfold next_even. pose proof (Z.mod_pos_bound n 2 ltac:(lia)). lia. Qed.

Lemma next_even_even (n : Z) : next_even n mod 2 = 0.
Proof.
  unfold next_even. rewrite Zplus_mod_idemp_r.
  replace (n + n) with (n * 2) by lia. apply Z.mod_mul. lia.
Qed.

(** C9, as the specification states it, fails: at bandwidth 26,843,546
    (1.6 packets per microsecond), [min_rtt_us = 1] and the probing gain
    320, the exact product is just above 2 packets, so its ceiling is 3 and
    the even target 4; the code truncates the gain product first and
    answers 2. *)
Lemma wbbr_target_cwnd_truncation_counterexample :
  wbbr_target_cwnd (upd (set_min_rtt_us 1) sock_blank) 26843546 320 = 2 /\
  spec_target_cwnd 26843546 1 320 0 = 4.
Proof. split; reflexivity. Qed.

(** C9 (amended): the target congestion window is the ceiling, in units of
    [BW_UNIT], of the bandwidth-delay product times the gain truncated to a
    multiple of the gain unit, plus 3 times [tso_segs_goal], rounded up to
    the next even number -- as long as the product fits 64 bits and the
    window 32 bits.  With [min_rtt_us] still at the sentinel [~0U] the
    target is [TCP_INIT_CWND]. *)
Theorem wbbr_target_cwnd_fixed_point (sk : sock) (bw gain : Z) :
  0 <= bw < 2 ^ 32 ->
  0 <= min_rtt_us (ca sk) < 2 ^ 32 - 1 ->
  0 <= gain ->
  0 <= tso_segs_goal (ca sk) ->
  bw * min_rtt_us (ca sk) * gain < 2 ^ 64 ->
  fixed_target_cwnd bw (min_rtt_us (ca sk)) gain (tso_segs_goal (ca sk)) < 2 ^ 32 ->
  wbbr_target_cwnd sk bw gain =
    fixed_target_cwnd bw (min_rtt_us (ca sk)) gain (tso_segs_goal (ca sk)) /\
  wbbr_target_cwnd (upd (set_min_rtt_us (2 ^ 32 - 1)) sk) bw gain = TCP_INIT_CWND.
Proof.
  intros Hbw Hrtt Hgain Htso Hprod Hfit. split; [|reflexivity].
  unfold wbbr_target_cwnd, fixed_target_cwnd in *.
  set (rtt := min_rtt_us (ca sk)) in *. set (tso := tso_segs_goal (ca sk)) in *.
  destruct (Z.eqb_spec rtt (2 ^ 32 - 1)) as [E|_]; [lia|].
  assert (Hw : 0 <= bw * rtt) by nia.
  assert (Hwg : 0 <= bw * rtt * gain) by nia.
  assert (Hw64 : bw * rtt < 2 ^ 64) by nia.
  rewrite (u32_small bw) by lia. rewrite (u64_small (bw * rtt)) by lia.
  rewrite (u64_small (bw * rtt * gain)) by lia.
  rewrite shiftr_div by (unfold WBBR_SCALE; lia).
  change (2 ^ WBBR_SCALE) with WBBR_UNIT.
  set (q := bw * rtt * gain / WBBR_UNIT) in *.
  assert (Hq : 0 <= q < 2 ^ 56).
  { subst q. change WBBR_UNIT with (2 ^ 8). split.
    - apply Z.div_pos; lia.
    - apply Z.div_lt_upper_bound; lia. }
  rewrite (u64_small (q + BW_UNIT - 1)) by (change BW_UNIT with (2 ^ 24); lia).
  change ((q + BW_UNIT - 1) / BW_UNIT) with (cdiv q BW_UNIT).
  set (c := cdiv q BW_UNIT) in *.
  assert (Hc : 0 <= c).
  { subst c. unfold cdiv. apply Z.div_pos; change BW_UNIT with (2 ^ 24); lia. }
  pose proof (next_even_bound (c + 3 * tso)) as Hne.
  pose proof (next_even_even (c + 3 * tso)) as Hev.
  assert (Hsum : c + 3 * tso + 1 < 2 ^ 32).
  { destruct (Z.eq_dec (next_even (c + 3 * tso)) (c + 3 * tso + 1)) as [E|E]; [lia|].
    assert (E' : next_even (c + 3 * tso) = c + 3 * tso) by lia.
    rewrite E' in Hev, Hfit.
    assert ((c + 3 * tso) <> 2 ^ 32 - 1).
    { intros Hx. rewrite Hx in Hev. vm_compute in Hev. discriminate. }
    lia. }
  rewrite (u32_small c) by lia.
  rewrite (u32_small (c + 3 * tso)) by lia.
  apply round_up_even; lia.
Qed.

(** Bandwidth 1 packet per microsecond, [min_rtt_us] 1000, gain 2.0, two
    segments per skb: 2000 + 6 packets. *)
Lemma wbbr_target_cwnd_fixed_point_witness :
  wbbr_target_cwnd (upd (set_tso_segs_goal 2) (upd (set_min_rtt_us 1000) sock_blank))
                   (2 ^ 24) 512 = 2006 /\
  wbbr_target_cwnd
    (upd (set_min_rtt_us (2 ^ 32 - 1))
         (upd (set_tso_segs_goal 2) (upd (set_min_rtt_us 1000) sock_blank)))
    (2 ^ 24) 512 = 10.
Proof.
  apply (wbbr_target_cwnd_fixed_point
           (upd (set_tso_segs_goal 2) (upd (set_min_rtt_us 1000) sock_blank))
           (2 ^ 24) 512);
    vm_compute; try split; try discriminate; reflexivity.
Defined.

(** Beyond 64 bits the product wraps: at the largest bandwidth and an RTT
    of [2 ^ 32 - 2] microseconds the code's target is far from the
    fixed-point formula. *)
Example wbbr_target_cwnd_wraps :
  wbbr_target_cwnd (upd (set_min_rtt_us (2 ^ 32 - 2)) sock_blank) (2 ^ 32 - 1) 739
  <> fixed_target_cwnd (2 ^ 32 - 1) (2 ^ 32 - 2) 739 0.
Proof. vm_compute. discriminate. Qed.

(** ** Frame properties *)

Section Frames.
Context (K : kernel) (sk : sock) (rs : rate_sample).

Lemma wbbr_update_cycle_phase_bw_model :
  bw_model (wbbr_update_cycle_phase sk rs) = bw_model sk.
Proof. unfold wbbr_update_cycle_phase. frame_ifs. Qed.

Lemma wbbr_update_cycle_phase_round_start :
  round_start (ca (wbbr_update_cycle_phase sk rs)) = round_start (ca sk).
Proof. unfold wbbr_update_cycle_phase. frame_ifs. Qed.

Lemma wbbr_check_full_bw_reached_mid_round :
  round_start (ca sk) = false -> wbbr_check_full_bw_reached sk rs = sk.
Proof.
  intros Hround. unfold wbbr_check_full_bw_reached. rewrite Hround.
  destruct (wbbr_full_bw_reached sk); reflexivity.
Qed.

Lemma wbbr_check_drain_bw_model :
  bw_model (wbbr_check_drain sk rs) = bw_model sk.
Proof. unfold wbbr_check_drain. frame_ifs. Qed.

Lemma wbbr_update_min_rtt_bw_model :
  bw_model (wbbr_update_min_rtt sk rs) = bw_model sk.
Proof. unfold wbbr_update_min_rtt, wbbr_reset_mode, wbbr_save_cwnd. frame_ifs. Qed.

Lemma wbbr_set_pacing_rate_bw_model (rate gain : Z) :
  bw_model (wbbr_set_pacing_rate sk rate gain) = bw_model sk.
Proof. unfold wbbr_set_pacing_rate, wbbr_init_pacing_rate_from_rtt. frame_ifs. Qed.

Lemma wbbr_set_cwnd_bw_model (acked rate gain : Z) :
  bw_model (wbbr_set_cwnd sk rs acked rate gain) = bw_model sk.
Proof. unfold wbbr_set_cwnd, wbbr_set_cwnd_to_recover_or_restore. frame_ifs. Qed.

Lemma wbbr_update_bw_stack_view :
  stack_view (wbbr_update_bw sk rs) = stack_view sk.
Proof.
  unfold wbbr_update_bw, wbbr_lt_bw_sampling, wbbr_lt_bw_sampling_exit,
    wbbr_lt_bw_interval_done.
  frame_ifs.
Qed.

Lemma wbbr_update_cycle_phase_stack_view :
  stack_view (wbbr_update_cycle_phase sk rs) = stack_view sk.
Proof. unfold wbbr_update_cycle_phase. frame_ifs. Qed.

Lemma wbbr_check_full_bw_reached_stack_view :
  stack_view (wbbr_check_full_bw_reached sk rs) = stack_view sk.
Proof. unfold wbbr_check_full_bw_reached. frame_ifs. Qed.

Lemma wbbr_check_drain_stack_view :
  stack_view (wbbr_check_drain sk rs) = stack_view sk.
Proof. unfold wbbr_check_drain. frame_ifs. Qed.

Lemma wbbr_update_min_rtt_stack_view :
  stack_view (wbbr_update_min_rtt sk rs) = stack_view sk.
Proof. unfold wbbr_update_min_rtt, wbbr_reset_mode, wbbr_save_cwnd. frame_ifs. Qed.

Lemma wbbr_set_pacing_rate_clamp (rate gain : Z) :
  snd_cwnd_clamp (wbbr_set_pacing_rate sk rate gain) = snd_cwnd_clamp sk.
Proof. unfold wbbr_set_pacing_rate, wbbr_init_pacing_rate_from_rtt. frame_ifs. Qed.

Lemma wbbr_set_cwnd_pacing_rate (acked rate gain : Z) :
  sk_pacing_rate (wbbr_set_cwnd sk rs acked rate gain) = sk_pacing_rate sk.
Proof. unfold wbbr_set_cwnd, wbbr_set_cwnd_to_recover_or_restore. frame_ifs. Qed.

End Frames.

Lemma stack_view_fields (sk sk' : sock) :
  stack_view sk' = stack_view sk ->
  snd_cwnd sk' = snd_cwnd sk /\ snd_cwnd_clamp sk' = snd_cwnd_clamp sk /\
  sk_pacing_rate sk' = sk_pacing_rate sk /\ srtt_us sk' = srtt_us sk /\
  has_seen_rtt (ca sk') = has_seen_rtt (ca sk).
Proof.
  unfold stack_view. generalize (snd_cwnd sk') (snd_cwnd sk) (snd_cwnd_clamp sk')
    (snd_cwnd_clamp sk) (sk_pacing_rate sk') (sk_pacing_rate sk) (srtt_us sk')
    (srtt_us sk) (has_seen_rtt (ca sk')) (has_seen_rtt (ca sk)).
  intros a a' b b' c c' d d' e e' H. inversion H. repeat split; reflexivity.
Qed.



Lemma wbbr_set_tso_segs_goal_pacing_rate (K : kernel) (sk : sock) :
  sk_pacing_rate (wbbr_set_tso_segs_goal sk) = sk_pacing_rate sk.
Proof. reflexivity. Qed.

Lemma wbbr_set_tso_segs_goal_bw_model (K : kernel) (sk : sock) :
  bw_model (wbbr_set_tso_segs_goal sk) = bw_model sk.
Proof. reflexivity. Qed.

Lemma set_instant_rate_bw_model (rate : Z) (sk : sock) :
  bw_model (upd (set_instant_rate rate) sk) = bw_model sk.
Proof. reflexivity. Qed.

Lemma set_round_start_bw_model (b : bool) (sk : sock) :
  bw_model (upd (set_round_start b) sk) = bw_model sk.
Proof. reflexivity. Qed.

(** The model update leaves the window, the pacing rate and the smoothed
    RTT to the rest of [wbbr_main]. *)
Lemma wbbr_update_model_stack_view (K : kernel) (sk : sock) (rs : rate_sample) :
  stack_view (wbbr_update_model sk rs) = stack_view sk.
Proof.
  unfold wbbr_update_model.
  rewrite wbbr_update_min_rtt_stack_view, wbbr_check_drain_stack_view,
    wbbr_check_full_bw_reached_stack_view, wbbr_update_cycle_phase_stack_view.
  apply wbbr_update_bw_stack_view.
Qed.

(** ** The congestion window *)

(** [wbbr_set_cwnd_to_recover_or_restore] answers [true] exactly when it
    leaves [packet_conservation] set, and touches neither the clamp nor the
    mode. *)
Lemma wbbr_set_cwnd_to_recover_or_restore_frame (sk : sock) (rs : rate_sample) (acked : Z) :
  let r := wbbr_set_cwnd_to_recover_or_restore sk rs acked in
  fst (fst r) = packet_conservation (ca (snd r)) /\
  snd_cwnd_clamp (snd r) = snd_cwnd_clamp sk /\
  mode (ca (snd r)) = mode (ca sk).
Proof.
  unfold wbbr_set_cwnd_to_recover_or_restore.
  destruct ((icsk_ca_state sk =? TCP_CA_Recovery)
            && negb (prev_ca_state (ca sk) =? TCP_CA_Recovery));
    [| destruct ((TCP_CA_Recovery <=? prev_ca_state (ca sk))
                 && (icsk_ca_state sk <? TCP_CA_Recovery)) ];
    cbn -[Z.max Z.min u32 s32 bits];
    try (destruct (restore_cwnd (ca sk)); cbn -[Z.max Z.min u32 s32 bits]);
    try (destruct (packet_conservation (ca sk)) eqn:Hpc;
         cbn -[Z.max Z.min u32 s32 bits]; rewrite ?Hpc);
    auto.
Qed.





(** Without an acknowledged packet [wbbr_set_cwnd] commits nothing. *)
Lemma wbbr_set_cwnd_nothing_acked (sk : sock) (rs : rate_sample) (bw gain : Z) :
  wbbr_set_cwnd sk rs 0 bw gain = sk.
Proof. reflexivity. Qed.

(** ** The pacing rate *)

(** The bootstrap from the smoothed RTT leaves the full-pipe estimate alone. *)
Lemma wbbr_init_pacing_rate_from_rtt_full_bw (K : kernel) (sk : sock) :
  wbbr_full_bw_reached (wbbr_init_pacing_rate_from_rtt sk) = wbbr_full_bw_reached sk.
Proof.
  unfold wbbr_init_pacing_rate_from_rtt.
  destruct (negb (srtt_us sk =? 0)); reflexivity.
Qed.

(** C6, as the specification states it, fails in both directions.  With
    the pipe estimated full, a model rate of 499,963 lowers a committed
    rate of 1,000,000; with the pipe not yet full the same model rate
    leaves it at 1,000,000. *)
Lemma wbbr_set_pacing_rate_lowering_counterexample :
  let K := test_kernel 0 0 in
  let filling := set_sk_pacing_rate 1000000 (upd (set_has_seen_rtt true) sock_blank) in
  let full := upd (set_full_bw_cnt 3) filling in
  (wbbr_full_bw_reached full = true /\
   sk_pacing_rate (wbbr_set_pacing_rate full 5592 256) = 499963) /\
  (wbbr_full_bw_reached filling = false /\
   wbbr_bw_to_pacing_rate filling 5592 256 = 499963 /\
   sk_pacing_rate (wbbr_set_pacing_rate filling 5592 256) = 1000000).
Proof. repeat split; reflexivity. Qed.

(** Once the pipe is estimated full [wbbr_set_pacing_rate] commits the
    model's rate; until then the larger of the committed rate -- after the
    bootstrap, on the call where it runs -- and the model's rate. *)
Lemma wbbr_set_pacing_rate_commits (K : kernel) (sk : sock) (rate gain : Z) :
  sk_pacing_rate (wbbr_set_pacing_rate sk rate gain) =
    if wbbr_full_bw_reached sk then wbbr_bw_to_pacing_rate sk rate gain
    else Z.max (sk_pacing_rate
                  (if negb (has_seen_rtt (ca sk)) && negb (srtt_us sk =? 0)
                   then wbbr_init_pacing_rate_from_rtt sk else sk))
               (wbbr_bw_to_pacing_rate sk rate gain).
Proof.
  unfold wbbr_set_pacing_rate.
  set (model := wbbr_bw_to_pacing_rate sk rate gain).
  set (bootstrapped := if negb (has_seen_rtt (ca sk)) && negb (srtt_us sk =? 0)
                       then wbbr_init_pacing_rate_from_rtt sk else sk).
  assert (Hfull : wbbr_full_bw_reached bootstrapped = wbbr_full_bw_reached sk).
  { subst bootstrapped.
    destruct (negb (has_seen_rtt (ca sk)) && negb (srtt_us sk =? 0));
      [apply wbbr_init_pacing_rate_from_rtt_full_bw | reflexivity]. }
  rewrite Hfull. destruct (wbbr_full_bw_reached sk); [reflexivity|].
  cbn [orb]. destruct (Z.ltb_spec (sk_pacing_rate bootstrapped) model);
    cbn [sk_pacing_rate set_sk_pacing_rate]; lia.
Qed.

(** No bootstrap runs once an RTT has been seen, or while there is no
    smoothed RTT. *)
Lemma wbbr_set_pacing_rate_no_bootstrap (K : kernel) (sk : sock) :
  has_seen_rtt (ca sk) = true \/ srtt_us sk = 0 ->
  (if negb (has_seen_rtt (ca sk)) && negb (srtt_us sk =? 0)
   then wbbr_init_pacing_rate_from_rtt sk else sk) = sk.
Proof.
  intros [Hseen|Hsrtt].
  - rewrite Hseen. reflexivity.
  - rewrite Hsrtt. cbn. rewrite andb_false_r. reflexivity.
Qed.

(** The pacing rate after [wbbr_main] is the one [wbbr_set_pacing_rate]
    commits on the updated model. *)
Lemma wbbr_main_pacing_rate (K : kernel) (sk : sock) (rs : rate_sample) :
  sk_pacing_rate (wbbr_main sk rs) =
  sk_pacing_rate
    (wbbr_set_pacing_rate
       (upd (set_instant_rate (wbbr_bw (wbbr_update_model sk rs))) (wbbr_update_model sk rs))
       (wbbr_bw (wbbr_update_model sk rs))
       (wbbr_weighted_gain
          (upd (set_instant_rate (wbbr_bw (wbbr_update_model sk rs)))
               (wbbr_update_model sk rs)))).
Proof.
  unfold wbbr_main.
  set (model := wbbr_update_model sk rs) in *. clearbody model.
  cbv zeta.
  rewrite wbbr_set_cwnd_pacing_rate, wbbr_set_tso_segs_goal_pacing_rate.
  reflexivity.
Qed.

(** Before the pipe is full and without the bootstrap, the committed rate
    does not fall below the one the model update found. *)
Lemma wbbr_set_pacing_rate_after_update
    (K : kernel) (sk model : sock) (rate gain : Z) :
  sk_pacing_rate model = sk_pacing_rate sk ->
  srtt_us model = srtt_us sk ->
  has_seen_rtt (ca model) = has_seen_rtt (ca sk) ->
  has_seen_rtt (ca sk) = true \/ srtt_us sk = 0 ->
  wbbr_full_bw_reached model = false ->
  sk_pacing_rate sk <=
  sk_pacing_rate (wbbr_set_pacing_rate (upd (set_instant_rate rate) model) rate gain).
Proof.
  intros Hp Hs Hh Hno_boot Hfilling.
  set (sk2 := upd (set_instant_rate rate) model).
  assert (Hview2 : wbbr_full_bw_reached sk2 = false /\
                   sk_pacing_rate sk2 = sk_pacing_rate sk /\
                   (has_seen_rtt (ca sk2) = true \/ srtt_us sk2 = 0)).
  { subst sk2. unfold wbbr_full_bw_reached in *.
    cbn [ca upd set_ca full_bw_cnt has_seen_rtt set_instant_rate srtt_us sk_pacing_rate].
    rewrite Hh, Hs. auto. }
  destruct Hview2 as (Hfull2 & Hp2 & Hno_boot2). clearbody sk2.
  rewrite wbbr_set_pacing_rate_commits, Hfull2.
  rewrite (wbbr_set_pacing_rate_no_bootstrap K sk2 Hno_boot2).
  rewrite Hp2. lia.
Qed.

(** C6 (amended): once the pipe is estimated full the committed pacing
    rate is the model's rate, higher or lower; until then it is the larger
    of the committed rate and the model's rate, the committed rate being
    the bootstrap value on the one call where a smoothed RTT has just
    become available.  So, without that bootstrap, neither
    [wbbr_set_pacing_rate] nor an invocation of [wbbr_main] lowers the
    pacing rate before the pipe is full. *)
Theorem wbbr_set_pacing_rate_ratchet
    (K : kernel) (sk : sock) (rs : rate_sample) (rate gain : Z) :
  let bootstrapped :=
    if negb (has_seen_rtt (ca sk)) && negb (srtt_us sk =? 0)
    then wbbr_init_pacing_rate_from_rtt sk else sk in
  sk_pacing_rate (wbbr_set_pacing_rate sk rate gain) =
    (if wbbr_full_bw_reached sk then wbbr_bw_to_pacing_rate sk rate gain
     else Z.max (sk_pacing_rate bootstrapped) (wbbr_bw_to_pacing_rate sk rate gain)) /\
  (has_seen_rtt (ca sk) = true \/ srtt_us sk = 0 ->
   (wbbr_full_bw_reached sk = false ->
    sk_pacing_rate sk <= sk_pacing_rate (wbbr_set_pacing_rate sk rate gain)) /\
   (wbbr_full_bw_reached (wbbr_update_model sk rs) = false ->
    sk_pacing_rate sk <= sk_pacing_rate (wbbr_main sk rs))).
Proof.
  intros bootstrapped. split; [apply wbbr_set_pacing_rate_commits|].
  intros Hno_boot. split; intros Hfilling.
  - rewrite wbbr_set_pacing_rate_commits, Hfilling.
    rewrite (wbbr_set_pacing_rate_no_bootstrap K sk Hno_boot). lia.
  - destruct (stack_view_fields _ _ (wbbr_update_model_stack_view K sk rs))
      as (_ & _ & Hp & Hs & Hh).
    rewrite wbbr_main_pacing_rate.
    apply wbbr_set_pacing_rate_after_update; assumption.
Qed.

Lemma wbbr_set_pacing_rate_ratchet_witness :
  let K := test_kernel 0 0 in
  let sk := set_sk_pacing_rate 1000000 (upd (set_has_seen_rtt true) sock_blank) in
  let rs := {| rs_prior_delivered := 0; rs_delivered := 1; rs_interval_us := 10000;
               rs_rtt_us := 10000; rs_losses := 0; rs_acked_sacked := 1;
               rs_prior_in_flight := 1; rs_is_app_limited := false |} in
  sk_pacing_rate (wbbr_set_pacing_rate sk 5592 256) = 1000000 /\
  sk_pacing_rate sk <= sk_pacing_rate (wbbr_set_pacing_rate sk 5592 256) /\
  sk_pacing_rate sk <= sk_pacing_rate (wbbr_main sk rs).
Proof.
  intros K sk rs.
  destruct (wbbr_set_pacing_rate_ratchet K sk rs 5592 256) as (Hcommit & Hratchet).
  destruct (Hratchet (or_introl eq_refl)) as (Hset & Hmain).
  split; [exact Hcommit|]. split; [apply Hset | apply Hmain]; reflexivity.
Defined.

(** ** Samples that are not valid observations *)

(** C8, as the specification states it, fails: on a socket fresh from
    [wbbr_init], an invocation whose sample has [delivered = -1] and one
    packet acknowledged raises the window from 10 to 11 and sets the burst
    goal. *)
Lemma wbbr_main_invalid_sample_counterexample :
  let K := test_kernel 0 0 in
  let sk := wbbr_init sock_blank in
  let rs := {| rs_prior_delivered := 0; rs_delivered := -1; rs_interval_us := 1000;
               rs_rtt_us := -1; rs_losses := 0; rs_acked_sacked := 1;
               rs_prior_in_flight := 1; rs_is_app_limited := false |} in
  snd_cwnd sk = 10 /\ snd_cwnd (wbbr_main sk rs) = 11 /\
  tso_segs_goal (ca sk) = 0 /\ tso_segs_goal (ca (wbbr_main sk rs)) = 2.
Proof. repeat split; reflexivity. Qed.

(** [wbbr_update_bw] returns early on a sample that is not a valid
    observation, with [round_start] cleared. *)
Lemma wbbr_update_bw_not_valid (K : kernel) (sk : sock) (rs : rate_sample) :
  rs_delivered rs < 0 \/ rs_interval_us rs <= 0 ->
  wbbr_update_bw sk rs = upd (set_round_start false) sk.
Proof.
  intros Hinvalid. unfold wbbr_update_bw.
  destruct (Z.ltb_spec (rs_delivered rs) 0); [reflexivity|].
  destruct (Z.leb_spec (rs_interval_us rs) 0); [reflexivity|].
  lia.
Qed.

(** C8 (amended): [wbbr_update_bw] discards a sample whose delivered count
    is negative or whose interval is not positive: it clears the
    [round_start] flag and changes nothing else.  Over the whole invocation
    of [wbbr_main] the bandwidth filter, the round count, the full-pipe
    estimate and the long-term sampling state are then as before; the mode,
    the gains and the window are not covered. *)
Theorem wbbr_update_bw_invalid_sample (K : kernel) (sk : sock) (rs : rate_sample) :
  rs_delivered rs < 0 \/ rs_interval_us rs <= 0 ->
  wbbr_update_bw sk rs = upd (set_round_start false) sk /\
  bw_model (wbbr_main sk rs) = bw_model sk.
Proof.
  intros Hinvalid. split; [apply wbbr_update_bw_not_valid; exact Hinvalid|].
  unfold wbbr_main. cbv zeta.
  rewrite wbbr_set_cwnd_bw_model, wbbr_set_tso_segs_goal_bw_model,
    wbbr_set_pacing_rate_bw_model, set_instant_rate_bw_model.
  unfold wbbr_update_model. cbv zeta.
  rewrite wbbr_update_min_rtt_bw_model, wbbr_check_drain_bw_model.
  rewrite (wbbr_update_bw_not_valid K sk rs Hinvalid).
  set (cleared := upd (set_round_start false) sk).
  assert (Hround : round_start (ca cleared) = false) by reflexivity.
  assert (Hmodel : bw_model cleared = bw_model sk) by apply set_round_start_bw_model.
  clearbody cleared.
  rewrite wbbr_check_full_bw_reached_mid_round
    by (rewrite wbbr_update_cycle_phase_round_start; exact Hround).
  rewrite wbbr_update_cycle_phase_bw_model. exact Hmodel.
Qed.

Lemma wbbr_update_bw_invalid_sample_witness :
  let K := test_kernel 0 0 in
  let rs := {| rs_prior_delivered := 0; rs_delivered := -1; rs_interval_us := 1000;
               rs_rtt_us := -1; rs_losses := 0; rs_acked_sacked := 1;
               rs_prior_in_flight := 1; rs_is_app_limited := false |} in
  wbbr_update_bw (upd (set_round_start true) sock_blank) rs = sock_blank /\
  bw_model (wbbr_main (upd (set_round_start true) sock_blank) rs) = bw_model sock_blank.
Proof.
  intros K rs.
  apply (wbbr_update_bw_invalid_sample K (upd (set_round_start true) sock_blank) rs).
  left. simpl. lia.
Defined.

(** ** The gain cycle of PROBE_BW *)

(** The table of pacing gains, in units of 1/256. *)
Lemma wbbr_pacing_gain_table :
  wbbr_pacing_gain = [320; 192; 256; 256; 256; 256; 256; 256].
Proof. reflexivity. Qed.

(** Outside PROBE_BW, and while the long-term rate is in use,
    [wbbr_update_cycle_phase] does nothing. *)
Lemma wbbr_update_cycle_phase_suspended (K : kernel) (sk : sock) (rs : rate_sample) :
  mode (ca sk) <> WBBR_PROBE_BW \/ lt_use_bw (ca sk) = true ->
  wbbr_update_cycle_phase sk rs = sk.
Proof.
  intros [Hmode|Hlt]; unfold wbbr_update_cycle_phase.
  - destruct (mode (ca sk)); try reflexivity. contradiction.
  - rewrite Hlt. cbn. rewrite andb_false_r. reflexivity.
Qed.

(** C5, as the specification states it, fails: at gain 1.0, a phase that
    has lasted exactly [min_rtt_us] = 10,000 microseconds has reached one
    min-RTT interval, and the cycle does not advance. *)
Lemma wbbr_update_cycle_phase_boundary_counterexample :
  let K := test_kernel 0 0 in
  let sk :=
    {| snd_cwnd := 40; snd_cwnd_clamp := 2 ^ 32 - 1; delivered := 500; lost := 0;
       delivered_mstamp := {| stamp_us := 10000; stamp_jiffies := 10 |};
       app_limited := 0; srtt_us := 80000; mss_cache := 1460; tcp_min_rtt := 10000;
       packets_in_flight := 20; icsk_ca_state := TCP_CA_Open; sk_pacing_rate := 1000000;
       sk_max_pacing_rate := 2 ^ 32 - 1; can_send := true; siblings := None;
       ca := set_cycle_idx 2 (set_pacing_gain 256 (set_cwnd_gain 512
               (set_mode WBBR_PROBE_BW (set_min_rtt_us 10000 wbbr_blank)))) |} in
  let rs := {| rs_prior_delivered := 480; rs_delivered := 2; rs_interval_us := 10000;
               rs_rtt_us := 10000; rs_losses := 0; rs_acked_sacked := 2;
               rs_prior_in_flight := 20; rs_is_app_limited := false |} in
  skb_mstamp_us_delta (delivered_mstamp sk) (cycle_mstamp (ca sk)) = min_rtt_us (ca sk) /\
  spec_phase_ends (pacing_gain (ca sk))
    (skb_mstamp_us_delta (delivered_mstamp sk) (cycle_mstamp (ca sk)))
    (min_rtt_us (ca sk)) (rs_prior_in_flight rs) (rs_losses rs)
    (wbbr_target_cwnd sk (wbbr_max_bw sk) (pacing_gain (ca sk)))
    (wbbr_target_cwnd sk (wbbr_max_bw sk) WBBR_UNIT) = true /\
  wbbr_is_next_cycle_phase sk rs = false /\
  wbbr_update_cycle_phase sk rs = sk.
Proof. repeat split; reflexivity. Qed.

(** C5 (amended): in PROBE_BW and outside long-term mode the cycle
    advances exactly when the phase has lasted longer than [min_rtt_us]
    -- alone at gain 1.0; together with a loss in the sample or a prior
    in-flight at least the target window at that gain, above 1.0 -- or,
    below 1.0, when it has lasted longer than [min_rtt_us] or the prior
    in-flight is at most the target window at gain 1.0.  Advancing
    increments the cycle index modulo 8, restarts the phase clock and loads
    the gain from the table. *)
Theorem wbbr_update_cycle_phase_rule (K : kernel) (sk : sock) (rs : rate_sample) :
  mode (ca sk) = WBBR_PROBE_BW ->
  lt_use_bw (ca sk) = false ->
  let ends :=
    strict_phase_ends (pacing_gain (ca sk))
      (skb_mstamp_us_delta (delivered_mstamp sk) (cycle_mstamp (ca sk)))
      (min_rtt_us (ca sk)) (rs_prior_in_flight rs) (rs_losses rs)
      (wbbr_target_cwnd sk (wbbr_max_bw sk) (pacing_gain (ca sk)))
      (wbbr_target_cwnd sk (wbbr_max_bw sk) WBBR_UNIT) in
  let sk' := wbbr_update_cycle_phase sk rs in
  (ends = false -> sk' = sk) /\
  (ends = true ->
   cycle_idx (ca sk') = (cycle_idx (ca sk) + 1) mod 8 /\
   pacing_gain (ca sk') =
     nth (Z.to_nat ((cycle_idx (ca sk) + 1) mod 8)) [320; 192; 256; 256; 256; 256; 256; 256] 0 /\
   cycle_mstamp (ca sk') = delivered_mstamp sk).
Proof.
  intros Hmode Hlt ends sk'.
  assert (Hends : wbbr_is_next_cycle_phase sk rs = ends).
  { subst ends. unfold wbbr_is_next_cycle_phase, strict_phase_ends.
    destruct (pacing_gain (ca sk) =? WBBR_UNIT); [reflexivity|].
    destruct (WBBR_UNIT <? pacing_gain (ca sk)); reflexivity. }
  assert (Hstep : sk' = if ends then wbbr_advance_cycle_phase sk else sk).
  { subst sk'. unfold wbbr_update_cycle_phase. rewrite Hmode, Hlt, Hends. reflexivity. }
  assert (Hidx : Z.land (cycle_idx (ca sk) + 1) (CYCLE_LEN - 1) = (cycle_idx (ca sk) + 1) mod 8).
  { change (CYCLE_LEN - 1) with (Z.ones 3). rewrite Z.land_ones by lia. reflexivity. }
  split; intros He; rewrite He in Hstep; rewrite Hstep; [reflexivity|].
  unfold wbbr_advance_cycle_phase. cbn [ca upd set_ca cycle_idx pacing_gain cycle_mstamp
    set_cycle_idx set_cycle_mstamp set_pacing_gain delivered_mstamp].
  rewrite Hidx. repeat split; reflexivity.
Qed.

(** At gain 1.25 a phase that has lasted 10,001 microseconds with a loss in
    the sample moves on from phase 0 to phase 1, gain 0.75. *)
Lemma wbbr_update_cycle_phase_rule_witness :
  let K := test_kernel 0 0 in
  let sk :=
    {| snd_cwnd := 40; snd_cwnd_clamp := 2 ^ 32 - 1; delivered := 500; lost := 0;
       delivered_mstamp := {| stamp_us := 10001; stamp_jiffies := 10 |};
       app_limited := 0; srtt_us := 80000; mss_cache := 1460; tcp_min_rtt := 10000;
       packets_in_flight := 20; icsk_ca_state := TCP_CA_Open; sk_pacing_rate := 1000000;
       sk_max_pacing_rate := 2 ^ 32 - 1; can_send := true; siblings := None;
       ca := set_cycle_idx 0 (set_pacing_gain 320 (set_cwnd_gain 512
               (set_mode WBBR_PROBE_BW (set_min_rtt_us 10000 wbbr_blank)))) |} in
  let rs := {| rs_prior_delivered := 480; rs_delivered := 2; rs_interval_us := 10000;
               rs_rtt_us := 10000; rs_losses := 1; rs_acked_sacked := 2;
               rs_prior_in_flight := 0; rs_is_app_limited := false |} in
  cycle_idx (ca (wbbr_update_cycle_phase sk rs)) = 1 /\
  pacing_gain (ca (wbbr_update_cycle_phase sk rs)) = 192 /\
  cycle_mstamp (ca (wbbr_update_cycle_phase sk rs)) = delivered_mstamp sk.
Proof.
  intros K sk rs.
  apply (wbbr_update_cycle_phase_rule K sk rs); reflexivity.
Defined.

(** ** The long-term bandwidth estimator *)

(** C4, as the specification states it, fails: an interval of 4 rounds
    with 196 packets lost for 1000 delivered -- a loss ratio of 19.6%,
    below 20% -- closes and yields the estimate 167,772. *)
Lemma wbbr_lt_bw_sampling_threshold_counterexample :
  let K := test_kernel 100 0 in
  let sk :=
    {| snd_cwnd := 40; snd_cwnd_clamp := 2 ^ 32 - 1; delivered := 1000; lost := 196;
       delivered_mstamp := {| stamp_us := 100000; stamp_jiffies := 100 |};
       app_limited := 0; srtt_us := 80000; mss_cache := 1460; tcp_min_rtt := 10000;
       packets_in_flight := 20; icsk_ca_state := TCP_CA_Recovery; sk_pacing_rate := 1000000;
       sk_max_pacing_rate := 2 ^ 32 - 1; can_send := true; siblings := None;
       ca := set_lt_rtt_cnt 4 (set_lt_is_sampling true (set_min_rtt_us 10000 wbbr_blank)) |} in
  let rs := {| rs_prior_delivered := 900; rs_delivered := 2; rs_interval_us := 10000;
               rs_rtt_us := 10000; rs_losses := 1; rs_acked_sacked := 2;
               rs_prior_in_flight := 20; rs_is_app_limited := false |} in
  fst (wbbr_lt_bw_sampling_exit sk rs) = LT_interval_done 167772 /\
  lt_lost sk = 196 /\ lt_delivered sk = 1000 /\
  5 * lt_lost sk < lt_delivered sk.
Proof. repeat split; reflexivity. Qed.

(** C4 (amended): outside long-term mode, sampling starts only on a loss;
    an interval closes, yielding a bandwidth estimate, only when sampling
    was under way, the sample is not app-limited and carries a loss, at
    least 4 and at most 16 rounds have been counted, and the packets lost
    in the interval are at least 50/256 (about 19.5%) of those delivered
    -- for intervals in which 256 times the packets lost and 50 times the
    packets delivered both fit 32 bits, that is fewer than [2 ^ 24]
    packets lost and at most 85,899,345 delivered.  An app-limited sample
    restarts the sampling from scratch, and so does an interval of more
    than 16 rounds. *)
Theorem wbbr_lt_bw_sampling_interval (K : kernel) (sk : sock) (rs : rate_sample) :
  lt_use_bw (ca sk) = false ->
  let exit := fst (wbbr_lt_bw_sampling_exit sk rs) in
  let sk' := wbbr_lt_bw_sampling sk rs in
  (lt_is_sampling (ca sk) = false -> rs_losses rs = 0 ->
   exit = LT_await_loss /\ sk' = sk) /\
  (forall rate, exit = LT_interval_done rate ->
   lt_is_sampling (ca sk) = true /\ rs_is_app_limited rs = false /\ rs_losses rs <> 0 /\
   4 <= lt_rounds sk <= 16 /\
   lt_delivered sk <> 0 /\
   (256 * lt_lost sk < 2 ^ 32 -> 50 * lt_delivered sk < 2 ^ 32 ->
    50 * lt_delivered sk <= 256 * lt_lost sk)) /\
  (rs_is_app_limited rs = true ->
   lt_is_sampling (ca sk) = true \/ rs_losses rs <> 0 ->
   exit = LT_app_limited /\ lt_sampling_restarted sk sk') /\
  (rs_is_app_limited rs = false -> lt_is_sampling (ca sk) = true -> 16 < lt_rounds sk ->
   exit = LT_too_long /\ lt_sampling_restarted sk sk').
Proof.
  intros Hlt exit sk'. subst exit sk'.
  unfold wbbr_lt_bw_sampling, wbbr_lt_bw_sampling_exit. rewrite Hlt.
  change (4 * wbbr_lt_intvl_min_rtts) with 16.
  change wbbr_lt_intvl_min_rtts with 4. change wbbr_lt_loss_thresh with 50.
  change WBBR_SCALE with 8.
  destruct (lt_is_sampling (ca sk)) eqn:Hs; lt_step.
  - (* a sampling interval is open *)
    destruct (rs_is_app_limited rs) eqn:Happ; lt_step.
    { lt_leaf. }
    set (sk1 := if round_start (ca sk)
                then upd (set_lt_rtt_cnt (bits 7 (lt_rtt_cnt (ca sk) + 1))) sk else sk).
    assert (Hframe :
      lt_rtt_cnt (ca sk1) = lt_rounds sk /\
      u32 (lost sk1 - lt_last_lost (ca sk1)) = lt_lost sk /\
      u32 (delivered sk1 - lt_last_delivered (ca sk1)) = lt_delivered sk /\
      lt_sampling_restarted sk (wbbr_reset_lt_bw_sampling sk1)).
    { subst sk1. unfold lt_rounds, lt_lost, lt_delivered, lt_sampling_restarted.
      destruct (round_start (ca sk)); repeat split; reflexivity. }
    destruct Hframe as (Hrounds & Hlost & Hdelivered & Hrestart).
    rewrite Hrounds, Hlost, Hdelivered.
    destruct (Z.ltb_spec (lt_rounds sk) 4); [lt_leaf|].
    destruct (Z.ltb_spec 16 (lt_rounds sk)); [lt_leaf|].
    destruct (Z.eqb_spec (rs_losses rs) 0); [lt_leaf|].
    destruct (Z.eqb_spec (lt_delivered sk) 0); [lt_leaf|].
    rewrite Z.shiftl_mul_pow2 by lia. change (2 ^ 8) with 256.
    destruct (Z.ltb_spec (u32 (lt_lost sk * 256)) (u32 (50 * lt_delivered sk))); [lt_leaf|].
    cbn [orb].
    match goal with |- context [if ?c <? 1 then _ else _] => destruct (c <? 1) end;
      [lt_leaf|].
    match goal with |- context [if ?c <? 1 then _ else _] => destruct (c <? 1) end;
      [lt_leaf|].
    cbn [fst snd]. unfold lt_lost, lt_delivered in *.
    pose proof (u32_range (lost sk - lt_last_lost (ca sk))).
    pose proof (u32_range (delivered sk - lt_last_delivered (ca sk))).
    repeat (intros; match goal with
                    | |- _ /\ _ => split
                    | _ => first [ assumption | congruence | lia | reflexivity | idtac ]
                    end).
    match goal with
    | Hle : u32 (50 * ?d) <= u32 (?l * 256) |- _ =>
      rewrite (u32_small (50 * d)), (u32_small (l * 256)) in Hle by lia
    end.
    lia.
  - (* no interval is open *)
    destruct (Z.eqb_spec (rs_losses rs) 0) as [Hl|Hl]; lt_step.
    { lt_leaf. }
    destruct (rs_is_app_limited rs) eqn:Happ; lt_step.
    { lt_leaf. }
    unfold wbbr_reset_lt_bw_sampling_interval. lt_step.
    destruct (round_start (ca sk)); lt_step;
      match goal with |- context [if ?c <? 4 then _ else _] =>
        replace (c <? 4) with true by reflexivity end;
      lt_leaf.
Qed.

(** 4 rounds, 300 packets lost for 1000 delivered. *)
Lemma wbbr_lt_bw_sampling_interval_witness :
  let sk :=
    {| snd_cwnd := 40; snd_cwnd_clamp := 2 ^ 32 - 1; delivered := 1000; lost := 300;
       delivered_mstamp := {| stamp_us := 100000; stamp_jiffies := 100 |};
       app_limited := 0; srtt_us := 80000; mss_cache := 1460; tcp_min_rtt := 10000;
       packets_in_flight := 20; icsk_ca_state := TCP_CA_Recovery; sk_pacing_rate := 1000000;
       sk_max_pacing_rate := 2 ^ 32 - 1; can_send := true; siblings := None;
       ca := set_lt_rtt_cnt 4 (set_lt_is_sampling true (set_min_rtt_us 10000 wbbr_blank)) |} in
  4 <= lt_rounds sk <= 16 /\ 50 * lt_delivered sk <= 256 * lt_lost sk.
Proof.
  intros sk.
  pose (rs := {| rs_prior_delivered := 900; rs_delivered := 2; rs_interval_us := 10000;
                 rs_rtt_us := 10000; rs_losses := 1; rs_acked_sacked := 2;
                 rs_prior_in_flight := 20; rs_is_app_limited := false |}).
  destruct (wbbr_lt_bw_sampling_interval (test_kernel 100 0) sk rs eq_refl)
    as (_ & Hclose & _).
  destruct (Hclose 167772 eq_refl) as (_ & _ & _ & Hrounds & _ & Hratio).
  split; [exact Hrounds|].
  apply Hratio; vm_compute; reflexivity.
Defined.

(** From 85,899,346 packets delivered in the interval on, the 32-bit
    product [wbbr_lt_loss_thresh * delivered] wraps: with one packet lost
    it wraps to 4, below [1 << 8], and the interval closes. *)
Example wbbr_lt_bw_sampling_loss_ratio_wraps :
  let K := test_kernel 100 0 in
  let sk :=
    {| snd_cwnd := 40; snd_cwnd_clamp := 2 ^ 32 - 1; delivered := 85899346; lost := 1;
       delivered_mstamp := {| stamp_us := 100000; stamp_jiffies := 100 |};
       app_limited := 0; srtt_us := 80000; mss_cache := 1460; tcp_min_rtt := 10000;
       packets_in_flight := 20; icsk_ca_state := TCP_CA_Recovery; sk_pacing_rate := 1000000;
       sk_max_pacing_rate := 2 ^ 32 - 1; can_send := true; siblings := None;
       ca := set_lt_rtt_cnt 4 (set_lt_is_sampling true (set_min_rtt_us 10000 wbbr_blank)) |} in
  let rs := {| rs_prior_delivered := 900; rs_delivered := 2; rs_interval_us := 10000;
               rs_rtt_us := 10000; rs_losses := 1; rs_acked_sacked := 2;
               rs_prior_in_flight := 20; rs_is_app_limited := false |} in
  fst (wbbr_lt_bw_sampling_exit sk rs) = LT_interval_done 1526616933 /\
  lt_lost sk = 1 /\ lt_delivered sk = 85899346 /\
  u32 (wbbr_lt_loss_thresh * lt_delivered sk) = 4.
Proof. repeat split; reflexivity. Qed.

(** Without overflow [wbbr_rate_bytes_per_sec] at gain 1.0 is the rate in
    whole bytes per second. *)
Lemma wbbr_rate_bytes_per_sec_unit (K : kernel) (sk : sock) (rate : Z) :
  0 <= rate -> 0 <= tcp_mss_to_mtu sk (mss_cache sk) ->
  rate * tcp_mss_to_mtu sk (mss_cache sk) < 2 ^ 44 ->
  wbbr_rate_bytes_per_sec sk rate WBBR_UNIT =
  rate * tcp_mss_to_mtu sk (mss_cache sk) * USEC_PER_SEC / BW_UNIT.
Proof.
  intros Hrate Hmtu Hsmall. unfold wbbr_rate_bytes_per_sec.
  set (bytes := rate * tcp_mss_to_mtu sk (mss_cache sk)) in *.
  assert (0 <= bytes) by (subst bytes; nia).
  change WBBR_UNIT with 256. change WBBR_SCALE with 8. change BW_SCALE with 24.
  change USEC_PER_SEC with 1000000. change BW_UNIT with (2 ^ 24).
  rewrite (u64_small bytes) by lia.
  rewrite (u64_small (bytes * 256)) by lia.
  rewrite !shiftr_div by lia. change (2 ^ 8) with 256.
  rewrite Z.div_mul by lia.
  rewrite (u64_small (bytes * 1000000)) by lia.
  reflexivity.
Qed.

(** Below [2 ^ 27] (8 packets per microsecond) the arithmetic of
    [wbbr_lt_bw_interval_done] does not wrap: when a previous estimate is
    present and the two are consistent in the sense of the specification,
    the estimate becomes their average, long-term mode is on, the pacing
    gain is 256 and the round counter is 0. *)
Lemma wbbr_lt_bw_interval_done_policed (K : kernel) (sk : sock) (rate : Z) :
  0 <= rate < 2 ^ 32 ->
  0 < lt_bw (ca sk) < 2 ^ 27 ->
  0 < tcp_mss_to_mtu sk (mss_cache sk) ->
  spec_lt_consistent rate (lt_bw (ca sk)) (tcp_mss_to_mtu sk (mss_cache sk)) ->
  let sk' := wbbr_lt_bw_interval_done sk rate in
  lt_bw (ca sk') = (rate + lt_bw (ca sk)) / 2 /\
  lt_use_bw (ca sk') = true /\
  pacing_gain (ca sk') = WBBR_UNIT /\
  lt_rtt_cnt (ca sk') = 0.
Proof.
  intros Hrate Hprev Hmtu Hcons sk'.
  set (prev := lt_bw (ca sk)) in *. set (mtu := tcp_mss_to_mtu sk (mss_cache sk)) in *.
  assert (Hdiff : Z.abs (rate - prev) < 2 ^ 24).
  { destruct Hcons as [Hrel|Habs]; [lia|].
    change USEC_PER_SEC with 1000000 in Habs. change BW_UNIT with (2 ^ 24) in Habs.
    assert (Z.abs (rate - prev) * mtu * 1000000 < 501 * 2 ^ 24).
    { apply Z.nle_gt. intros Hge.
      apply (Z.div_le_mono _ _ (2 ^ 24)) in Hge; [|lia].
      rewrite Z.div_mul in Hge by lia. lia. }
    nia. }
  assert (Htest : wbbr_lt_bw_is_consistent sk rate = true).
  { unfold wbbr_lt_bw_is_consistent. fold prev.
    rewrite abs_int_diff by lia.
    change WBBR_UNIT with 256. change wbbr_lt_bw_ratio with 32. change wbbr_lt_bw_diff with 500.
    rewrite (u32_small (Z.abs (rate - prev) * 256)) by lia.
    rewrite (u32_small (32 * prev)) by lia.
    apply orb_true_iff. destruct Hcons as [Hrel|Habs].
    - left. apply Z.leb_le. lia.
    - right. apply Z.leb_le.
      change 256 with WBBR_UNIT.
      rewrite wbbr_rate_bytes_per_sec_unit; fold mtu; try lia.
      change USEC_PER_SEC with 1000000 in Habs. change BW_UNIT with (2 ^ 24) in Habs.
      assert (Z.abs (rate - prev) * mtu * 1000000 < 501 * 2 ^ 24).
      { apply Z.nle_gt. intros Hge.
        apply (Z.div_le_mono _ _ (2 ^ 24)) in Hge; [|lia].
        rewrite Z.div_mul in Hge by lia. lia. }
      lia. }
  subst sk'. unfold wbbr_lt_bw_interval_done. fold prev. rewrite Htest.
  destruct (Z.eqb_spec prev 0) as [E|_]; [lia|].
  cbn [negb andb ca upd set_ca lt_bw lt_use_bw pacing_gain lt_rtt_cnt
       set_lt_bw set_lt_use_bw set_pacing_gain set_lt_rtt_cnt].
  fold prev. repeat split.
  rewrite u32_small by lia. rewrite shiftr_div by lia. reflexivity.
Qed.

(** The example of the specification: estimates 1,000,000 and 1,050,000
    are within 1/8 and average to 1,025,000. *)
Example wbbr_lt_bw_interval_done_example :
  let K := test_kernel 0 0 in
  let sk := wbbr_lt_bw_interval_done (upd (set_lt_bw 1000000) sock_blank) 1050000 in
  lt_bw (ca sk) = 1025000 /\ lt_use_bw (ca sk) = true /\
  pacing_gain (ca sk) = 256 /\ lt_rtt_cnt (ca sk) = 0.
Proof. repeat split; reflexivity. Qed.

(** C3: on a policed path that delivers 8 packets per microsecond -- 256
    bytes each on the wire -- the first sampling interval closes with the
    estimate [2 ^ 27].  The second closes 4194 units above it, 0.003% more:
    the two are consistent in the sense of the specification, and yet
    [wbbr_lt_bw_interval_done] does not enter long-term mode and replaces
    the old estimate by the new one.  The product
    [wbbr_lt_bw_ratio * lt_bw] has wrapped to 0 in 32 bits, and the
    byte-rate difference is 63,995 bytes per second.  The same path at 100
    packets per round, with intervals 2.5% apart, enters long-term mode
    with the average of the two estimates. *)
Theorem wbbr_lt_bw_interval_done_ratio_overflow :
  let first := after_rounds 0 sock_small_mss (firstn 7 (policed_path 80000 10)) in
  let second := after_rounds 0 sock_small_mss (policed_path 80000 10) in
  let slow := after_rounds 0 sock_small_mss (policed_path 100 10) in
  (lt_bw (ca first) = 2 ^ 27 /\ lt_use_bw (ca first) = false) /\
  spec_lt_consistent (2 ^ 27 + 4194) (lt_bw (ca first))
    (@tcp_mss_to_mtu (test_kernel 80 0) first (mss_cache first)) /\
  (u32 (wbbr_lt_bw_ratio * lt_bw (ca first)) = 0 /\
   @wbbr_rate_bytes_per_sec (test_kernel 80 0) first 4194 WBBR_UNIT = 63995 /\
   @wbbr_lt_bw_is_consistent (test_kernel 80 0) first (2 ^ 27 + 4194) = false) /\
  (lt_use_bw (ca second) = false /\ lt_bw (ca second) = 2 ^ 27 + 4194) /\
  (lt_use_bw (ca slow) = true /\ lt_bw (ca slow) = (167772 + 171966) / 2).
Proof.
  intros first second slow. split; [split; reflexivity|]. split.
  - left. vm_compute. discriminate.
  - vm_compute. repeat split; reflexivity.
Qed.

(** The average wraps as well: two equal estimates of [2 ^ 31] average to 0. *)
Example wbbr_lt_bw_interval_done_average_wraps :
  let K := test_kernel 0 0 in
  lt_bw (ca (wbbr_lt_bw_interval_done (upd (set_lt_bw (2 ^ 31)) sock_blank) (2 ^ 31))) = 0.
Proof. reflexivity. Qed.

(** ** Long-term mode and the gain cycle *)

(** [wbbr_reset_probe_bw_mode] does not look at [lt_use_bw]: it leaves the
    flag as it is and loads the pacing gain of the phase after the one it
    drew. *)
Lemma wbbr_reset_probe_bw_mode_ignores_lt (K : kernel) (sk : sock) :
  lt_use_bw (ca (wbbr_reset_probe_bw_mode sk)) = lt_use_bw (ca sk) /\
  pacing_gain (ca (wbbr_reset_probe_bw_mode sk)) =
    nth (Z.to_nat (Z.land (bits 3 (CYCLE_LEN - 1 - prandom_u32_max wbbr_cycle_rand) + 1)
                          (CYCLE_LEN - 1)))
        wbbr_pacing_gain 0.
Proof. split; reflexivity. Qed.

(** Entering DRAIN does not look at [lt_use_bw] either. *)
Lemma wbbr_check_drain_ignores_lt (K : kernel) (sk : sock) (rs : rate_sample) :
  mode (ca sk) = WBBR_STARTUP ->
  wbbr_full_bw_reached sk = true ->
  wbbr_target_cwnd sk (wbbr_max_bw sk) WBBR_UNIT < packets_in_flight sk ->
  lt_use_bw (ca (wbbr_check_drain sk rs)) = lt_use_bw (ca sk) /\
  pacing_gain (ca (wbbr_check_drain sk rs)) = wbbr_drain_gain.
Proof.
  intros Hmode Hfull Hflight. unfold wbbr_check_drain.
  rewrite Hmode. cbn [wbbr_mode_eqb andb].
  rewrite Hfull.
  cbn [ca upd set_ca mode set_mode set_pacing_gain set_cwnd_gain wbbr_mode_eqb andb].
  match goal with
  | |- context [if ?c then _ else _] =>
    replace c with false; [split; reflexivity|]
  end.
  symmetry. apply Z.leb_gt. exact Hflight.
Qed.

(** C7: a socket initialised by [wbbr_init] sees eight rounds of a policed
    path, which put it in long-term mode with the pacing gain at 256.  The
    min-RTT filter then expires, the socket dips into PROBE_RTT, and on
    leaving it [wbbr_reset_probe_bw_mode] restarts the gain cycle: with the
    draw 0 the socket is in long-term mode with the cycle moved to phase 0
    and the pacing gain at 320, and a further round leaves it there. *)
Theorem wbbr_lt_mode_gain_unpinned :
  let policed := after_rounds 0 sock_blank (policed_path 100 0) in
  let dipped := after_rounds 0 sock_blank (policed_path 100 0 ++ probe_rtt_rounds) in
  let later :=
    after_rounds 0 sock_blank (policed_path 100 0 ++ probe_rtt_rounds ++ [later_round]) in
  (lt_use_bw (ca policed) = true /\ mode (ca policed) = WBBR_PROBE_BW /\
   pacing_gain (ca policed) = 256 /\ cycle_idx (ca policed) = 2) /\
  (lt_use_bw (ca dipped) = true /\ mode (ca dipped) = WBBR_PROBE_BW /\
   pacing_gain (ca dipped) = 320 /\ cycle_idx (ca dipped) = 0) /\
  (lt_use_bw (ca later) = true /\ pacing_gain (ca later) = 320).
Proof. vm_compute. repeat split; reflexivity. Qed.

(** * Further properties of the module *)

(** ** Rates *)

(** X1: as its comment promises, [wbbr_rate_bytes_per_sec] does not
    overflow for rates up to 2.9 Tbit/s and gains up to [wbbr_high_gain]:
    while the rate times the MTU is at most 6.39e12 (3 Tbit/s), it is the
    rate in bytes per second, each division rounding down. *)
Theorem wbbr_rate_bytes_per_sec_exact (K : kernel) (sk : sock) (rate gain : Z) :
  0 <= rate ->
  0 <= tcp_mss_to_mtu sk (mss_cache sk) ->
  0 <= gain <= wbbr_high_gain ->
  rate * tcp_mss_to_mtu sk (mss_cache sk) <= 6390000000000 ->
  wbbr_rate_bytes_per_sec sk rate gain =
    rate * tcp_mss_to_mtu sk (mss_cache sk) * gain / WBBR_UNIT * USEC_PER_SEC / BW_UNIT.
Proof.
  intros Hrate Hmtu Hgain Hsmall. unfold wbbr_rate_bytes_per_sec.
  set (bytes := rate * tcp_mss_to_mtu sk (mss_cache sk)) in *.
  change wbbr_high_gain with 739 in Hgain.
  change WBBR_SCALE with 8. change BW_SCALE with 24. change WBBR_UNIT with 256.
  change USEC_PER_SEC with 1000000. change BW_UNIT with (2 ^ 24).
  assert (Hbytes : 0 <= bytes) by (subst bytes; nia).
  assert (Hgained : 0 <= bytes * gain <= 6390000000000 * 739) by nia.
  rewrite (u64_small bytes) by lia.
  rewrite (u64_small (bytes * gain)) by lia.
  rewrite !shiftr_div by lia. change (2 ^ 8) with 256.
  assert (Hscaled : 0 <= bytes * gain / 256 <= 6390000000000 * 739 / 256).
  { split; [apply Z.div_pos; lia | apply Z.div_le_mono; lia]. }
  change (6390000000000 * 739 / 256) with 18446132812500 in Hscaled.
  rewrite (u64_small (bytes * gain / 256 * 1000000)) by lia.
  reflexivity.
Qed.

(** 2.9 Tbit/s in packets of 1500 bytes, at the high gain. *)
Lemma wbbr_rate_bytes_per_sec_exact_witness :
  @wbbr_rate_bytes_per_sec (test_kernel 0 0) sock_blank 4054000000 739 =
    4054000000 * 1500 * 739 / 256 * 1000000 / 2 ^ 24.
Proof.
  apply (wbbr_rate_bytes_per_sec_exact (test_kernel 0 0) sock_blank 4054000000 739);
    vm_compute; try split; discriminate.
Defined.

Lemma wbbr_bw_to_pacing_rate_bound (K : kernel) (sk : sock) (rate gain : Z) :
  0 <= sk_max_pacing_rate sk < 2 ^ 32 ->
  0 <= wbbr_bw_to_pacing_rate sk rate gain <= sk_max_pacing_rate sk.
Proof.
  intros Hcap. unfold wbbr_bw_to_pacing_rate.
  assert (Hpos : 0 <= wbbr_rate_bytes_per_sec sk (u32 rate) gain).
  { unfold wbbr_rate_bytes_per_sec. apply Z.shiftr_nonneg. apply u64_range. }
  rewrite u32_small by lia. lia.
Qed.

(** X2: the pacing rate that [wbbr_bw_to_pacing_rate] answers is the rate
    in bytes per second capped at [sk_max_pacing_rate]; it never exceeds
    the cap. *)
Theorem wbbr_bw_to_pacing_rate_capped (K : kernel) (sk : sock) (rate gain : Z) :
  0 <= sk_max_pacing_rate sk < 2 ^ 32 ->
  wbbr_bw_to_pacing_rate sk rate gain =
    Z.min (wbbr_rate_bytes_per_sec sk (u32 rate) gain) (sk_max_pacing_rate sk) /\
  0 <= wbbr_bw_to_pacing_rate sk rate gain <= sk_max_pacing_rate sk.
Proof.
  intros Hcap. unfold wbbr_bw_to_pacing_rate.
  assert (Hpos : 0 <= wbbr_rate_bytes_per_sec sk (u32 rate) gain).
  { unfold wbbr_rate_bytes_per_sec. apply Z.shiftr_nonneg. apply u64_range. }
  rewrite u32_small by lia. lia.
Qed.

Lemma wbbr_bw_to_pacing_rate_capped_witness :
  @wbbr_bw_to_pacing_rate (test_kernel 0 0) sock_blank (2 ^ 31) 739 = 2 ^ 32 - 1.
Proof.
  assert (Hcap : 0 <= sk_max_pacing_rate sock_blank < 2 ^ 32)
    by (vm_compute; split; [discriminate | reflexivity]).
  destruct (wbbr_bw_to_pacing_rate_capped (test_kernel 0 0) sock_blank (2 ^ 31) 739 Hcap)
    as (Heq & _).
  rewrite Heq. reflexivity.
Defined.

(** X3: whatever the bandwidth, the gain and the state, the target window
    of [wbbr_target_cwnd] is an even number of packets that fits 32 bits. *)
Theorem wbbr_target_cwnd_even (sk : sock) (rate gain : Z) :
  wbbr_target_cwnd sk rate gain mod 2 = 0 /\
  0 <= wbbr_target_cwnd sk rate gain < 2 ^ 32.
Proof.
  unfold wbbr_target_cwnd.
  destruct (min_rtt_us (ca sk) =? 2 ^ 32 - 1).
  - split; [reflexivity | vm_compute; split; [discriminate | reflexivity]].
  - match goal with |- context [Z.land (u32 ?x) _] =>
      pose proof (u32_range x) as Hc; set (cwnd := u32 x) in *
    end.
    rewrite land_clear_bit0 by exact Hc.
    pose proof (Z.mod_pos_bound cwnd 2 ltac:(lia)) as Hbit.
    pose proof (Z.div_mod cwnd 2 ltac:(lia)) as Hdiv.
    assert (0 <= cwnd / 2) by (apply Z.div_pos; lia).
    split; [|lia].
    rewrite Zminus_mod_idemp_r. rewrite Z.sub_diag. reflexivity.
Qed.

(** ** The window *)

(** X4: [wbbr_save_cwnd] never saves less than the current window, never
    lowers the saved window while recovery or PROBE_RTT has cut the window,
    and saving twice is saving once. *)
Theorem wbbr_save_cwnd_keeps_best (sk : sock) :
  snd_cwnd sk <= prior_cwnd (ca (wbbr_save_cwnd sk)) /\
  (TCP_CA_Recovery <= prev_ca_state (ca sk) \/ mode (ca sk) = WBBR_PROBE_RTT ->
   prior_cwnd (ca sk) <= prior_cwnd (ca (wbbr_save_cwnd sk))) /\
  wbbr_save_cwnd (wbbr_save_cwnd sk) = wbbr_save_cwnd sk.
Proof.
  unfold wbbr_save_cwnd.
  destruct (Z.ltb_spec (prev_ca_state (ca sk)) TCP_CA_Recovery) as [Hopen|Hrec];
    destruct (mode (ca sk)) eqn:Hmode;
    cbn [negb andb wbbr_mode_eqb ca upd set_ca prior_cwnd set_prior_cwnd snd_cwnd
         prev_ca_state mode];
    rewrite ?Hmode;
    try (destruct (Z.ltb_spec (prev_ca_state (ca sk)) TCP_CA_Recovery); [|lia]);
    try (destruct (Z.ltb_spec (prev_ca_state (ca sk)) TCP_CA_Recovery); [lia|]);
    cbn [negb andb wbbr_mode_eqb ca upd set_ca prior_cwnd set_prior_cwnd snd_cwnd];
    (split; [lia|]); (split; [intros [Hr|Hm]; try lia; try discriminate|]);
    try reflexivity;
    unfold upd; cbn [ca set_ca prior_cwnd set_prior_cwnd snd_cwnd];
    rewrite <- Z.max_assoc, Z.max_id; reflexivity.
Qed.

(** [wbbr_set_cwnd_to_recover_or_restore] leaves alone what
    [wbbr_set_cwnd] reads after it. *)
Lemma wbbr_set_cwnd_to_recover_or_restore_reads (sk : sock) (rs : rate_sample) (acked : Z) :
  let sk' := snd (wbbr_set_cwnd_to_recover_or_restore sk rs acked) in
  min_rtt_us (ca sk') = min_rtt_us (ca sk) /\
  tso_segs_goal (ca sk') = tso_segs_goal (ca sk) /\
  full_bw_cnt (ca sk') = full_bw_cnt (ca sk) /\
  delivered sk' = delivered sk /\
  packets_in_flight sk' = packets_in_flight sk.
Proof.
  unfold wbbr_set_cwnd_to_recover_or_restore.
  repeat match goal with
         | |- context [if ?c then _ else _] => destruct c
         end;
    repeat split; reflexivity.
Qed.

(** A window that [wbbr_set_cwnd] commits never exceeds the clamp
    [snd_cwnd_clamp], and never exceeds 4 packets in PROBE_RTT, packet
    conservation or not. *)
Lemma wbbr_set_cwnd_clamp_bound (sk : sock) (rs : rate_sample) (acked rate gain : Z) :
  acked <> 0 ->
  snd_cwnd (wbbr_set_cwnd sk rs acked rate gain) <= snd_cwnd_clamp sk /\
  (mode (ca sk) = WBBR_PROBE_RTT ->
   snd_cwnd (wbbr_set_cwnd sk rs acked rate gain) <= wbbr_cwnd_min_target).
Proof.
  intros Hacked. unfold wbbr_set_cwnd.
  destruct (Z.eqb_spec acked 0) as [E|_]; [contradiction|].
  pose proof (wbbr_set_cwnd_to_recover_or_restore_frame sk rs acked) as Hframe.
  destruct (wbbr_set_cwnd_to_recover_or_restore sk rs acked) as [[conserving cwnd] sk1].
  cbn [fst snd] in Hframe. destruct Hframe as (_ & Hclamp & Hmode).
  set (w := if conserving then cwnd else _). clearbody w.
  cbn [mode ca set_snd_cwnd]. rewrite Hmode, Hclamp.
  destruct (mode (ca sk)); cbn [wbbr_mode_eqb snd_cwnd set_snd_cwnd];
    (split; [lia|]); intros Hm; try discriminate.
  lia.
Qed.

(** X5: once the pipe is estimated full, a window committed without packet
    conservation does not overshoot the target window (or 4 packets, if
    the target is smaller). *)
Theorem wbbr_set_cwnd_no_overshoot (sk : sock) (rs : rate_sample) (acked rate gain : Z) :
  acked <> 0 ->
  wbbr_full_bw_reached sk = true ->
  packet_conservation (ca (wbbr_set_cwnd sk rs acked rate gain)) = false ->
  snd_cwnd (wbbr_set_cwnd sk rs acked rate gain)
  <= Z.max (wbbr_target_cwnd sk rate gain) wbbr_cwnd_min_target.
Proof.
  intros Hacked Hfull. unfold wbbr_set_cwnd.
  destruct (Z.eqb_spec acked 0) as [E|_]; [contradiction|].
  pose proof (wbbr_set_cwnd_to_recover_or_restore_frame sk rs acked) as Hframe.
  pose proof (wbbr_set_cwnd_to_recover_or_restore_reads sk rs acked) as Hreads.
  destruct (wbbr_set_cwnd_to_recover_or_restore sk rs acked) as [[conserving cwnd] sk1].
  cbn [fst snd] in Hframe, Hreads.
  destruct Hframe as (Hcons & Hclamp & Hmode).
  destruct Hreads as (Hrtt & Htso & Hcnt & _ & _).
  assert (Htarget : wbbr_target_cwnd sk1 rate gain = wbbr_target_cwnd sk rate gain).
  { unfold wbbr_target_cwnd. rewrite Hrtt, Htso. reflexivity. }
  assert (Hfull1 : wbbr_full_bw_reached sk1 = true).
  { unfold wbbr_full_bw_reached in *. rewrite Hcnt. exact Hfull. }
  rewrite Htarget, Hfull1.
  set (target := wbbr_target_cwnd sk rate gain).
  assert (Hpc : forall c, packet_conservation (ca (set_snd_cwnd c sk1)) =
                          packet_conservation (ca sk1)) by reflexivity.
  destruct (wbbr_mode_eqb (mode (ca (set_snd_cwnd _ sk1))) WBBR_PROBE_RTT);
    cbn [snd_cwnd set_snd_cwnd ca]; intros Hno; rewrite <- Hcons in Hno;
    rewrite Hno; unfold wbbr_cwnd_min_target; lia.
Qed.

Lemma wbbr_set_cwnd_no_overshoot_witness :
  snd_cwnd (wbbr_set_cwnd (upd (set_full_bw_cnt 3) (upd (set_min_rtt_us 1000) sock_blank))
                          sample_blank 9 (2 ^ 24) 256)
  <= Z.max (wbbr_target_cwnd (upd (set_full_bw_cnt 3) (upd (set_min_rtt_us 1000) sock_blank))
                             (2 ^ 24) 256)
           wbbr_cwnd_min_target.
Proof.
  apply (wbbr_set_cwnd_no_overshoot
           (upd (set_full_bw_cnt 3) (upd (set_min_rtt_us 1000) sock_blank))
           sample_blank 9 (2 ^ 24) 256).
  - lia.
  - reflexivity.
  - reflexivity.
Defined.

(** X6: while packet conservation is in use outside PROBE_RTT, the committed
    window releases at least the packets in flight plus those just
    acknowledged, up to the clamp. *)
Theorem wbbr_set_cwnd_conserves (sk : sock) (rs : rate_sample) (acked rate gain : Z) :
  acked <> 0 ->
  mode (ca sk) <> WBBR_PROBE_RTT ->
  packet_conservation (ca (wbbr_set_cwnd sk rs acked rate gain)) = true ->
  Z.min (u32 (packets_in_flight sk + acked)) (snd_cwnd_clamp sk)
  <= snd_cwnd (wbbr_set_cwnd sk rs acked rate gain).
Proof.
  intros Hacked Hnot_probe. unfold wbbr_set_cwnd.
  destruct (Z.eqb_spec acked 0) as [E|_]; [contradiction|].
  assert (Hfst : fst (fst (wbbr_set_cwnd_to_recover_or_restore sk rs acked)) = true ->
                 u32 (packets_in_flight sk + acked)
                 <= snd (fst (wbbr_set_cwnd_to_recover_or_restore sk rs acked))).
  { unfold wbbr_set_cwnd_to_recover_or_restore.
    repeat match goal with
           | |- context [if ?c then _ else _] => destruct c
           end;
      cbn [fst snd packets_in_flight upd set_ca]; intros; try discriminate; lia. }
  pose proof (wbbr_set_cwnd_to_recover_or_restore_frame sk rs acked) as Hframe.
  destruct (wbbr_set_cwnd_to_recover_or_restore sk rs acked) as [[conserving cwnd] sk1].
  cbn [fst snd] in Hframe, Hfst. destruct Hframe as (Hcons & Hclamp & Hmode).
  cbn [mode ca set_snd_cwnd]. rewrite Hmode, Hclamp.
  destruct (mode (ca sk)); try contradiction;
    cbn [wbbr_mode_eqb snd_cwnd set_snd_cwnd ca]; intros Hpc;
    rewrite <- Hcons in Hpc; rewrite Hpc in *; specialize (Hfst eq_refl); lia.
Qed.

Lemma wbbr_set_cwnd_conserves_witness :
  let sk := {| snd_cwnd := 10; snd_cwnd_clamp := 2 ^ 32 - 1; delivered := 20; lost := 1;
               delivered_mstamp := no_stamp; app_limited := 0; srtt_us := 80000;
               mss_cache := 1460; tcp_min_rtt := 10000; packets_in_flight := 5;
               icsk_ca_state := TCP_CA_Recovery; sk_pacing_rate := 1000000;
               sk_max_pacing_rate := 2 ^ 32 - 1; can_send := true; siblings := None;
               ca := set_cwnd_gain wbbr_high_gain (set_min_rtt_us 10000 wbbr_blank) |} in
  Z.min (u32 (packets_in_flight sk + 2)) (snd_cwnd_clamp sk)
  <= snd_cwnd (wbbr_set_cwnd sk sample_blank 2 (2 ^ 20) wbbr_high_gain).
Proof.
  intros sk.
  apply (wbbr_set_cwnd_conserves sk sample_blank 2 (2 ^ 20) wbbr_high_gain).
  - lia.
  - discriminate.
  - reflexivity.
Defined.

(** ** The mode machine *)

(** X7: when the random draw is below [wbbr_cycle_rand],
    [wbbr_reset_probe_bw_mode] enters PROBE_BW with the window gain 2.0,
    restarts the phase clock and starts the gain cycle in any phase but
    phase 1: never with the draining gain 0.75. *)
Theorem wbbr_reset_probe_bw_mode_phase (K : kernel) (sk : sock) :
  0 <= prandom_u32_max wbbr_cycle_rand < wbbr_cycle_rand ->
  let sk' := wbbr_reset_probe_bw_mode sk in
  mode (ca sk') = WBBR_PROBE_BW /\
  cwnd_gain (ca sk') = wbbr_cwnd_gain /\
  cycle_mstamp (ca sk') = delivered_mstamp sk /\
  cycle_idx (ca sk') = (CYCLE_LEN - prandom_u32_max wbbr_cycle_rand) mod CYCLE_LEN /\
  cycle_idx (ca sk') <> 1 /\
  pacing_gain (ca sk') = nth (Z.to_nat (cycle_idx (ca sk'))) wbbr_pacing_gain 0 /\
  (pacing_gain (ca sk') = 320 \/ pacing_gain (ca sk') = 256).
Proof.
  intros Hdraw sk'.
  assert (Hidx : cycle_idx (ca sk') =
                 Z.land (bits 3 (CYCLE_LEN - 1 - prandom_u32_max wbbr_cycle_rand) + 1)
                        (CYCLE_LEN - 1)) by reflexivity.
  assert (Hgain : pacing_gain (ca sk') =
                  nth (Z.to_nat (cycle_idx (ca sk'))) wbbr_pacing_gain 0) by reflexivity.
  split; [reflexivity|]. split; [reflexivity|]. split; [reflexivity|].
  rewrite Hgain. clear Hgain. rewrite Hidx. clear Hidx sk'.
  set (draw := prandom_u32_max wbbr_cycle_rand) in *.
  change wbbr_cycle_rand with 7 in Hdraw.
  assert (Hcases : draw = 0 \/ draw = 1 \/ draw = 2 \/ draw = 3 \/ draw = 4 \/
                   draw = 5 \/ draw = 6) by lia.
  clearbody draw.
  destruct Hcases as [-> | [-> | [-> | [-> | [-> | [-> | ->]]]]]];
    vm_compute; repeat split; try discriminate; auto.
Qed.

Lemma wbbr_reset_probe_bw_mode_phase_witness :
  cycle_idx (ca (@wbbr_reset_probe_bw_mode (test_kernel 0 6) sock_blank)) = 2 /\
  pacing_gain (ca (@wbbr_reset_probe_bw_mode (test_kernel 0 6) sock_blank)) = 256.
Proof.
  assert (Hdraw : 0 <= @prandom_u32_max (test_kernel 0 6) wbbr_cycle_rand < wbbr_cycle_rand)
    by (vm_compute; split; [discriminate | reflexivity]).
  destruct (wbbr_reset_probe_bw_mode_phase (test_kernel 0 6) sock_blank Hdraw)
    as (_ & _ & _ & Hidx & _ & Hgain & _).
  split; [rewrite Hidx | rewrite Hgain, Hidx]; reflexivity.
Defined.

Lemma wbbr_advance_cycle_phase_idx (sk : sock) :
  cycle_idx (ca (wbbr_advance_cycle_phase sk)) = (cycle_idx (ca sk) + 1) mod 8 /\
  pacing_gain (ca (wbbr_advance_cycle_phase sk)) =
    nth (Z.to_nat ((cycle_idx (ca sk) + 1) mod 8)) wbbr_pacing_gain 0.
Proof.
  assert (Hidx : Z.land (cycle_idx (ca sk) + 1) (CYCLE_LEN - 1) = (cycle_idx (ca sk) + 1) mod 8).
  { change (CYCLE_LEN - 1) with (Z.ones 3). rewrite Z.land_ones by lia. reflexivity. }
  unfold wbbr_advance_cycle_phase.
  cbn [ca upd set_ca cycle_idx pacing_gain set_cycle_idx set_cycle_mstamp set_pacing_gain].
  rewrite Hidx. split; reflexivity.
Qed.

Lemma advance_phases_idx (n : nat) (sk : sock) :
  cycle_idx (ca (advance_phases (S n) sk)) = (cycle_idx (ca sk) + Z.of_nat (S n)) mod 8 /\
  pacing_gain (ca (advance_phases (S n) sk)) =
    nth (Z.to_nat ((cycle_idx (ca sk) + Z.of_nat (S n)) mod 8)) wbbr_pacing_gain 0.
Proof.
  revert sk. induction n as [|n IH]; intros sk.
  - cbn [advance_phases]. change (Z.of_nat 1) with 1. apply wbbr_advance_cycle_phase_idx.
  - change (advance_phases (S (S n)) sk) with (advance_phases (S n) (wbbr_advance_cycle_phase sk)).
    destruct (IH (wbbr_advance_cycle_phase sk)) as (Hidx & Hgain).
    destruct (wbbr_advance_cycle_phase_idx sk) as (Hone & _).
    rewrite Hgain, Hidx, Hone.
    rewrite Zplus_mod_idemp_l.
    replace (cycle_idx (ca sk) + 1 + Z.of_nat (S n))
      with (cycle_idx (ca sk) + Z.of_nat (S (S n))) by lia.
    split; reflexivity.
Qed.

(** X8: the gain cycle has period 8: [n] calls of
    [wbbr_advance_cycle_phase] move the phase by [n] modulo 8 and load the
    gain of the phase reached, so eight of them come back to the phase they
    started from. *)
Theorem wbbr_advance_cycle_phase_period (n : nat) (sk : sock) :
  0 <= cycle_idx (ca sk) < CYCLE_LEN ->
  cycle_idx (ca (advance_phases (S n) sk)) = (cycle_idx (ca sk) + Z.of_nat (S n)) mod 8 /\
  pacing_gain (ca (advance_phases (S n) sk)) =
    nth (Z.to_nat ((cycle_idx (ca sk) + Z.of_nat (S n)) mod 8)) wbbr_pacing_gain 0 /\
  cycle_idx (ca (advance_phases 8 sk)) = cycle_idx (ca sk) /\
  pacing_gain (ca (advance_phases 8 sk)) = nth (Z.to_nat (cycle_idx (ca sk))) wbbr_pacing_gain 0.
Proof.
  intros Hidx.
  destruct (advance_phases_idx n sk) as (Hn & Hgn).
  destruct (advance_phases_idx 7 sk) as (H8 & Hg8).
  assert (Hback : (cycle_idx (ca sk) + Z.of_nat 8) mod 8 = cycle_idx (ca sk)).
  { change (Z.of_nat 8) with (1 * 8). rewrite Z.mod_add by lia.
    apply Z.mod_small. exact Hidx. }
  rewrite Hback in H8, Hg8. auto.
Qed.

Lemma wbbr_advance_cycle_phase_period_witness :
  cycle_idx (ca (advance_phases 8 (upd (set_cycle_idx 3) sock_blank))) = 3 /\
  pacing_gain (ca (advance_phases 8 (upd (set_cycle_idx 3) sock_blank))) = 256.
Proof.
  assert (Hidx : 0 <= cycle_idx (ca (upd (set_cycle_idx 3) sock_blank)) < CYCLE_LEN)
    by (vm_compute; split; [discriminate | reflexivity]).
  destruct (wbbr_advance_cycle_phase_period 0 (upd (set_cycle_idx 3) sock_blank) Hidx)
    as (_ & _ & Hback & Hgain).
  split; [exact Hback | exact Hgain].
Defined.

(** X9: [wbbr_check_drain] acts in STARTUP with the pipe full and in DRAIN
    only.  There it moves to PROBE_BW when the packets in flight are at
    most the target window at gain 1.0, and otherwise stays in, or enters,
    DRAIN -- entering it with the drain gain for pacing and the high gain
    for the window.  It never leads back to STARTUP. *)
Theorem wbbr_check_drain_transitions (K : kernel) (sk : sock) (rs : rate_sample) :
  let sk' := wbbr_check_drain sk rs in
  let drained :=
    packets_in_flight sk <=? wbbr_target_cwnd sk (wbbr_max_bw sk) WBBR_UNIT in
  (mode (ca sk) = WBBR_PROBE_BW \/ mode (ca sk) = WBBR_PROBE_RTT \/
   (mode (ca sk) = WBBR_STARTUP /\ wbbr_full_bw_reached sk = false) -> sk' = sk) /\
  (mode (ca sk) = WBBR_DRAIN \/
   (mode (ca sk) = WBBR_STARTUP /\ wbbr_full_bw_reached sk = true) ->
   (drained = true -> sk' = wbbr_reset_probe_bw_mode sk /\ mode (ca sk') = WBBR_PROBE_BW) /\
   (drained = false -> mode (ca sk') = WBBR_DRAIN /\
      (mode (ca sk) = WBBR_STARTUP ->
       pacing_gain (ca sk') = wbbr_drain_gain /\ cwnd_gain (ca sk') = wbbr_high_gain))).
Proof.
  intros sk' drained. subst sk' drained. unfold wbbr_check_drain. split.
  - intros [Hm | [Hm | (Hm & Hfull)]]; rewrite Hm; rewrite ?Hfull;
      cbn [wbbr_mode_eqb andb]; rewrite ?Hm; reflexivity.
  - intros [Hm | (Hm & Hfull)]; rewrite Hm; rewrite ?Hfull;
      cbn [wbbr_mode_eqb andb]; rewrite ?Hm; cbn [wbbr_mode_eqb andb];
      match goal with
      | |- context [if ?c then wbbr_reset_probe_bw_mode _ else _] =>
        change c with (packets_in_flight sk <=? wbbr_target_cwnd sk (wbbr_max_bw sk) WBBR_UNIT)
      end;
      destruct (packets_in_flight sk <=? wbbr_target_cwnd sk (wbbr_max_bw sk) WBBR_UNIT);
      (split; intros Hd; [try discriminate Hd | try discriminate Hd]).
    + split; reflexivity.
    + split; [exact Hm | intros Hs; congruence].
    + split; reflexivity.
    + split; [reflexivity | intros _; split; reflexivity].
Qed.

Lemma wbbr_check_drain_transitions_witness :
  let K := test_kernel 0 0 in
  let sk := upd (set_full_bw_cnt 3) (set_ca (ca (wbbr_init sock_blank)) sock_blank) in
  mode (ca (wbbr_check_drain sk sample_blank)) = WBBR_PROBE_BW.
Proof.
  intros K sk.
  destruct (wbbr_check_drain_transitions K sk sample_blank) as (_ & Hact).
  destruct Hact as (Hdrained & _); [right; split; reflexivity|].
  apply Hdrained. reflexivity.
Defined.

(** ** The min-RTT filter and PROBE_RTT *)

Lemma wbbr_update_min_rtt_min_rtt_us (K : kernel) (sk : sock) (rs : rate_sample) :
  min_rtt_us (ca (wbbr_update_min_rtt sk rs)) =
  if (0 <=? rs_rtt_us rs)
     && ((rs_rtt_us rs <=? min_rtt_us (ca sk))
         || after tcp_time_stamp (u32 (min_rtt_stamp (ca sk) + wbbr_min_rtt_win_sec * HZ)))
  then u32 (rs_rtt_us rs) else min_rtt_us (ca sk).
Proof.
  unfold wbbr_update_min_rtt, wbbr_reset_mode, wbbr_save_cwnd. frame_ifs.
Qed.

Lemma wbbr_update_min_rtt_idle_restart (K : kernel) (sk : sock) (rs : rate_sample) :
  idle_restart (ca (wbbr_update_min_rtt sk rs)) = false.
Proof. reflexivity. Qed.

(** X10: [wbbr_update_min_rtt] keeps a windowed minimum of the RTT samples:
    a negative sample (no RTT measured) is ignored, a sample within the
    window lowers the estimate or leaves it, and the first sample after the
    window of [wbbr_min_rtt_win_sec] seconds has expired replaces the
    estimate even when it is larger.  The call always clears
    [idle_restart]. *)
Theorem wbbr_update_min_rtt_window (K : kernel) (sk : sock) (rs : rate_sample) :
  let sk' := wbbr_update_min_rtt sk rs in
  let expired :=
    after tcp_time_stamp (u32 (min_rtt_stamp (ca sk) + wbbr_min_rtt_win_sec * HZ)) in
  (rs_rtt_us rs < 0 -> min_rtt_us (ca sk') = min_rtt_us (ca sk)) /\
  (0 <= rs_rtt_us rs < 2 ^ 32 -> expired = false ->
   min_rtt_us (ca sk') = Z.min (rs_rtt_us rs) (min_rtt_us (ca sk))) /\
  (0 <= rs_rtt_us rs < 2 ^ 32 -> expired = true ->
   min_rtt_us (ca sk') = rs_rtt_us rs) /\
  idle_restart (ca sk') = false.
Proof.
  intros sk' expired. subst sk'.
  rewrite wbbr_update_min_rtt_min_rtt_us. fold expired.
  split; [|split; [|split]].
  - intros Hneg. destruct (Z.leb_spec 0 (rs_rtt_us rs)) as [H|H]; [lia | reflexivity].
  - intros Hrtt ->. rewrite orb_false_r.
    destruct (Z.leb_spec 0 (rs_rtt_us rs)) as [_|H]; [|lia]. cbn [andb].
    rewrite (u32_small (rs_rtt_us rs)) by lia.
    destruct (Z.leb_spec (rs_rtt_us rs) (min_rtt_us (ca sk))) as [H|H]; lia.
  - intros Hrtt ->. rewrite orb_true_r.
    destruct (Z.leb_spec 0 (rs_rtt_us rs)) as [_|H]; [|lia]. cbn [andb].
    apply u32_small. lia.
  - reflexivity.
Qed.

Lemma wbbr_update_min_rtt_window_witness :
  let K := test_kernel 100 0 in
  let sk := upd (set_min_rtt_us 500) sock_blank in
  let rs := {| rs_prior_delivered := 0; rs_delivered := 1; rs_interval_us := 1;
               rs_rtt_us := 300; rs_losses := 0; rs_acked_sacked := 1;
               rs_prior_in_flight := 0; rs_is_app_limited := false |} in
  min_rtt_us (ca (wbbr_update_min_rtt sk rs)) = 300.
Proof.
  intros K sk rs.
  destruct (wbbr_update_min_rtt_window K sk rs) as (_ & Hwin & _).
  rewrite Hwin; [reflexivity | vm_compute; split; [discriminate | reflexivity] | reflexivity].
Defined.

(** X11: when the min-RTT window has expired, the flow is not restarting
    from idle and is not yet in PROBE_RTT, [wbbr_update_min_rtt] enters
    PROBE_RTT: both gains become 1.0, the saved window is raised to the
    current one (never lowered), the connection is marked app-limited, and
    the 200 ms clock of the mode starts at once only when at most
    [wbbr_cwnd_min_target] packets are in flight. *)
Theorem wbbr_update_min_rtt_enters_probe_rtt (K : kernel) (sk : sock) (rs : rate_sample) :
  after tcp_time_stamp (u32 (min_rtt_stamp (ca sk) + wbbr_min_rtt_win_sec * HZ)) = true ->
  idle_restart (ca sk) = false ->
  mode (ca sk) <> WBBR_PROBE_RTT ->
  let sk' := wbbr_update_min_rtt sk rs in
  mode (ca sk') = WBBR_PROBE_RTT /\
  pacing_gain (ca sk') = WBBR_UNIT /\ cwnd_gain (ca sk') = WBBR_UNIT /\
  prior_cwnd (ca sk') = Z.max (prior_cwnd (ca sk)) (snd_cwnd sk) /\
  app_limited sk' <> 0 /\
  probe_rtt_done_stamp (ca sk') =
    (if packets_in_flight sk <=? wbbr_cwnd_min_target
     then u32 (tcp_time_stamp + msecs_to_jiffies wbbr_probe_rtt_mode_ms) else 0).
Proof.
  intros Hexpired Hidle Hmode sk'. subst sk'.
  assert (Hm : wbbr_mode_eqb (mode (ca sk)) WBBR_PROBE_RTT = false)
    by (destruct (mode (ca sk)); try reflexivity; contradiction).
  unfold wbbr_update_min_rtt. rewrite Hexpired.
  set (sk1 := if (0 <=? rs_rtt_us rs) && _ then _ else sk).
  assert (Hframe : idle_restart (ca sk1) = idle_restart (ca sk) /\
                   mode (ca sk1) = mode (ca sk) /\
                   prior_cwnd (ca sk1) = prior_cwnd (ca sk) /\
                   snd_cwnd sk1 = snd_cwnd sk /\ delivered sk1 = delivered sk /\
                   packets_in_flight sk1 = packets_in_flight sk).
  { subst sk1. destruct ((0 <=? rs_rtt_us rs) && _); repeat split; reflexivity. }
  destruct Hframe as (Hi1 & Hm1 & Hp1 & Hc1 & Hd1 & Hf1). clearbody sk1.
  rewrite Hi1, Hm1, Hidle, Hm. cbn [andb negb Z.ltb wbbr_probe_rtt_mode_ms Z.compare].
  unfold wbbr_save_cwnd.
  cbn [ca upd set_ca mode set_mode set_pacing_gain set_cwnd_gain wbbr_mode_eqb andb negb].
  rewrite andb_false_r.
  cbn -[Z.max u32 Z.leb Z.eqb].
  rewrite Hp1, Hc1, Hd1, Hf1.
  assert (Hsum : (if u32 (delivered sk + packets_in_flight sk) =? 0
                  then 1 else u32 (delivered sk + packets_in_flight sk)) <> 0).
  { destruct (Z.eqb_spec (u32 (delivered sk + packets_in_flight sk)) 0); lia. }
  destruct (packets_in_flight sk <=? wbbr_cwnd_min_target);
    cbn -[Z.max u32 Z.leb Z.eqb]; repeat split; try reflexivity; exact Hsum.
Qed.

Lemma wbbr_update_min_rtt_enters_probe_rtt_witness :
  let K := test_kernel 20000 0 in
  let sk := set_snd_cwnd 30 (upd (set_mode WBBR_PROBE_BW) sock_blank) in
  mode (ca (wbbr_update_min_rtt sk sample_blank)) = WBBR_PROBE_RTT /\
  prior_cwnd (ca (wbbr_update_min_rtt sk sample_blank)) = 30.
Proof.
  intros K sk.
  assert (Hexpired : after tcp_time_stamp
                       (u32 (min_rtt_stamp (ca sk) + wbbr_min_rtt_win_sec * HZ)) = true)
    by reflexivity.
  assert (Hidle : idle_restart (ca sk) = false) by reflexivity.
  assert (Hmode : mode (ca sk) <> WBBR_PROBE_RTT) by discriminate.
  destruct (wbbr_update_min_rtt_enters_probe_rtt K sk sample_blank Hexpired Hidle Hmode)
    as (Hm & _ & _ & Hprior & _).
  split; [exact Hm | rewrite Hprior; reflexivity].
Defined.

(** X12: in PROBE_RTT, [wbbr_update_min_rtt] leaves the mode exactly when
    the 200 ms clock has been started, a round has started since, and the
    clock has run out; it then asks for the saved window to be restored,
    restarts the min-RTT window, and goes to PROBE_BW when the pipe was
    found full and back to STARTUP otherwise.  While in the mode the
    connection stays marked app-limited. *)
Theorem wbbr_update_min_rtt_leaves_probe_rtt (K : kernel) (sk : sock) (rs : rate_sample) :
  mode (ca sk) = WBBR_PROBE_RTT ->
  let sk' := wbbr_update_min_rtt sk rs in
  let leaving :=
    negb (probe_rtt_done_stamp (ca sk) =? 0)
    && (round_start (ca sk) || probe_rtt_round_done (ca sk))
    && after tcp_time_stamp (probe_rtt_done_stamp (ca sk)) in
  mode (ca sk') =
    (if leaving
     then if wbbr_full_bw_reached sk then WBBR_PROBE_BW else WBBR_STARTUP
     else WBBR_PROBE_RTT) /\
  (leaving = true ->
   restore_cwnd (ca sk') = true /\ min_rtt_stamp (ca sk') = tcp_time_stamp /\
   cwnd_gain (ca sk') = cwnd_gain_of (mode (ca sk'))) /\
  app_limited sk' <> 0.
Proof.
  intros Hmode sk' leaving. subst sk' leaving.
  unfold wbbr_update_min_rtt.
  set (sk1 := if (0 <=? rs_rtt_us rs) && _ then _ else sk).
  assert (Hframe : mode (ca sk1) = mode (ca sk) /\
                   probe_rtt_done_stamp (ca sk1) = probe_rtt_done_stamp (ca sk) /\
                   round_start (ca sk1) = round_start (ca sk) /\
                   probe_rtt_round_done (ca sk1) = probe_rtt_round_done (ca sk) /\
                   full_bw_cnt (ca sk1) = full_bw_cnt (ca sk)).
  { subst sk1. destruct ((0 <=? rs_rtt_us rs) && _); repeat split; reflexivity. }
  destruct Hframe as (Hm1 & Hd1 & Hr1 & Hp1 & Hf1).
  set (expired := after _ (u32 _)). clearbody sk1 expired.
  rewrite Hm1, Hmode. cbn [wbbr_mode_eqb negb]. rewrite andb_false_r.
  rewrite Hm1, Hmode. cbn [wbbr_mode_eqb].
  set (sum := u32 (delivered sk1 + packets_in_flight sk1)).
  assert (Hsum : (if sum =? 0 then 1 else sum) <> 0)
    by (destruct (Z.eqb_spec sum 0); lia).
  clearbody sum.
  cbn [ca set_app_limited probe_rtt_done_stamp packets_in_flight].
  rewrite Hd1.
  unfold wbbr_reset_mode, wbbr_full_bw_reached.
  assert (Hfull : forall f, full_bw_cnt (ca (upd f sk1)) = full_bw_cnt (f (ca sk1)))
    by reflexivity.
  destruct (probe_rtt_done_stamp (ca sk) =? 0);
    cbn [andb negb orb].
  - destruct (packets_in_flight sk1 <=? wbbr_cwnd_min_target);
      cbn -[u32 Z.eqb Z.leb Z.add after]; rewrite ?Hm1, ?Hmode;
      (split; [reflexivity | split; [discriminate | exact Hsum]]).
  - cbn [ca upd set_ca set_app_limited round_start probe_rtt_round_done].
    rewrite Hr1.
    destruct (round_start (ca sk));
      [| destruct (probe_rtt_round_done (ca sk)) eqn:Hdone ];
      cbn [orb andb ca upd set_ca set_app_limited probe_rtt_round_done
           set_probe_rtt_round_done probe_rtt_done_stamp];
      rewrite ?Hd1, ?Hp1, ?Hdone; cbn [andb];
      try (destruct (after tcp_time_stamp (probe_rtt_done_stamp (ca sk)));
           cbn [ca upd set_ca set_app_limited full_bw_cnt set_min_rtt_stamp
                set_restore_cwnd set_idle_restart negb];
           rewrite ?Hf1);
      cbn -[u32 Z.eqb Z.leb Z.add after]; rewrite ?Hm1, ?Hmode, ?Hf1;
      try match goal with
          | |- context [?a <=? full_bw_cnt (ca sk)] =>
            destruct (a <=? full_bw_cnt (ca sk)); cbn -[u32 Z.eqb Z.leb Z.add after]
          end;
      (split; [reflexivity
              | split; [ first [discriminate | intros _; repeat split; reflexivity]
                       | exact Hsum]]).
Qed.

Lemma wbbr_update_min_rtt_leaves_probe_rtt_witness :
  let K := test_kernel 300 0 in
  let sk := upd (set_probe_rtt_round_done true)
              (upd (set_probe_rtt_done_stamp 200) (upd (set_mode WBBR_PROBE_RTT) sock_blank)) in
  mode (ca (wbbr_update_min_rtt sk sample_blank)) = WBBR_STARTUP.
Proof.
  intros K sk.
  assert (Hmode : mode (ca sk) = WBBR_PROBE_RTT) by reflexivity.
  destruct (wbbr_update_min_rtt_leaves_probe_rtt K sk sample_blank Hmode) as (Hleft & _).
  exact Hleft.
Defined.

Lemma wbbr_set_pacing_rate_block (K : kernel) (sk : sock) (rate gain : Z) :
  let sk' := wbbr_set_pacing_rate sk rate gain in
  mode (ca sk') = mode (ca sk) /\ idle_restart (ca sk') = idle_restart (ca sk) /\
  cwnd_gain (ca sk') = cwnd_gain (ca sk) /\ pacing_gain (ca sk') = pacing_gain (ca sk) /\
  instant_rate (ca sk') = instant_rate (ca sk) /\
  snd_cwnd sk' = snd_cwnd sk /\ app_limited sk' = app_limited sk /\
  tcp_facts sk' = tcp_facts sk /\ cycle_idx (ca sk') = cycle_idx (ca sk).
Proof.
  unfold wbbr_set_pacing_rate, wbbr_init_pacing_rate_from_rtt.
  repeat match goal with
         | |- context [if ?c then _ else _] => destruct c
         end; repeat split; reflexivity.
Qed.

(** X13: [wbbr_cwnd_event] acts only on [CA_EVENT_TX_START] of an
    app-limited connection: it then flags the restart from idle, which
    keeps the next [wbbr_update_min_rtt] from entering PROBE_RTT, and it
    re-paces only in PROBE_BW; mode and window are never changed. *)
Theorem wbbr_cwnd_event_idle_restart (K : kernel) (sk : sock) (rs : rate_sample)
    (event : tcp_ca_event) :
  (event <> CA_EVENT_TX_START \/ app_limited sk = 0 -> wbbr_cwnd_event sk event = sk) /\
  (app_limited sk <> 0 ->
   let sk1 := wbbr_cwnd_event sk CA_EVENT_TX_START in
   idle_restart (ca sk1) = true /\ mode (ca sk1) = mode (ca sk) /\
   snd_cwnd sk1 = snd_cwnd sk /\
   (mode (ca sk) <> WBBR_PROBE_BW -> sk1 = upd (set_idle_restart true) sk) /\
   (mode (ca sk) = WBBR_PROBE_BW ->
    sk1 = wbbr_set_pacing_rate (upd (set_idle_restart true) sk) (wbbr_bw sk) WBBR_UNIT) /\
   (mode (ca sk) <> WBBR_PROBE_RTT ->
    mode (ca (wbbr_update_min_rtt sk1 rs)) = mode (ca sk))).
Proof.
  split.
  - intros [Hev | Happ]; unfold wbbr_cwnd_event.
    + destruct event; try reflexivity. contradiction.
    + rewrite Happ. cbn [Z.eqb negb]. rewrite andb_false_r. reflexivity.
  - intros Happ sk1.
    assert (Hsk1 : sk1 = if wbbr_mode_eqb (mode (ca sk)) WBBR_PROBE_BW
                         then wbbr_set_pacing_rate (upd (set_idle_restart true) sk)
                                                   (wbbr_bw sk) WBBR_UNIT
                         else upd (set_idle_restart true) sk).
    { subst sk1. unfold wbbr_cwnd_event. cbn [is_tx_start andb].
      destruct (Z.eqb_spec (app_limited sk) 0) as [E|_]; [contradiction|]. reflexivity. }
    destruct (wbbr_set_pacing_rate_block K (upd (set_idle_restart true) sk)
                (wbbr_bw sk) WBBR_UNIT) as (Hm & Hi & _ & _ & _ & Hc & _).
    assert (Hfacts : idle_restart (ca sk1) = true /\ mode (ca sk1) = mode (ca sk) /\
                     snd_cwnd sk1 = snd_cwnd sk).
    { rewrite Hsk1. destruct (wbbr_mode_eqb (mode (ca sk)) WBBR_PROBE_BW);
        [rewrite Hm, Hi, Hc|]; repeat split; reflexivity. }
    destruct Hfacts as (Hidle & Hmode & Hcwnd).
    split; [exact Hidle|]. split; [exact Hmode|]. split; [exact Hcwnd|].
    split; [|split].
    + intros Hnot. rewrite Hsk1.
      destruct (mode (ca sk)); try reflexivity. contradiction.
    + intros Hpb. rewrite Hsk1, Hpb. reflexivity.
    + intros Hnot. clear Hsk1. clearbody sk1.
      assert (Hm1 : wbbr_mode_eqb (mode (ca sk1)) WBBR_PROBE_RTT = false)
        by (rewrite Hmode; destruct (mode (ca sk)); try reflexivity; contradiction).
      unfold wbbr_update_min_rtt.
      set (sk2 := if (0 <=? rs_rtt_us rs) && _ then _ else sk1).
      assert (Hframe : mode (ca sk2) = mode (ca sk1) /\
                       idle_restart (ca sk2) = idle_restart (ca sk1)).
      { subst sk2. destruct ((0 <=? rs_rtt_us rs) && _); split; reflexivity. }
      destruct Hframe as (Hm2 & Hi2). clearbody sk2.
      rewrite Hi2, Hidle. cbn [negb]. rewrite andb_false_r. cbn [andb].
      rewrite Hm2, Hm1. cbn [ca upd set_ca mode set_idle_restart].
      rewrite Hm2. exact Hmode.
Qed.

Lemma wbbr_cwnd_event_idle_restart_witness :
  let K := test_kernel 20000 0 in
  let sk := set_app_limited 7 (upd (set_mode WBBR_PROBE_BW) sock_blank) in
  mode (ca (wbbr_update_min_rtt (wbbr_cwnd_event sk CA_EVENT_TX_START) sample_blank))
  = WBBR_PROBE_BW /\
  mode (ca (wbbr_update_min_rtt sk sample_blank)) = WBBR_PROBE_RTT.
Proof.
  intros K sk.
  destruct (wbbr_cwnd_event_idle_restart K sk sample_blank CA_EVENT_TX_START) as (_ & Hidle).
  assert (Happ : app_limited sk <> 0) by discriminate.
  destruct (Hidle Happ) as (_ & _ & _ & _ & _ & Hkeeps).
  split; [apply Hkeeps; discriminate | reflexivity].
Defined.

(** ** The long-term rate and the rounds *)

(** X14: while the long-term rate is in use [wbbr_lt_bw_sampling] only
    counts the rounds that start in PROBE_BW; the 48th such round ends the
    long-term mode: the sampler is reset, the estimate falls back to the
    max filter and gain cycling restarts.  Up to there the 7-bit round
    counter does not wrap. *)
Theorem wbbr_lt_bw_sampling_expiry (K : kernel) (sk : sock) (rs : rate_sample) :
  lt_use_bw (ca sk) = true ->
  0 <= lt_rtt_cnt (ca sk) < wbbr_lt_bw_max_rtts ->
  let sk' := wbbr_lt_bw_sampling sk rs in
  let counted := wbbr_mode_eqb (mode (ca sk)) WBBR_PROBE_BW && round_start (ca sk) in
  (counted = false -> sk' = sk) /\
  (counted = true -> lt_rtt_cnt (ca sk) + 1 < wbbr_lt_bw_max_rtts ->
   sk' = upd (set_lt_rtt_cnt (lt_rtt_cnt (ca sk) + 1)) sk) /\
  (counted = true -> lt_rtt_cnt (ca sk) + 1 = wbbr_lt_bw_max_rtts ->
   lt_use_bw (ca sk') = false /\ lt_bw (ca sk') = 0 /\ lt_is_sampling (ca sk') = false /\
   lt_rtt_cnt (ca sk') = 0 /\ mode (ca sk') = WBBR_PROBE_BW /\
   wbbr_bw sk' = wbbr_max_bw sk).
Proof.
  intros Huse Hcnt sk' counted. subst sk' counted.
  unfold wbbr_lt_bw_sampling, wbbr_lt_bw_sampling_exit. rewrite Huse.
  change wbbr_lt_bw_max_rtts with 48 in *.
  assert (Hbits : bits 7 (lt_rtt_cnt (ca sk) + 1) = lt_rtt_cnt (ca sk) + 1).
  { unfold bits. apply Z.mod_small. lia. }
  split; [|split].
  - intros ->. reflexivity.
  - intros -> Hlt. cbn [ca upd set_ca lt_rtt_cnt set_lt_rtt_cnt].
    rewrite Hbits. destruct (Z.leb_spec 48 (lt_rtt_cnt (ca sk) + 1)); [lia | reflexivity].
  - intros -> Hlast. cbn [ca upd set_ca lt_rtt_cnt set_lt_rtt_cnt].
    rewrite Hbits. destruct (Z.leb_spec 48 (lt_rtt_cnt (ca sk) + 1)); [|lia].
    repeat split; reflexivity.
Qed.

Lemma wbbr_lt_bw_sampling_expiry_witness :
  let K := test_kernel 0 0 in
  let sk := upd (set_lt_rtt_cnt 47) (upd (set_lt_bw 5000) (upd (set_lt_use_bw true)
              (upd (set_round_start true) (upd (set_mode WBBR_PROBE_BW) sock_blank)))) in
  lt_use_bw (ca (wbbr_lt_bw_sampling sk sample_blank)) = false /\
  lt_bw (ca (wbbr_lt_bw_sampling sk sample_blank)) = 0.
Proof.
  intros K sk.
  assert (Huse : lt_use_bw (ca sk) = true) by reflexivity.
  assert (Hcnt : 0 <= lt_rtt_cnt (ca sk) < wbbr_lt_bw_max_rtts)
    by (vm_compute; split; [discriminate | reflexivity]).
  destruct (wbbr_lt_bw_sampling_expiry K sk sample_blank Huse Hcnt) as (_ & _ & Hlast).
  destruct Hlast as (Hu & Hb & _); [reflexivity | reflexivity |].
  split; [exact Hu | exact Hb].
Defined.

(** What [wbbr_lt_bw_sampling] never writes: the round bookkeeping, the max
    filter, the full-pipe estimate, the min-RTT and PROBE_RTT state, the
    window bookkeeping and everything outside the block. *)
Lemma wbbr_lt_bw_sampling_untouched (K : kernel) (sk : sock) (rs : rate_sample) :
  let sk' := wbbr_lt_bw_sampling sk rs in
  (round_start (ca sk') = round_start (ca sk) /\ rtt_cnt (ca sk') = rtt_cnt (ca sk) /\
   next_rtt_delivered (ca sk') = next_rtt_delivered (ca sk) /\
   packet_conservation (ca sk') = packet_conservation (ca sk) /\
   bw (ca sk') = bw (ca sk)) /\
  (full_bw (ca sk') = full_bw (ca sk) /\ full_bw_cnt (ca sk') = full_bw_cnt (ca sk)) /\
  (snd_cwnd sk' = snd_cwnd sk /\ sk_pacing_rate sk' = sk_pacing_rate sk /\
   app_limited sk' = app_limited sk /\ tcp_facts sk' = tcp_facts sk) /\
  (prev_ca_state (ca sk') = prev_ca_state (ca sk) /\
   prior_cwnd (ca sk') = prior_cwnd (ca sk) /\
   min_rtt_us (ca sk') = min_rtt_us (ca sk) /\
   tso_segs_goal (ca sk') = tso_segs_goal (ca sk) /\
   idle_restart (ca sk') = idle_restart (ca sk) /\
   instant_rate (ca sk') = instant_rate (ca sk)).
Proof.
  unfold wbbr_lt_bw_sampling, wbbr_lt_bw_sampling_exit, wbbr_lt_bw_interval_done.
  repeat match goal with
         | |- context [if ?c then _ else _] => destruct c
         end; repeat split; reflexivity.
Qed.

(** X15: on a valid sample [wbbr_update_bw] starts a new round exactly when
    the acknowledged packet was sent at or after the end of the previous
    round (wrapping comparison): it then counts the round, moves the end
    of the round to the current delivered count and ends packet
    conservation.  An app-limited sample below the current maximum leaves
    the max filter alone; any other sample is fed to it with the new round
    count. *)
Theorem wbbr_update_bw_round (K : kernel) (sk : sock) (rs : rate_sample) :
  0 <= rs_delivered rs -> 0 < rs_interval_us rs ->
  let sk' := wbbr_update_bw sk rs in
  let new_round := negb (before (rs_prior_delivered rs) (next_rtt_delivered (ca sk))) in
  let sample := do_div (rs_delivered rs * BW_UNIT) (rs_interval_us rs) in
  round_start (ca sk') = new_round /\
  rtt_cnt (ca sk') = (if new_round then u32 (rtt_cnt (ca sk) + 1) else rtt_cnt (ca sk)) /\
  next_rtt_delivered (ca sk') =
    (if new_round then delivered sk else next_rtt_delivered (ca sk)) /\
  packet_conservation (ca sk') =
    (if new_round then false else packet_conservation (ca sk)) /\
  bw (ca sk') =
    (if rs_is_app_limited rs && (sample <? wbbr_max_bw sk)
     then bw (ca sk)
     else minmax_running_max (bw (ca sk)) wbbr_bw_rtts (rtt_cnt (ca sk')) (u32 sample)).
Proof.
  intros Hdelivered Hinterval sk' new_round sample. subst sk'.
  unfold wbbr_update_bw.
  destruct (Z.ltb_spec (rs_delivered rs) 0) as [H|_]; [lia|].
  destruct (Z.leb_spec (rs_interval_us rs) 0) as [H|_]; [lia|].
  cbn [orb]. fold sample.
  change (next_rtt_delivered (ca (upd (set_round_start false) sk)))
    with (next_rtt_delivered (ca sk)).
  fold new_round.
  set (sk1 := if new_round then _ else upd (set_round_start false) sk).
  assert (H1 : round_start (ca sk1) = new_round /\
               rtt_cnt (ca sk1) = (if new_round then u32 (rtt_cnt (ca sk) + 1)
                                   else rtt_cnt (ca sk)) /\
               next_rtt_delivered (ca sk1) =
                 (if new_round then delivered sk else next_rtt_delivered (ca sk)) /\
               packet_conservation (ca sk1) =
                 (if new_round then false else packet_conservation (ca sk)) /\
               bw (ca sk1) = bw (ca sk)).
  { subst sk1. destruct new_round; repeat split; reflexivity. }
  destruct H1 as (Hr1 & Hc1 & Hn1 & Hp1 & Hb1).
  destruct (wbbr_lt_bw_sampling_untouched K sk1 rs) as ((Hr2 & Hc2 & Hn2 & Hp2 & Hb2) & _).
  clearbody sk1. clearbody new_round.
  set (sk2 := wbbr_lt_bw_sampling sk1 rs) in *. clearbody sk2.
  assert (Hmax : wbbr_max_bw sk2 = wbbr_max_bw sk).
  { unfold wbbr_max_bw. rewrite Hb2, Hb1. reflexivity. }
  rewrite Hmax.
  destruct (rs_is_app_limited rs); cbn [negb orb andb];
    [ rewrite Z.ltb_antisym; destruct (wbbr_max_bw sk <=? sample); cbn [negb] |];
    cbn [ca upd set_ca bw rtt_cnt round_start next_rtt_delivered packet_conservation set_bw];
    rewrite ?Hr2, ?Hc2, ?Hn2, ?Hp2, ?Hb2, ?Hr1, ?Hc1, ?Hn1, ?Hp1, ?Hb1;
    repeat split; reflexivity.
Qed.

Lemma wbbr_update_bw_round_witness :
  let K := test_kernel 0 0 in
  let sk := set_ca (set_next_rtt_delivered 10 (ca sock_blank)) sock_blank in
  let rs := {| rs_prior_delivered := 12; rs_delivered := 5; rs_interval_us := 1000;
               rs_rtt_us := 1000; rs_losses := 0; rs_acked_sacked := 5;
               rs_prior_in_flight := 5; rs_is_app_limited := false |} in
  round_start (ca (wbbr_update_bw sk rs)) = true /\ rtt_cnt (ca (wbbr_update_bw sk rs)) = 1.
Proof.
  intros K sk rs.
  assert (Hd : 0 <= rs_delivered rs) by discriminate.
  assert (Hi : 0 < rs_interval_us rs) by reflexivity.
  destruct (wbbr_update_bw_round K sk rs Hd Hi) as (Hround & Hcnt & _).
  split; [rewrite Hround | rewrite Hcnt]; reflexivity.
Defined.

(** ** The other callbacks *)

(** X16: [wbbr_init] overwrites the whole private block: the block it
    leaves does not depend on what the block held before.  The flow starts in STARTUP
    with the high gain for pacing and window, an empty bandwidth model
    (estimate 0, pipe not full, long-term sampler off), the min-RTT of the
    connection stamped now, counters in range; window and the rest of the
    connection state are left alone. *)
Theorem wbbr_init_fresh (K : kernel) (sk : sock) (w : wbbr) :
  ca (wbbr_init (set_ca w sk)) = ca (wbbr_init sk) /\
  let sk' := wbbr_init sk in
  mode (ca sk') = WBBR_STARTUP /\
  pacing_gain (ca sk') = wbbr_high_gain /\ cwnd_gain (ca sk') = wbbr_high_gain /\
  wbbr_bw sk' = 0 /\ wbbr_full_bw_reached sk' = false /\
  (lt_use_bw (ca sk') = false /\ lt_is_sampling (ca sk') = false) /\
  (min_rtt_us (ca sk') = tcp_min_rtt sk /\ min_rtt_stamp (ca sk') = tcp_time_stamp) /\
  has_seen_rtt (ca sk') = negb (srtt_us sk =? 0) /\
  counters_in_range (ca sk') /\
  snd_cwnd sk' = snd_cwnd sk /\ app_limited sk' = app_limited sk /\
  tcp_facts sk' = tcp_facts sk.
Proof.
  unfold wbbr_init, wbbr_init_pacing_rate_from_rtt, counters_in_range.
  cbn [ca upd set_ca srtt_us set_prior_cwnd set_tso_segs_goal set_rtt_cnt
       set_next_rtt_delivered set_prev_ca_state set_packet_conservation
       set_probe_rtt_done_stamp set_probe_rtt_round_done set_min_rtt_us
       set_min_rtt_stamp set_bw set_has_seen_rtt].
  destruct (srtt_us sk =? 0); cbn [negb]; (split; [reflexivity|]);
    repeat split; try reflexivity; vm_compute; discriminate.
Qed.

Lemma wbbr_lt_bw_sampling_mode (K : kernel) (sk : sock) (rs : rate_sample) :
  mode (ca (wbbr_lt_bw_sampling sk rs)) = mode (ca sk).
Proof.
  unfold wbbr_lt_bw_sampling, wbbr_lt_bw_sampling_exit, wbbr_lt_bw_interval_done.
  destruct (lt_use_bw (ca sk)).
  - destruct (mode (ca sk)) eqn:Hmode; cbn [wbbr_mode_eqb andb snd]; try exact Hmode.
    destruct (round_start (ca sk)); cbn [snd]; [|exact Hmode].
    match goal with
    | |- context [if ?c then _ else _] => destruct c
    end; cbn [snd]; [reflexivity | exact Hmode].
  - repeat match goal with
           | |- context [if ?c then _ else _] => destruct c
           end; reflexivity.
Qed.

(** X17: [wbbr_set_state] acts on [TCP_CA_Loss] only.  An RTO is recorded
    as the previous state, restarts the full-pipe baseline without
    forgetting that the pipe was found full, counts as the start of a
    round, and leaves mode and window alone; when the long-term sampler is
    idle it starts a sampling interval at the current delivered and lost
    counts, with this round as its first. *)
Theorem wbbr_set_state_loss (K : kernel) (sk : sock) (new_state : Z) :
  (new_state <> TCP_CA_Loss -> wbbr_set_state sk new_state = sk) /\
  let sk' := wbbr_set_state sk TCP_CA_Loss in
  prev_ca_state (ca sk') = TCP_CA_Loss /\ full_bw (ca sk') = 0 /\
  round_start (ca sk') = true /\
  full_bw_cnt (ca sk') = full_bw_cnt (ca sk) /\
  mode (ca sk') = mode (ca sk) /\ snd_cwnd sk' = snd_cwnd sk /\
  (lt_use_bw (ca sk) = false -> lt_is_sampling (ca sk) = false ->
   lt_is_sampling (ca sk') = true /\ lt_rtt_cnt (ca sk') = 1 /\
   lt_last_delivered (ca sk') = delivered sk /\ lt_last_lost (ca sk') = lost sk /\
   lt_last_stamp (ca sk') = stamp_jiffies (delivered_mstamp sk)).
Proof.
  split.
  - intros Hstate. unfold wbbr_set_state.
    destruct (Z.eqb_spec new_state TCP_CA_Loss) as [E|_]; [contradiction | reflexivity].
  - intros sk'. subst sk'. unfold wbbr_set_state. cbn [Z.eqb TCP_CA_Loss Pos.eqb].
    set (rs := {| rs_prior_delivered := 0; rs_delivered := 0; rs_interval_us := 0;
                  rs_rtt_us := 0; rs_losses := 1; rs_acked_sacked := 0;
                  rs_prior_in_flight := 0; rs_is_app_limited := false |}).
    set (sk1 := upd (set_round_start true) _).
    destruct (wbbr_lt_bw_sampling_untouched K sk1 rs)
      as ((Hr & _) & (Hb & Hc) & (Hw & _) & (Hp & _)).
    pose proof (wbbr_lt_bw_sampling_mode K sk1 rs) as Hm.
    assert (Hstart : lt_use_bw (ca sk) = false -> lt_is_sampling (ca sk) = false ->
                     wbbr_lt_bw_sampling sk1 rs =
                     upd (set_lt_rtt_cnt 1)
                         (upd (set_lt_is_sampling true)
                              (wbbr_reset_lt_bw_sampling_interval sk1))).
    { intros Huse Hsampling. unfold wbbr_lt_bw_sampling, wbbr_lt_bw_sampling_exit.
      change (lt_use_bw (ca sk1)) with (lt_use_bw (ca sk)).
      change (lt_is_sampling (ca sk1)) with (lt_is_sampling (ca sk)).
      rewrite Huse, Hsampling. reflexivity. }
    split; [| split; [| split; [| split; [| split; [| split]]]]].
    + rewrite Hp. reflexivity.
    + rewrite Hb. reflexivity.
    + rewrite Hr. reflexivity.
    + rewrite Hc. reflexivity.
    + rewrite Hm. reflexivity.
    + rewrite Hw. reflexivity.
    + intros Huse Hsampling. rewrite (Hstart Huse Hsampling). repeat split; reflexivity.
Qed.

Lemma wbbr_set_state_loss_witness :
  let K := test_kernel 0 0 in
  let sk := {| snd_cwnd := 10; snd_cwnd_clamp := 2 ^ 32 - 1; delivered := 40; lost := 3;
               delivered_mstamp := no_stamp; app_limited := 0; srtt_us := 0;
               mss_cache := 1460; tcp_min_rtt := 2 ^ 32 - 1; packets_in_flight := 0;
               icsk_ca_state := TCP_CA_Loss; sk_pacing_rate := 0;
               sk_max_pacing_rate := 2 ^ 32 - 1; can_send := true; siblings := None;
               ca := wbbr_blank |} in
  lt_is_sampling (ca (wbbr_set_state sk TCP_CA_Loss)) = true /\
  lt_last_delivered (ca (wbbr_set_state sk TCP_CA_Loss)) = 40 /\
  wbbr_set_state sk TCP_CA_Recovery = sk.
Proof.
  intros K sk.
  destruct (wbbr_set_state_loss K sk TCP_CA_Recovery) as (Hother & Hloss).
  destruct Hloss as (_ & _ & _ & _ & _ & _ & Hstart).
  destruct Hstart as (Hs & _ & Hd & _); [reflexivity | reflexivity |].
  split; [exact Hs | split; [exact Hd | apply Hother; discriminate]].
Defined.

(** X18: [wbbr_get_info] answers only when the BBR or the Vegas info bit of
    [ext] is set.  It then reports the bandwidth estimate in bytes per
    second, split in two 32-bit halves that recombine to
    [bw * mss * USEC_PER_SEC / BW_UNIT] as long as that product fits 64
    bits, together with the min RTT and the two gains. *)
Theorem wbbr_get_info_rate (K : kernel) (sk : sock) (ext : Z) :
  0 <= wbbr_bw sk -> 0 <= mss_cache sk ->
  wbbr_bw sk * mss_cache sk * USEC_PER_SEC < 2 ^ 64 ->
  let wanted :=
    negb (Z.land ext (Z.shiftl 1 (INET_DIAG_BBRINFO - 1)) =? 0)
    || negb (Z.land ext (Z.shiftl 1 (INET_DIAG_VEGASINFO - 1)) =? 0) in
  (wanted = false -> wbbr_get_info sk ext = None) /\
  (wanted = true ->
   exists info, wbbr_get_info sk ext = Some info /\
     bbr_bw_lo info + 2 ^ 32 * bbr_bw_hi info =
       wbbr_bw sk * mss_cache sk * USEC_PER_SEC / BW_UNIT /\
     0 <= bbr_bw_lo info < 2 ^ 32 /\ 0 <= bbr_bw_hi info < 2 ^ 32 /\
     bbr_min_rtt info = min_rtt_us (ca sk) /\
     bbr_pacing_gain info = pacing_gain (ca sk) /\
     bbr_cwnd_gain info = cwnd_gain (ca sk)).
Proof.
  intros Hbw Hmss Hfits wanted. subst wanted. unfold wbbr_get_info.
  split; intros ->; [reflexivity|].
  eexists. split; [reflexivity|].
  cbn [bbr_bw_lo bbr_bw_hi bbr_min_rtt bbr_pacing_gain bbr_cwnd_gain].
  change USEC_PER_SEC with 1000000 in *. change BW_SCALE with 24. change BW_UNIT with (2 ^ 24).
  assert (Hprod : 0 <= wbbr_bw sk * mss_cache sk) by (apply Z.mul_nonneg_nonneg; assumption).
  rewrite (u64_small (wbbr_bw sk * mss_cache sk)) by lia.
  rewrite u64_small by lia.
  rewrite !shiftr_div by lia.
  set (rate := wbbr_bw sk * mss_cache sk * 1000000 / 2 ^ 24).
  assert (Hrate : 0 <= rate < 2 ^ 40).
  { subst rate. split; [apply Z.div_pos; lia|].
    apply Z.div_lt_upper_bound; [lia|]. change (2 ^ 24 * 2 ^ 40) with (2 ^ 64). lia. }
  clearbody rate.
  assert (Hhi : 0 <= rate / 2 ^ 32 < 2 ^ 8).
  { split; [apply Z.div_pos; lia|]. apply Z.div_lt_upper_bound; [lia|].
    change (2 ^ 32 * 2 ^ 8) with (2 ^ 40). lia. }
  rewrite (u32_small (rate / 2 ^ 32)) by lia.
  pose proof (u32_range rate) as Hlo.
  unfold u32 in *.
  pose proof (Z.div_mod rate (2 ^ 32) ltac:(lia)) as Hsplit.
  repeat split; try reflexivity; lia.
Qed.

Lemma wbbr_get_info_rate_witness :
  let K := test_kernel 0 0 in
  let sk := upd (set_bw (minmax_reset 0 (2 ^ 31))) sock_blank in
  exists info, wbbr_get_info sk (2 ^ 15) = Some info /\
    bbr_bw_lo info + 2 ^ 32 * bbr_bw_hi info = 186880000000.
Proof.
  intros K sk.
  assert (Hbw : 0 <= wbbr_bw sk) by discriminate.
  assert (Hmss : 0 <= mss_cache sk) by discriminate.
  assert (Hfits : wbbr_bw sk * mss_cache sk * USEC_PER_SEC < 2 ^ 64) by reflexivity.
  destruct (wbbr_get_info_rate K sk (2 ^ 15) Hbw Hmss Hfits) as (_ & Hwanted).
  destruct (Hwanted eq_refl) as (info & Hinfo & Hsum & _).
  exists info. split; [exact Hinfo | exact Hsum].
Defined.

(** X19: the gain that [wbbr_main] hands to [wbbr_set_pacing_rate] is the
    pacing gain on a single-path connection, and at most the pacing gain on
    a multipath connection whose subflow under control can send: its rate
    is then part of the sum it is divided by. *)
Theorem wbbr_weighted_gain_bound (sk : sock) :
  0 <= pacing_gain (ca sk) < 2 ^ 10 ->
  (siblings sk = None -> wbbr_weighted_gain sk = pacing_gain (ca sk)) /\
  (forall subs, siblings sk = Some subs -> can_send sk = true ->
     0 <= instant_rate (ca sk) < 2 ^ 24 ->
     0 <= eligible_rate_sum subs < 2 ^ 64 - 2 ^ 24 ->
     0 <= wbbr_weighted_gain sk <= pacing_gain (ca sk)).
Proof.
  intros Hgain.
  assert (Hscale : forall weight, 0 <= weight <= 256 ->
            0 <= s32 (Z.shiftr (u64 (pacing_gain (ca sk) * weight)) WBBR_SCALE)
              <= pacing_gain (ca sk) /\
            (weight = 256 ->
             s32 (Z.shiftr (u64 (pacing_gain (ca sk) * weight)) WBBR_SCALE)
             = pacing_gain (ca sk))).
  { intros weight Hw. change WBBR_SCALE with 8.
    assert (Hprod : 0 <= pacing_gain (ca sk) * weight <= pacing_gain (ca sk) * 256) by nia.
    rewrite u64_small by lia. rewrite shiftr_div by lia. change (2 ^ 8) with 256.
    assert (Hq : 0 <= pacing_gain (ca sk) * weight / 256 <= pacing_gain (ca sk)).
    { split; [apply Z.div_pos; lia|]. apply Z.div_le_upper_bound; lia. }
    rewrite s32_small by lia. split; [exact Hq|].
    intros ->. apply Z.div_mul. lia. }
  unfold wbbr_weighted_gain, mpcb. split.
  - intros ->. cbn [option_map wbbr_weight]. apply Hscale; change WBBR_UNIT with 256; lia.
  - intros subs -> Hsend Hown Hsum. cbn [option_map].
    apply Hscale. unfold wbbr_weight.
    rewrite wbbr_total_rate_sum, eligible_rate_sum_cons.
    cbn [sub_can_send sub_ca]. rewrite Hsend.
    rewrite u64_small by lia.
    set (total := instant_rate (ca sk) + eligible_rate_sum subs).
    destruct (Z.eqb_spec total 0) as [_|Htotal]; [change WBBR_UNIT with 256; cbn; lia|].
    destruct (Z.eqb_spec (instant_rate (ca sk)) 0) as [_|_];
      [change WBBR_UNIT with 256; cbn; lia|].
    cbn [negb andb]. unfold div64_u64. change WBBR_UNIT with 256.
    rewrite u32_small by lia.
    split; [apply Z.div_pos; lia|].
    apply Z.div_le_upper_bound; subst total; lia.
Qed.

Lemma wbbr_weighted_gain_bound_witness :
  let sk := {| snd_cwnd := 10; snd_cwnd_clamp := 2 ^ 32 - 1; delivered := 0; lost := 0;
               delivered_mstamp := no_stamp; app_limited := 0; srtt_us := 0;
               mss_cache := 1460; tcp_min_rtt := 2 ^ 32 - 1; packets_in_flight := 0;
               icsk_ca_state := TCP_CA_Open; sk_pacing_rate := 0;
               sk_max_pacing_rate := 2 ^ 32 - 1; can_send := true;
               siblings := Some [sub_slow];
               ca := set_pacing_gain 320 (set_instant_rate 3000000 wbbr_blank) |} in
  0 <= wbbr_weighted_gain sk <= 320.
Proof.
  intros sk.
  assert (Hgain : 0 <= pacing_gain (ca sk) < 2 ^ 10)
    by (vm_compute; split; [discriminate | reflexivity]).
  destruct (wbbr_weighted_gain_bound sk Hgain) as (_ & Hmulti).
  apply (Hmulti [sub_slow]); try reflexivity;
    vm_compute; split; try discriminate; reflexivity.
Defined.

(** ** Invariants of the block *)

Lemma cycle_idx_land_range (x : Z) : 0 <= Z.land x (CYCLE_LEN - 1) < CYCLE_LEN.
Proof.
  change (CYCLE_LEN - 1) with (Z.ones 3). rewrite Z.land_ones by lia.
  change CYCLE_LEN with 8. change (2 ^ 3) with 8. apply Z.mod_pos_bound. lia.
Qed.

Lemma wbbr_reset_probe_bw_mode_cycle_idx (K : kernel) (sk : sock) :
  0 <= cycle_idx (ca (wbbr_reset_probe_bw_mode sk)) < CYCLE_LEN.
Proof.
  change (0 <= Z.land (bits 3 (CYCLE_LEN - 1 - prandom_u32_max wbbr_cycle_rand) + 1)
                      (CYCLE_LEN - 1) < CYCLE_LEN).
  apply cycle_idx_land_range.
Qed.

Lemma wbbr_advance_cycle_phase_cycle_idx (sk : sock) :
  0 <= cycle_idx (ca (wbbr_advance_cycle_phase sk)) < CYCLE_LEN.
Proof.
  change (0 <= Z.land (cycle_idx (ca sk) + 1) (CYCLE_LEN - 1) < CYCLE_LEN).
  apply cycle_idx_land_range.
Qed.

Lemma mode_step_refl (w : wbbr) : mode_step w w.
Proof. unfold mode_step. repeat split; auto. Qed.

Lemma mode_step_counters (w w' : wbbr) :
  mode_step w w' -> counters_in_range w -> counters_in_range w'.
Proof.
  unfold mode_step, counters_in_range.
  intros (Hf & Hl & Hu & Hstep) (Hc & Hcnt & Hlt & Hsampling).
  rewrite Hf, Hl, Hu.
  destruct Hstep as [(_ & _ & [Hi|Hi]) | [(_ & _ & Hi & _) | [(_ & _ & Hi & _)
                    | [(_ & _ & Hi & _) | (_ & _ & Hi)]]]];
    rewrite ?Hi; auto.
Qed.

Lemma mode_step_cwnd_gain (w w' : wbbr) :
  mode_step w w' -> cwnd_gain w = cwnd_gain_of (mode w) ->
  cwnd_gain w' = cwnd_gain_of (mode w').
Proof.
  unfold mode_step. intros (_ & _ & _ & Hstep) Hgain.
  destruct Hstep as [(Hm & Hg & _) | [(Hm & Hg & _) | [(Hm & Hg & _)
                    | [(Hm & Hg & _) | (Hm & Hg & _)]]]];
    rewrite Hm, Hg; auto.
Qed.

Lemma mode_step_follows_pipe (w w' : wbbr) :
  mode_step w w' -> mode_follows_pipe w -> mode_follows_pipe w'.
Proof.
  unfold mode_step, mode_follows_pipe. intros (Hf & _ & _ & Hstep) Hpipe.
  rewrite Hf.
  destruct Hstep as [(Hm & _) | [(Hm & _ & _ & [Hd|Hfull]) | [(Hm & _ & _ & Hfull)
                    | [(Hm & _) | (Hm & _)]]]];
    rewrite Hm; auto; intros [H|H]; discriminate.
Qed.

Lemma mode_step_not_startup (w w' : wbbr) :
  mode_step w w' -> wbbr_full_bw_cnt <= full_bw_cnt w -> mode w <> WBBR_STARTUP ->
  mode w' <> WBBR_STARTUP.
Proof.
  unfold mode_step. intros (_ & _ & _ & Hstep) Hfull Hmode.
  destruct Hstep as [(Hm & _) | [(Hm & _) | [(Hm & _) | [(Hm & _ & _ & Hnot) | (Hm & _)]]]];
    rewrite Hm; try discriminate; try exact Hmode. lia.
Qed.

Lemma wbbr_update_cycle_phase_mode_step (K : kernel) (sk : sock) (rs : rate_sample) :
  mode_step (ca sk) (ca (wbbr_update_cycle_phase sk rs)).
Proof.
  unfold wbbr_update_cycle_phase.
  destruct (wbbr_mode_eqb (mode (ca sk)) WBBR_PROBE_BW && negb (lt_use_bw (ca sk))
            && wbbr_is_next_cycle_phase sk rs); [|apply mode_step_refl].
  unfold mode_step. repeat split; try reflexivity.
  left. repeat split; try reflexivity. right. apply wbbr_advance_cycle_phase_cycle_idx.
Qed.

Lemma wbbr_check_drain_mode_step (K : kernel) (sk : sock) (rs : rate_sample) :
  mode_step (ca sk) (ca (wbbr_check_drain sk rs)).
Proof.
  unfold wbbr_check_drain, wbbr_full_bw_reached.
  destruct (mode (ca sk)) eqn:Hmode; cbn [wbbr_mode_eqb andb];
    rewrite ?Hmode; cbn [wbbr_mode_eqb andb]; try apply mode_step_refl.
  - destruct (Z.leb_spec wbbr_full_bw_cnt (full_bw_cnt (ca sk))) as [Hfull|Hnot];
      cbn [ca upd set_ca mode set_mode set_pacing_gain set_cwnd_gain wbbr_mode_eqb andb];
      rewrite ?Hmode; cbn [wbbr_mode_eqb andb]; [|apply mode_step_refl].
    match goal with
    | |- context [if ?c then _ else _] => destruct c
    end; unfold mode_step; (repeat split; try reflexivity).
    + right. left. repeat split; try reflexivity;
        try apply (wbbr_reset_probe_bw_mode_cycle_idx K); auto.
    + right. right. left. repeat split; try reflexivity; auto.
  - match goal with
    | |- context [if ?c then _ else _] => destruct c
    end; [|apply mode_step_refl].
    unfold mode_step. repeat split; try reflexivity.
    right. left. repeat split; try reflexivity;
      try apply (wbbr_reset_probe_bw_mode_cycle_idx K); auto.
Qed.

Lemma wbbr_update_min_rtt_mode_step (K : kernel) (sk : sock) (rs : rate_sample) :
  mode_step (ca sk) (ca (wbbr_update_min_rtt sk rs)).
Proof.
  unfold wbbr_update_min_rtt.
  set (expired := after _ (u32 _)).
  set (sk1 := if (0 <=? rs_rtt_us rs) && _ then _ else sk).
  assert (Hframe : mode (ca sk1) = mode (ca sk) /\ cwnd_gain (ca sk1) = cwnd_gain (ca sk) /\
                   cycle_idx (ca sk1) = cycle_idx (ca sk) /\
                   full_bw_cnt (ca sk1) = full_bw_cnt (ca sk) /\
                   lt_rtt_cnt (ca sk1) = lt_rtt_cnt (ca sk) /\
                   lt_use_bw (ca sk1) = lt_use_bw (ca sk)).
  { subst sk1. destruct ((0 <=? rs_rtt_us rs) && _); repeat split; reflexivity. }
  destruct Hframe as (Hm1 & Hg1 & Hi1 & Hf1 & Hl1 & Hu1).
  clearbody sk1 expired.
  assert (Hsame : forall sk3,
            mode (ca sk3) = mode (ca sk) -> cwnd_gain (ca sk3) = cwnd_gain (ca sk) ->
            cycle_idx (ca sk3) = cycle_idx (ca sk) ->
            full_bw_cnt (ca sk3) = full_bw_cnt (ca sk) ->
            lt_rtt_cnt (ca sk3) = lt_rtt_cnt (ca sk) ->
            lt_use_bw (ca sk3) = lt_use_bw (ca sk) ->
            mode_step (ca sk) (ca (upd (set_idle_restart false) sk3))).
  { intros sk3 Hm3 Hg3 Hi3 Hf3 Hl3 Hu3. unfold mode_step.
    cbn [ca upd set_ca mode cwnd_gain cycle_idx full_bw_cnt lt_rtt_cnt lt_use_bw
         set_idle_restart].
    rewrite Hm3, Hg3, Hi3, Hf3, Hl3, Hu3.
    repeat split; try reflexivity. left. repeat split; auto. }
  destruct ((0 <? wbbr_probe_rtt_mode_ms) && expired && negb (idle_restart (ca sk1))
            && negb (wbbr_mode_eqb (mode (ca sk1)) WBBR_PROBE_RTT)).
  - (* entering PROBE_RTT *)
    unfold wbbr_save_cwnd.
    cbn [ca upd set_ca mode set_mode set_pacing_gain set_cwnd_gain prev_ca_state
         wbbr_mode_eqb negb].
    rewrite andb_false_r.
    cbn [ca upd set_ca mode set_mode set_pacing_gain set_cwnd_gain set_prior_cwnd
         set_probe_rtt_done_stamp wbbr_mode_eqb probe_rtt_done_stamp set_app_limited
         Z.eqb andb negb].
    unfold mode_step.
    match goal with
    | |- context [if ?c then _ else _] => destruct c
    end;
      cbn -[u32 Z.add Z.max Z.leb Z.eqb]; rewrite Hf1, Hl1, Hu1;
      (repeat split; try reflexivity);
      do 4 right; repeat split; try reflexivity; exact Hi1.
  - destruct (wbbr_mode_eqb (mode (ca sk1)) WBBR_PROBE_RTT);
      [| apply Hsame; assumption].
    (* in PROBE_RTT *)
    set (sk2 := set_app_limited _ sk1).
    assert (Hframe : mode (ca sk2) = mode (ca sk) /\ cwnd_gain (ca sk2) = cwnd_gain (ca sk) /\
                     cycle_idx (ca sk2) = cycle_idx (ca sk) /\
                     full_bw_cnt (ca sk2) = full_bw_cnt (ca sk) /\
                     lt_rtt_cnt (ca sk2) = lt_rtt_cnt (ca sk) /\
                     lt_use_bw (ca sk2) = lt_use_bw (ca sk)).
    { subst sk2. cbn [ca set_app_limited]. repeat split; assumption. }
    clear Hm1 Hg1 Hi1 Hf1 Hl1 Hu1. destruct Hframe as (Hm2 & Hg2 & Hi2 & Hf2 & Hl2 & Hu2).
    clearbody sk2.
    destruct ((probe_rtt_done_stamp (ca sk2) =? 0)
              && (packets_in_flight sk2 <=? wbbr_cwnd_min_target));
      [apply Hsame; assumption|].
    destruct (negb (probe_rtt_done_stamp (ca sk2) =? 0)); [|apply Hsame; assumption].
    set (sk3 := if round_start (ca sk2) then _ else sk2).
    assert (Hframe : mode (ca sk3) = mode (ca sk) /\ cwnd_gain (ca sk3) = cwnd_gain (ca sk) /\
                     cycle_idx (ca sk3) = cycle_idx (ca sk) /\
                     full_bw_cnt (ca sk3) = full_bw_cnt (ca sk) /\
                     lt_rtt_cnt (ca sk3) = lt_rtt_cnt (ca sk) /\
                     lt_use_bw (ca sk3) = lt_use_bw (ca sk)).
    { subst sk3. destruct (round_start (ca sk2));
        cbn [ca upd set_ca mode cwnd_gain cycle_idx full_bw_cnt lt_rtt_cnt lt_use_bw
             set_probe_rtt_round_done];
        repeat split; assumption. }
    destruct Hframe as (Hm3 & Hg3 & Hi3 & Hf3 & Hl3 & Hu3). clearbody sk3.
    destruct (probe_rtt_round_done (ca sk3)
              && after tcp_time_stamp (probe_rtt_done_stamp (ca sk3)));
      [|apply Hsame; assumption].
    (* leaving PROBE_RTT *)
    unfold wbbr_reset_mode, wbbr_full_bw_reached.
    cbn [ca upd set_ca full_bw_cnt set_min_rtt_stamp set_restore_cwnd].
    rewrite Hf3.
    destruct (Z.leb_spec wbbr_full_bw_cnt (full_bw_cnt (ca sk))) as [Hfull|Hnot];
      cbn [negb]; unfold mode_step;
      cbn -[Z.land bits wbbr_pacing_gain nth];
      rewrite ?Hf3, ?Hl3, ?Hu3, ?Hi3;
      (repeat split; try reflexivity).
    + right. left. repeat split; try reflexivity; auto;
        apply (cycle_idx_land_range _).
    + right. right. right. left. repeat split; try reflexivity; auto.
Qed.

Lemma wbbr_reset_lt_bw_sampling_counters (sk : sock) :
  0 <= cycle_idx (ca sk) < CYCLE_LEN ->
  0 <= full_bw_cnt (ca sk) <= wbbr_full_bw_cnt ->
  counters_in_range (ca (wbbr_reset_lt_bw_sampling sk)).
Proof.
  intros Hc Hf. unfold counters_in_range.
  cbn -[CYCLE_LEN wbbr_full_bw_cnt]. repeat split; try apply Hc; try apply Hf;
    try (vm_compute; discriminate); intros _; vm_compute; discriminate.
Qed.

Lemma wbbr_lt_bw_interval_done_counters (K : kernel) (sk : sock) (rate : Z) :
  counters_in_range (ca sk) -> counters_in_range (ca (wbbr_lt_bw_interval_done sk rate)).
Proof.
  unfold counters_in_range. intros (Hc & Hf & _).
  unfold wbbr_lt_bw_interval_done.
  destruct (negb (lt_bw (ca sk) =? 0) && wbbr_lt_bw_is_consistent sk rate);
    cbn -[CYCLE_LEN wbbr_full_bw_cnt]; repeat split; try apply Hc; try apply Hf;
    try (vm_compute; discriminate); intros _; vm_compute; discriminate.
Qed.

Lemma set_lt_rtt_cnt_counters (sk : sock) (n : Z) :
  counters_in_range (ca sk) -> 0 <= n < wbbr_lt_bw_max_rtts ->
  (lt_use_bw (ca sk) = false -> n <= 4 * wbbr_lt_intvl_min_rtts) ->
  counters_in_range (ca (upd (set_lt_rtt_cnt n) sk)).
Proof.
  unfold counters_in_range. intros (Hc & Hf & _) Hn Hs.
  cbn [ca upd set_ca cycle_idx full_bw_cnt lt_rtt_cnt lt_use_bw set_lt_rtt_cnt]. auto.
Qed.

Lemma wbbr_reset_probe_bw_mode_counters (K : kernel) (sk : sock) :
  counters_in_range (ca sk) -> counters_in_range (ca (wbbr_reset_probe_bw_mode sk)).
Proof.
  intros (Hc & Hrest). unfold counters_in_range.
  split; [apply wbbr_reset_probe_bw_mode_cycle_idx | exact Hrest].
Qed.

Lemma bits_7_small (n : Z) : 0 <= n < 128 -> bits 7 n = n.
Proof. intros Hn. unfold bits. apply Z.mod_small. change (2 ^ 7) with 128. exact Hn. Qed.

(** [wbbr_lt_bw_sampling] keeps the counters in range: the 7-bit round
    counter of the sampler does not wrap. *)
Lemma wbbr_lt_bw_sampling_counters (K : kernel) (sk : sock) (rs : rate_sample) :
  counters_in_range (ca sk) -> counters_in_range (ca (wbbr_lt_bw_sampling sk rs)).
Proof.
  intros Hin. pose proof Hin as (Hc & Hf & Hl & Hs).
  change wbbr_lt_bw_max_rtts with 48 in Hl.
  change (4 * wbbr_lt_intvl_min_rtts) with 16 in Hs.
  unfold wbbr_lt_bw_sampling, wbbr_lt_bw_sampling_exit.
  destruct (lt_use_bw (ca sk)) eqn:Huse.
  - destruct (wbbr_mode_eqb (mode (ca sk)) WBBR_PROBE_BW && round_start (ca sk));
      cbn [snd]; [|exact Hin].
    cbn [ca upd set_ca lt_rtt_cnt set_lt_rtt_cnt].
    rewrite bits_7_small by lia.
    destruct (Z.leb_spec wbbr_lt_bw_max_rtts (lt_rtt_cnt (ca sk) + 1)) as [Hlast|Hmore];
      cbn [snd].
    + apply wbbr_reset_probe_bw_mode_counters, wbbr_reset_lt_bw_sampling_counters;
        [exact Hc | exact Hf].
    + apply set_lt_rtt_cnt_counters; [exact Hin | change wbbr_lt_bw_max_rtts with 48 in *; lia |].
      rewrite Huse. discriminate.
  - destruct (negb (lt_is_sampling (ca sk)) && (rs_losses rs =? 0)); cbn [snd]; [exact Hin|].
    set (sk1 := if negb (lt_is_sampling (ca sk)) then _ else sk).
    assert (H1 : counters_in_range (ca sk1) /\ lt_use_bw (ca sk1) = false).
    { subst sk1. destruct (negb (lt_is_sampling (ca sk))); [|auto].
      split; [|exact Huse]. unfold counters_in_range.
      cbn -[CYCLE_LEN wbbr_full_bw_cnt]. repeat split; try apply Hc; try apply Hf;
        try (vm_compute; discriminate); intros _; vm_compute; discriminate. }
    destruct H1 as (Hin1 & Huse1). clearbody sk1.
    pose proof Hin1 as (Hc1 & Hf1 & Hl1 & Hs1). specialize (Hs1 Huse1).
    change (4 * wbbr_lt_intvl_min_rtts) with 16 in Hs1.
    destruct (rs_is_app_limited rs); cbn [snd];
      [apply wbbr_reset_lt_bw_sampling_counters; assumption|].
    set (sk2 := if round_start (ca sk1) then _ else sk1).
    assert (H2 : (0 <= cycle_idx (ca sk2) < CYCLE_LEN) /\
                 (0 <= full_bw_cnt (ca sk2) <= wbbr_full_bw_cnt) /\
                 0 <= lt_rtt_cnt (ca sk2) <= 17 /\ lt_use_bw (ca sk2) = false).
    { subst sk2. destruct (round_start (ca sk1));
        cbn [ca upd set_ca cycle_idx full_bw_cnt lt_rtt_cnt lt_use_bw set_lt_rtt_cnt];
        rewrite ?bits_7_small by lia; repeat split; try apply Hc1; try apply Hf1;
        try exact Huse1; lia. }
    destruct H2 as (Hc2 & Hf2 & Hl2 & Huse2). clearbody sk2.
    destruct (Z.ltb_spec (lt_rtt_cnt (ca sk2)) wbbr_lt_intvl_min_rtts) as [Hshort|_]; cbn [snd].
    { unfold counters_in_range. change wbbr_lt_intvl_min_rtts with 4 in *.
      change wbbr_lt_bw_max_rtts with 48. repeat split; try apply Hc2; try apply Hf2; lia. }
    destruct (Z.ltb_spec (4 * wbbr_lt_intvl_min_rtts) (lt_rtt_cnt (ca sk2))) as [_|Hok];
      cbn [snd]; [apply wbbr_reset_lt_bw_sampling_counters; assumption|].
    assert (Hin2 : counters_in_range (ca sk2)).
    { unfold counters_in_range. change (4 * wbbr_lt_intvl_min_rtts) with 16 in *.
      change wbbr_lt_bw_max_rtts with 48. repeat split; try apply Hc2; try apply Hf2; lia. }
    repeat match goal with
           | |- context [if ?c then _ else _] => destruct c
           end; cbn [snd];
      first [ exact Hin2
            | apply wbbr_reset_lt_bw_sampling_counters; assumption
            | apply wbbr_lt_bw_interval_done_counters; exact Hin2 ].
Qed.

Lemma wbbr_lt_bw_sampling_cwnd_gain (K : kernel) (sk : sock) (rs : rate_sample) :
  cwnd_gain (ca sk) = cwnd_gain_of (mode (ca sk)) ->
  cwnd_gain (ca (wbbr_lt_bw_sampling sk rs)) = cwnd_gain_of (mode (ca (wbbr_lt_bw_sampling sk rs))).
Proof.
  intros Hgain. rewrite wbbr_lt_bw_sampling_mode.
  unfold wbbr_lt_bw_sampling, wbbr_lt_bw_sampling_exit, wbbr_lt_bw_interval_done.
  destruct (lt_use_bw (ca sk)).
  - destruct (mode (ca sk)) eqn:Hmode; cbn [wbbr_mode_eqb andb snd]; try exact Hgain.
    destruct (round_start (ca sk)); cbn [snd]; [|exact Hgain].
    match goal with
    | |- context [if ?c then _ else _] => destruct c
    end; cbn [snd]; [reflexivity | exact Hgain].
  - repeat match goal with
           | |- context [if ?c then _ else _] => destruct c
           end; exact Hgain.
Qed.

(** An invariant of the block that the round bookkeeping and the max
    filter do not read, and that [wbbr_lt_bw_sampling] keeps, is kept by
    [wbbr_update_bw]. *)
Lemma wbbr_update_bw_keeps (K : kernel) (P : wbbr -> Prop) :
  (forall w b, P w -> P (set_round_start b w)) ->
  (forall w n, P w -> P (set_next_rtt_delivered n w)) ->
  (forall w n, P w -> P (set_rtt_cnt n w)) ->
  (forall w b, P w -> P (set_packet_conservation b w)) ->
  (forall w m, P w -> P (set_bw m w)) ->
  (forall sk rs, P (ca sk) -> P (ca (wbbr_lt_bw_sampling sk rs))) ->
  forall sk rs, P (ca sk) -> P (ca (wbbr_update_bw sk rs)).
Proof.
  intros Hround Hnext Hcnt Hpc Hbw Hlt sk rs HP. unfold wbbr_update_bw.
  destruct ((rs_delivered rs <? 0) || (rs_interval_us rs <=? 0)).
  - apply (Hround (ca sk) false HP).
  - set (sk1 := if negb (before _ _) then _ else upd (set_round_start false) sk).
    assert (H1 : P (ca sk1)).
    { subst sk1. destruct (negb (before _ _)).
      - apply (Hpc _ false), (Hround _ true), (Hcnt _ _), (Hnext _ _), (Hround _ false), HP.
      - apply (Hround (ca sk) false HP). }
    clearbody sk1. specialize (Hlt sk1 rs H1).
    set (sk2 := wbbr_lt_bw_sampling sk1 rs) in *. clearbody sk2.
    destruct (negb (rs_is_app_limited rs) || _); [apply (Hbw _ _ Hlt) | exact Hlt].
Qed.

Lemma wbbr_update_bw_counters (K : kernel) (sk : sock) (rs : rate_sample) :
  counters_in_range (ca sk) -> counters_in_range (ca (wbbr_update_bw sk rs)).
Proof.
  apply (wbbr_update_bw_keeps K (fun w => counters_in_range w));
    try (intros w x H; exact H).
  apply wbbr_lt_bw_sampling_counters.
Qed.

Lemma wbbr_update_bw_cwnd_gain (K : kernel) (sk : sock) (rs : rate_sample) :
  cwnd_gain (ca sk) = cwnd_gain_of (mode (ca sk)) ->
  cwnd_gain (ca (wbbr_update_bw sk rs)) = cwnd_gain_of (mode (ca (wbbr_update_bw sk rs))).
Proof.
  apply (wbbr_update_bw_keeps K (fun w => cwnd_gain w = cwnd_gain_of (mode w)));
    try (intros w x H; exact H).
  apply wbbr_lt_bw_sampling_cwnd_gain.
Qed.

Lemma wbbr_update_bw_mode_full (K : kernel) (sk : sock) (rs : rate_sample) :
  forall m n, mode (ca sk) = m /\ full_bw_cnt (ca sk) = n ->
              mode (ca (wbbr_update_bw sk rs)) = m /\ full_bw_cnt (ca (wbbr_update_bw sk rs)) = n.
Proof.
  intros m n.
  apply (wbbr_update_bw_keeps K (fun w => mode w = m /\ full_bw_cnt w = n));
    try (intros w x H; exact H).
  intros sk0 rs0 (Hm & Hn). rewrite wbbr_lt_bw_sampling_mode.
  destruct (wbbr_lt_bw_sampling_untouched K sk0 rs0) as (_ & (_ & Hc) & _).
  rewrite Hc. auto.
Qed.

Lemma wbbr_check_full_bw_reached_block (sk : sock) (rs : rate_sample) :
  let sk' := wbbr_check_full_bw_reached sk rs in
  mode (ca sk') = mode (ca sk) /\ cwnd_gain (ca sk') = cwnd_gain (ca sk) /\
  cycle_idx (ca sk') = cycle_idx (ca sk) /\ lt_rtt_cnt (ca sk') = lt_rtt_cnt (ca sk) /\
  lt_use_bw (ca sk') = lt_use_bw (ca sk) /\
  (wbbr_full_bw_cnt <= full_bw_cnt (ca sk) -> sk' = sk) /\
  (0 <= full_bw_cnt (ca sk) <= wbbr_full_bw_cnt ->
   0 <= full_bw_cnt (ca sk') <= wbbr_full_bw_cnt).
Proof.
  unfold wbbr_check_full_bw_reached, wbbr_full_bw_reached.
  destruct (Z.leb_spec wbbr_full_bw_cnt (full_bw_cnt (ca sk))) as [Hfull|Hnot]; cbn [orb].
  - repeat split; auto; lia.
  - destruct (negb (round_start (ca sk)) || rs_is_app_limited rs).
    + repeat split; auto; lia.
    + assert (Hbits : 0 <= full_bw_cnt (ca sk) ->
                      bits 3 (full_bw_cnt (ca sk) + 1) = full_bw_cnt (ca sk) + 1).
      { intros Hpos. unfold bits. change (2 ^ 3) with 8. apply Z.mod_small.
        change wbbr_full_bw_cnt with 3 in Hnot. lia. }
      match goal with
      | |- context [if ?c then _ else _] => destruct c
      end; cbn [ca upd set_ca mode cwnd_gain cycle_idx lt_rtt_cnt lt_use_bw full_bw_cnt
                set_full_bw_cnt set_full_bw];
        (split; [reflexivity|]); (split; [reflexivity|]); (split; [reflexivity|]);
        (split; [reflexivity|]); (split; [reflexivity|]);
        (split; [intros Hfull; lia|]); intros Hrange;
        rewrite ?Hbits by lia; change wbbr_full_bw_cnt with 3 in *; lia.
Qed.

Lemma wbbr_set_cwnd_block (sk : sock) (rs : rate_sample) (acked rate gain : Z) :
  let sk' := wbbr_set_cwnd sk rs acked rate gain in
  mode (ca sk') = mode (ca sk) /\ pacing_gain (ca sk') = pacing_gain (ca sk) /\
  cwnd_gain (ca sk') = cwnd_gain (ca sk) /\ cycle_idx (ca sk') = cycle_idx (ca sk) /\
  instant_rate (ca sk') = instant_rate (ca sk) /\
  app_limited sk' = app_limited sk /\ tcp_facts sk' = tcp_facts sk.
Proof.
  unfold wbbr_set_cwnd, wbbr_set_cwnd_to_recover_or_restore.
  repeat match goal with
         | |- context [if ?c then _ else _] => destruct c
         end; repeat split; reflexivity.
Qed.

Lemma bw_model_fields (sk sk' : sock) :
  bw_model sk' = bw_model sk ->
  bw (ca sk') = bw (ca sk) /\ full_bw (ca sk') = full_bw (ca sk) /\
  full_bw_cnt (ca sk') = full_bw_cnt (ca sk) /\
  lt_rtt_cnt (ca sk') = lt_rtt_cnt (ca sk) /\ lt_use_bw (ca sk') = lt_use_bw (ca sk) /\
  lt_bw (ca sk') = lt_bw (ca sk).
Proof.
  unfold bw_model.
  generalize (bw (ca sk')) (bw (ca sk)) (rtt_cnt (ca sk')) (rtt_cnt (ca sk))
    (full_bw (ca sk')) (full_bw (ca sk)) (full_bw_cnt (ca sk')) (full_bw_cnt (ca sk))
    (lt_is_sampling (ca sk')) (lt_is_sampling (ca sk)) (lt_rtt_cnt (ca sk'))
    (lt_rtt_cnt (ca sk)) (lt_use_bw (ca sk')) (lt_use_bw (ca sk)) (lt_bw (ca sk'))
    (lt_bw (ca sk)) (lt_last_delivered (ca sk')) (lt_last_delivered (ca sk))
    (lt_last_stamp (ca sk')) (lt_last_stamp (ca sk)) (lt_last_lost (ca sk'))
    (lt_last_lost (ca sk)).
  intros. inversion H. repeat split; reflexivity.
Qed.

(** What the steps of [wbbr_main] after the model update leave alone. *)
Lemma wbbr_main_tail_block (K : kernel) (model : sock) (rs : rate_sample)
    (rate gain : Z) :
  let sk1 := upd (set_instant_rate rate) model in
  let sk2 := wbbr_set_pacing_rate sk1 rate (wbbr_weighted_gain sk1) in
  let sk' := wbbr_set_cwnd (wbbr_set_tso_segs_goal sk2) rs (rs_acked_sacked rs) rate gain in
  (mode (ca sk') = mode (ca model) /\ cwnd_gain (ca sk') = cwnd_gain (ca model) /\
   cycle_idx (ca sk') = cycle_idx (ca model) /\ pacing_gain (ca sk') = pacing_gain (ca model)) /\
  bw_model sk' = bw_model model /\
  instant_rate (ca sk') = rate /\
  app_limited sk' = app_limited model /\ tcp_facts sk' = tcp_facts model.
Proof.
  intros sk1 sk2 sk'.
  destruct (wbbr_set_cwnd_block (wbbr_set_tso_segs_goal sk2) rs (rs_acked_sacked rs) rate gain)
    as (Hm4 & Hp4 & Hg4 & Hi4 & Hr4 & Ha4 & Ht4).
  pose proof (wbbr_set_cwnd_bw_model (wbbr_set_tso_segs_goal sk2) rs (rs_acked_sacked rs)
                rate gain) as Hb4.
  fold sk' in Hm4, Hp4, Hg4, Hi4, Hr4, Ha4, Ht4, Hb4. clearbody sk'.
  destruct (wbbr_set_pacing_rate_block K sk1 rate (wbbr_weighted_gain sk1))
    as (Hm2 & _ & Hg2 & Hp2 & Hr2 & _ & Ha2 & Ht2 & Hi2).
  pose proof (wbbr_set_pacing_rate_bw_model K sk1 rate (wbbr_weighted_gain sk1)) as Hb2.
  fold sk2 in Hm2, Hg2, Hp2, Hr2, Ha2, Ht2, Hi2, Hb2.
  assert (H3 : forall sk, mode (ca (wbbr_set_tso_segs_goal sk)) = mode (ca sk) /\
               cwnd_gain (ca (wbbr_set_tso_segs_goal sk)) = cwnd_gain (ca sk) /\
               cycle_idx (ca (wbbr_set_tso_segs_goal sk)) = cycle_idx (ca sk) /\
               pacing_gain (ca (wbbr_set_tso_segs_goal sk)) = pacing_gain (ca sk) /\
               bw_model (wbbr_set_tso_segs_goal sk) = bw_model sk /\
               instant_rate (ca (wbbr_set_tso_segs_goal sk)) = instant_rate (ca sk) /\
               app_limited (wbbr_set_tso_segs_goal sk) = app_limited sk /\
               tcp_facts (wbbr_set_tso_segs_goal sk) = tcp_facts sk)
    by (intros sk; repeat split; reflexivity).
  destruct (H3 sk2) as (Hm3 & Hg3 & Hi3 & Hp3 & Hb3 & Hr3 & Ha3 & Ht3). clear H3.
  rewrite Hm3 in Hm4. rewrite Hg3 in Hg4. rewrite Hi3 in Hi4. rewrite Hp3 in Hp4.
  rewrite Hb3 in Hb4. rewrite Hr3 in Hr4. rewrite Ha3 in Ha4. rewrite Ht3 in Ht4.
  clear Hm3 Hg3 Hi3 Hp3 Hb3 Hr3 Ha3 Ht3. clearbody sk2.
  assert (H1 : mode (ca sk1) = mode (ca model) /\ cwnd_gain (ca sk1) = cwnd_gain (ca model) /\
               cycle_idx (ca sk1) = cycle_idx (ca model) /\
               pacing_gain (ca sk1) = pacing_gain (ca model) /\
               bw_model sk1 = bw_model model /\ instant_rate (ca sk1) = rate /\
               app_limited sk1 = app_limited model /\ tcp_facts sk1 = tcp_facts model)
    by (repeat split; reflexivity).
  destruct H1 as (Hm1 & Hg1 & Hi1 & Hp1 & Hb1 & Hr1 & Ha1 & Ht1).
  clearbody sk1.
  rewrite Hm4, Hm2, Hm1, Hg4, Hg2, Hg1, Hi4, Hi2, Hi1, Hp4, Hp2, Hp1,
    Hb4, Hb2, Hb1, Hr4, Hr2, Hr1, Ha4, Ha2, Ha1, Ht4, Ht2, Ht1.
  repeat split; reflexivity.
Qed.

Lemma wbbr_main_after_model (K : kernel) (sk : sock) (rs : rate_sample) :
  (mode (ca (wbbr_main sk rs)) = mode (ca (wbbr_update_model sk rs)) /\
   cwnd_gain (ca (wbbr_main sk rs)) = cwnd_gain (ca (wbbr_update_model sk rs)) /\
   cycle_idx (ca (wbbr_main sk rs)) = cycle_idx (ca (wbbr_update_model sk rs)) /\
   pacing_gain (ca (wbbr_main sk rs)) = pacing_gain (ca (wbbr_update_model sk rs))) /\
  bw_model (wbbr_main sk rs) = bw_model (wbbr_update_model sk rs) /\
  instant_rate (ca (wbbr_main sk rs)) = wbbr_bw (wbbr_update_model sk rs) /\
  app_limited (wbbr_main sk rs) = app_limited (wbbr_update_model sk rs) /\
  tcp_facts (wbbr_main sk rs) = tcp_facts (wbbr_update_model sk rs).
Proof.
  unfold wbbr_main.
  set (model := wbbr_update_model sk rs) in *. clearbody model.
  cbv zeta.
  set (sk1 := upd (set_instant_rate (wbbr_bw model)) model).
  set (sk2 := wbbr_set_pacing_rate sk1 (wbbr_bw model) (wbbr_weighted_gain sk1)).
  set (gain := cwnd_gain (ca (wbbr_set_tso_segs_goal sk2))). clearbody gain.
  exact (wbbr_main_tail_block K model rs (wbbr_bw model) gain).
Qed.

Lemma wbbr_bw_of_model (sk sk' : sock) :
  bw_model sk' = bw_model sk -> wbbr_bw sk' = wbbr_bw sk.
Proof.
  intros Hmodel. destruct (bw_model_fields sk sk' Hmodel) as (Hb & _ & _ & _ & Hu & Hl).
  unfold wbbr_bw, wbbr_max_bw. rewrite Hb, Hu, Hl. reflexivity.
Qed.

(** X20: the rate that [wbbr_main] publishes in [instant_rate], which the
    sibling subflows read to weigh themselves, is the bandwidth estimate
    as it stands when the invocation ends. *)
Theorem wbbr_main_instant_rate (K : kernel) (sk : sock) (rs : rate_sample) :
  instant_rate (ca (wbbr_main sk rs)) = wbbr_bw (wbbr_main sk rs).
Proof.
  destruct (wbbr_main_after_model K sk rs) as (_ & Hmodel & Hrate & _).
  rewrite Hrate. symmetry. apply wbbr_bw_of_model. exact Hmodel.
Qed.

Lemma same_fields_mode_step (w w' : wbbr) :
  mode w' = mode w -> cwnd_gain w' = cwnd_gain w -> cycle_idx w' = cycle_idx w ->
  full_bw_cnt w' = full_bw_cnt w -> lt_rtt_cnt w' = lt_rtt_cnt w ->
  lt_use_bw w' = lt_use_bw w -> mode_step w w'.
Proof. intros Hm Hg Hi Hf Hl Hu. unfold mode_step. repeat split; auto. Qed.

Lemma wbbr_main_tail_mode_step (K : kernel) (sk : sock) (rs : rate_sample) :
  mode_step (ca (wbbr_update_model sk rs)) (ca (wbbr_main sk rs)).
Proof.
  destruct (wbbr_main_after_model K sk rs) as ((Hm & Hg & Hi & _) & Hmodel & _).
  destruct (bw_model_fields _ _ Hmodel) as (_ & _ & Hf & Hl & Hu & _).
  apply same_fields_mode_step; assumption.
Qed.

Lemma wbbr_cwnd_event_mode_step (K : kernel) (sk : sock) (event : tcp_ca_event) :
  mode_step (ca sk) (ca (wbbr_cwnd_event sk event)).
Proof.
  unfold wbbr_cwnd_event.
  destruct (is_tx_start event && negb (app_limited sk =? 0)); [|apply mode_step_refl].
  cbn [ca upd set_ca mode set_idle_restart].
  destruct (wbbr_mode_eqb (mode (ca sk)) WBBR_PROBE_BW);
    [|apply same_fields_mode_step; reflexivity].
  set (sk1 := upd (set_idle_restart true) sk).
  destruct (wbbr_set_pacing_rate_block K sk1 (wbbr_bw sk1) WBBR_UNIT)
    as (Hm & _ & Hg & _ & _ & _ & _ & _ & Hi).
  destruct (bw_model_fields _ _ (wbbr_set_pacing_rate_bw_model K sk1 (wbbr_bw sk1) WBBR_UNIT))
    as (_ & _ & Hf & Hl & Hu & _).
  apply same_fields_mode_step; [rewrite Hm | rewrite Hg | rewrite Hi | rewrite Hf
                               | rewrite Hl | rewrite Hu]; reflexivity.
Qed.

Lemma wbbr_ssthresh_mode_step (sk : sock) : mode_step (ca sk) (ca (wbbr_ssthresh sk)).
Proof.
  unfold wbbr_ssthresh, wbbr_save_cwnd.
  destruct ((prev_ca_state (ca sk) <? TCP_CA_Recovery)
            && negb (wbbr_mode_eqb (mode (ca sk)) WBBR_PROBE_RTT));
    apply same_fields_mode_step; reflexivity.
Qed.

Lemma wbbr_check_full_bw_reached_counters (sk : sock) (rs : rate_sample) :
  counters_in_range (ca sk) -> counters_in_range (ca (wbbr_check_full_bw_reached sk rs)).
Proof.
  unfold counters_in_range. intros (Hc & Hf & Hl & Hs).
  destruct (wbbr_check_full_bw_reached_block sk rs) as (_ & _ & Hi & Hl' & Hu & _ & Hrange).
  cbv zeta in *. rewrite Hi, Hl', Hu. auto.
Qed.

Lemma wbbr_check_full_bw_reached_cwnd_gain (sk : sock) (rs : rate_sample) :
  cwnd_gain (ca sk) = cwnd_gain_of (mode (ca sk)) ->
  cwnd_gain (ca (wbbr_check_full_bw_reached sk rs))
  = cwnd_gain_of (mode (ca (wbbr_check_full_bw_reached sk rs))).
Proof.
  destruct (wbbr_check_full_bw_reached_block sk rs) as (Hm & Hg & _).
  cbv zeta in *. rewrite Hm, Hg. auto.
Qed.

Lemma wbbr_check_full_bw_reached_follows_pipe (sk : sock) (rs : rate_sample) :
  mode_follows_pipe (ca sk) -> mode_follows_pipe (ca (wbbr_check_full_bw_reached sk rs)).
Proof.
  unfold mode_follows_pipe.
  destruct (wbbr_check_full_bw_reached_block sk rs) as (Hm & _ & _ & _ & _ & Hsame & _).
  cbv zeta in *. rewrite Hm. intros Hpipe Hmode.
  rewrite (Hsame (Hpipe Hmode)). exact (Hpipe Hmode).
Qed.

Lemma wbbr_update_bw_follows_pipe (K : kernel) (sk : sock) (rs : rate_sample) :
  mode_follows_pipe (ca sk) -> mode_follows_pipe (ca (wbbr_update_bw sk rs)).
Proof.
  unfold mode_follows_pipe.
  destruct (wbbr_update_bw_mode_full K sk rs _ _ (conj eq_refl eq_refl)) as (Hm & Hf).
  rewrite Hm, Hf. auto.
Qed.

Lemma wbbr_update_model_counters (K : kernel) (sk : sock) (rs : rate_sample) :
  counters_in_range (ca sk) -> counters_in_range (ca (wbbr_update_model sk rs)).
Proof.
  intros Hin. unfold wbbr_update_model. cbv zeta.
  apply (mode_step_counters _ _ (wbbr_update_min_rtt_mode_step K _ rs)).
  apply (mode_step_counters _ _ (wbbr_check_drain_mode_step K _ rs)).
  apply wbbr_check_full_bw_reached_counters.
  apply (mode_step_counters _ _ (wbbr_update_cycle_phase_mode_step K _ rs)).
  apply wbbr_update_bw_counters. exact Hin.
Qed.

Lemma wbbr_update_model_cwnd_gain (K : kernel) (sk : sock) (rs : rate_sample) :
  cwnd_gain (ca sk) = cwnd_gain_of (mode (ca sk)) ->
  cwnd_gain (ca (wbbr_update_model sk rs)) = cwnd_gain_of (mode (ca (wbbr_update_model sk rs))).
Proof.
  intros Hin. unfold wbbr_update_model. cbv zeta.
  apply (mode_step_cwnd_gain _ _ (wbbr_update_min_rtt_mode_step K _ rs)).
  apply (mode_step_cwnd_gain _ _ (wbbr_check_drain_mode_step K _ rs)).
  apply wbbr_check_full_bw_reached_cwnd_gain.
  apply (mode_step_cwnd_gain _ _ (wbbr_update_cycle_phase_mode_step K _ rs)).
  apply wbbr_update_bw_cwnd_gain. exact Hin.
Qed.

Lemma wbbr_update_model_follows_pipe (K : kernel) (sk : sock) (rs : rate_sample) :
  mode_follows_pipe (ca sk) -> mode_follows_pipe (ca (wbbr_update_model sk rs)).
Proof.
  intros Hin. unfold wbbr_update_model. cbv zeta.
  apply (mode_step_follows_pipe _ _ (wbbr_update_min_rtt_mode_step K _ rs)).
  apply (mode_step_follows_pipe _ _ (wbbr_check_drain_mode_step K _ rs)).
  apply wbbr_check_full_bw_reached_follows_pipe.
  apply (mode_step_follows_pipe _ _ (wbbr_update_cycle_phase_mode_step K _ rs)).
  apply wbbr_update_bw_follows_pipe. exact Hin.
Qed.

(** The state that [wbbr_set_state] hands to [wbbr_lt_bw_sampling]. *)
Lemma wbbr_set_state_keeps (K : kernel) (P : wbbr -> Prop) :
  (forall w n, P w -> P (set_prev_ca_state n w)) ->
  (forall w n, P w -> P (set_full_bw n w)) ->
  (forall w b, P w -> P (set_round_start b w)) ->
  (forall sk rs, P (ca sk) -> P (ca (wbbr_lt_bw_sampling sk rs))) ->
  forall sk new_state, P (ca sk) -> P (ca (wbbr_set_state sk new_state)).
Proof.
  intros Hprev Hfull Hround Hlt sk new_state HP. unfold wbbr_set_state.
  destruct (new_state =? TCP_CA_Loss); [|exact HP].
  apply Hlt. apply (Hround _ true), (Hfull _ 0), (Hprev _ TCP_CA_Loss), HP.
Qed.

(** X21: the counters that the block keeps in narrow bit-fields never
    wrap: if the gain-cycle index is below 8, the full-pipe count at most
    3, and the long-term round count below 48 (at most 16 while sampling),
    they still are after [wbbr_main], [wbbr_set_state], [wbbr_cwnd_event]
    and [wbbr_ssthresh]. *)
Theorem wbbr_counters_stay_in_range (K : kernel) (sk : sock) (rs : rate_sample)
    (new_state : Z) (event : tcp_ca_event) :
  counters_in_range (ca sk) ->
  counters_in_range (ca (wbbr_main sk rs)) /\
  counters_in_range (ca (wbbr_set_state sk new_state)) /\
  counters_in_range (ca (wbbr_cwnd_event sk event)) /\
  counters_in_range (ca (wbbr_ssthresh sk)).
Proof.
  intros Hin. split; [|split; [|split]].
  - apply (mode_step_counters _ _ (wbbr_main_tail_mode_step K sk rs)).
    apply wbbr_update_model_counters. exact Hin.
  - apply (wbbr_set_state_keeps K (fun w => counters_in_range w));
      try (intros w x H; exact H); [apply wbbr_lt_bw_sampling_counters | exact Hin].
  - apply (mode_step_counters _ _ (wbbr_cwnd_event_mode_step K sk event)). exact Hin.
  - apply (mode_step_counters _ _ (wbbr_ssthresh_mode_step sk)). exact Hin.
Qed.

Lemma wbbr_counters_stay_in_range_witness :
  let K := test_kernel 0 0 in
  let rs := {| rs_prior_delivered := 0; rs_delivered := 1; rs_interval_us := 10000;
               rs_rtt_us := 10000; rs_losses := 1; rs_acked_sacked := 1;
               rs_prior_in_flight := 1; rs_is_app_limited := false |} in
  counters_in_range (ca (wbbr_main (wbbr_init sock_blank) rs)) /\
  counters_in_range (ca (wbbr_set_state (wbbr_init sock_blank) TCP_CA_Loss)).
Proof.
  intros K rs.
  assert (Hin : counters_in_range (ca (wbbr_init sock_blank))).
  { vm_compute. repeat split; intros; discriminate. }
  destruct (wbbr_counters_stay_in_range K (wbbr_init sock_blank) rs TCP_CA_Loss
              CA_EVENT_TX_START Hin) as (Hmain & Hstate & _).
  split; [exact Hmain | exact Hstate].
Defined.

(** X22: the window gain follows the mode: if it is the high gain in
    STARTUP and DRAIN, 2.0 in PROBE_BW and 1.0 in PROBE_RTT, it still is
    after [wbbr_main], [wbbr_set_state], [wbbr_cwnd_event] and
    [wbbr_ssthresh]; so the gain that [wbbr_main] hands to [wbbr_set_cwnd]
    is a function of the mode. *)
Theorem wbbr_cwnd_gain_follows_mode (K : kernel) (sk : sock) (rs : rate_sample)
    (new_state : Z) (event : tcp_ca_event) :
  cwnd_gain (ca sk) = cwnd_gain_of (mode (ca sk)) ->
  cwnd_gain (ca (wbbr_main sk rs)) = cwnd_gain_of (mode (ca (wbbr_main sk rs))) /\
  cwnd_gain (ca (wbbr_set_state sk new_state))
  = cwnd_gain_of (mode (ca (wbbr_set_state sk new_state))) /\
  cwnd_gain (ca (wbbr_cwnd_event sk event))
  = cwnd_gain_of (mode (ca (wbbr_cwnd_event sk event))) /\
  cwnd_gain (ca (wbbr_ssthresh sk)) = cwnd_gain_of (mode (ca (wbbr_ssthresh sk))).
Proof.
  intros Hin. split; [|split; [|split]].
  - apply (mode_step_cwnd_gain _ _ (wbbr_main_tail_mode_step K sk rs)).
    apply wbbr_update_model_cwnd_gain. exact Hin.
  - apply (wbbr_set_state_keeps K (fun w => cwnd_gain w = cwnd_gain_of (mode w)));
      try (intros w x H; exact H); [apply wbbr_lt_bw_sampling_cwnd_gain | exact Hin].
  - apply (mode_step_cwnd_gain _ _ (wbbr_cwnd_event_mode_step K sk event)). exact Hin.
  - apply (mode_step_cwnd_gain _ _ (wbbr_ssthresh_mode_step sk)). exact Hin.
Qed.

Lemma wbbr_cwnd_gain_follows_mode_witness :
  let K := test_kernel 20000 0 in
  let sk := wbbr_init sock_blank in
  let sk' := wbbr_main (upd (set_min_rtt_stamp 0) sk) sample_blank in
  mode (ca sk') = WBBR_PROBE_RTT /\ cwnd_gain (ca sk') = WBBR_UNIT.
Proof.
  intros K sk sk'.
  assert (Hin : cwnd_gain (ca (upd (set_min_rtt_stamp 0) sk))
                = cwnd_gain_of (mode (ca (upd (set_min_rtt_stamp 0) sk)))) by reflexivity.
  destruct (wbbr_cwnd_gain_follows_mode K (upd (set_min_rtt_stamp 0) sk) sample_blank
              TCP_CA_Loss CA_EVENT_TX_START Hin) as (Hmain & _).
  assert (Hmode : mode (ca sk') = WBBR_PROBE_RTT) by reflexivity.
  split; [exact Hmode|]. subst sk'. rewrite Hmain, Hmode. reflexivity.
Defined.

Lemma wbbr_check_drain_not_startup (K : kernel) (sk : sock) (rs : rate_sample) :
  wbbr_full_bw_cnt <= full_bw_cnt (ca sk) ->
  mode (ca (wbbr_check_drain sk rs)) <> WBBR_STARTUP.
Proof.
  intros Hfull.
  assert (Hreset : forall sk0, mode (ca (wbbr_reset_probe_bw_mode sk0)) = WBBR_PROBE_BW)
    by reflexivity.
  unfold wbbr_check_drain, wbbr_full_bw_reached.
  destruct (Z.leb_spec wbbr_full_bw_cnt (full_bw_cnt (ca sk))) as [_|Hnot]; [|lia].
  destruct (mode (ca sk)) eqn:Hmode; cbn [wbbr_mode_eqb andb];
    rewrite ?Hmode; cbn [wbbr_mode_eqb andb]; rewrite ?Hmode; try discriminate.
  - cbn [ca upd set_ca mode set_mode set_pacing_gain set_cwnd_gain wbbr_mode_eqb andb].
    match goal with
    | |- context [if ?c then _ else _] => destruct c
    end; [rewrite Hreset|]; discriminate.
  - match goal with
    | |- context [if ?c then _ else _] => destruct c
    end; [rewrite Hreset | rewrite Hmode]; discriminate.
Qed.

(** X23: the full-pipe estimate and the mode agree.  After any
    [wbbr_main] that leaves the pipe estimated full the flow is out of
    STARTUP; a pipe once estimated full stays so across [wbbr_main], with
    the same baseline; and DRAIN and PROBE_BW are entered only with the
    pipe estimated full: that relation is kept by [wbbr_main],
    [wbbr_set_state], [wbbr_cwnd_event] and [wbbr_ssthresh]. *)
Theorem wbbr_mode_follows_full_pipe (K : kernel) (sk : sock) (rs : rate_sample)
    (new_state : Z) (event : tcp_ca_event) :
  (wbbr_full_bw_reached (wbbr_main sk rs) = true ->
   mode (ca (wbbr_main sk rs)) <> WBBR_STARTUP) /\
  (wbbr_full_bw_reached sk = true ->
   wbbr_full_bw_reached (wbbr_main sk rs) = true /\
   full_bw_cnt (ca (wbbr_main sk rs)) = full_bw_cnt (ca sk) /\
   full_bw (ca (wbbr_main sk rs)) = full_bw (ca sk)) /\
  (mode_follows_pipe (ca sk) ->
   mode_follows_pipe (ca (wbbr_main sk rs)) /\
   mode_follows_pipe (ca (wbbr_set_state sk new_state)) /\
   mode_follows_pipe (ca (wbbr_cwnd_event sk event)) /\
   mode_follows_pipe (ca (wbbr_ssthresh sk))).
Proof.
  split; [|split].
  - unfold wbbr_full_bw_reached. intros Hfull. apply Z.leb_le in Hfull.
    pose proof (wbbr_main_tail_mode_step K sk rs) as Htail.
    destruct Htail as (Hf & Htail').
    assert (Htail : mode_step (ca (wbbr_update_model sk rs)) (ca (wbbr_main sk rs)))
      by (split; assumption).
    rewrite Hf in Hfull. clear Htail'.
    apply (mode_step_not_startup _ _ Htail Hfull). clear Htail Hf.
    revert Hfull. unfold wbbr_update_model. cbv zeta.
    set (sk3 := wbbr_check_full_bw_reached _ rs). clearbody sk3.
    pose proof (wbbr_update_min_rtt_mode_step K (wbbr_check_drain sk3 rs) rs) as Hrtt.
    pose proof (wbbr_check_drain_mode_step K sk3 rs) as Hdrain.
    destruct Hrtt as (Hf5 & Hrtt'). destruct Hdrain as (Hf4 & Hdrain').
    intros Hfull. rewrite Hf5 in Hfull.
    apply (mode_step_not_startup (ca (wbbr_check_drain sk3 rs))); [split; assumption | exact Hfull |].
    rewrite Hf4 in Hfull. apply wbbr_check_drain_not_startup. exact Hfull.
  - unfold wbbr_full_bw_reached. intros Hfull. apply Z.leb_le in Hfull.
    destruct (wbbr_main_after_model K sk rs) as (_ & Hmodel & _).
    destruct (bw_model_fields _ _ Hmodel) as (_ & Hb6 & Hf6 & _).
    rewrite Hb6, Hf6. clear Hmodel Hb6 Hf6.
    unfold wbbr_update_model. cbv zeta.
    assert (H1 : full_bw (ca (wbbr_update_bw sk rs)) = full_bw (ca sk) /\
                 full_bw_cnt (ca (wbbr_update_bw sk rs)) = full_bw_cnt (ca sk)).
    { apply (wbbr_update_bw_keeps K (fun w => full_bw w = full_bw (ca sk) /\
                                               full_bw_cnt w = full_bw_cnt (ca sk)));
        try (intros w x H; exact H); [|split; reflexivity].
      intros sk0 rs0 (Hb & Hc).
      destruct (wbbr_lt_bw_sampling_untouched K sk0 rs0) as (_ & (Hb' & Hc') & _).
      rewrite Hb', Hc'. auto. }
    destruct H1 as (Hb1 & Hf1).
    set (sk1 := wbbr_update_bw sk rs) in *. clearbody sk1.
    destruct (bw_model_fields _ _ (wbbr_update_cycle_phase_bw_model K sk1 rs))
      as (_ & Hb2 & Hf2 & _).
    set (sk2 := wbbr_update_cycle_phase sk1 rs) in *. clearbody sk2.
    destruct (wbbr_check_full_bw_reached_block sk2 rs) as (_ & _ & _ & _ & _ & Hsame & _).
    cbv zeta in Hsame. rewrite Hsame by (rewrite Hf2, Hf1; exact Hfull).
    destruct (bw_model_fields _ _ (wbbr_check_drain_bw_model K sk2 rs))
      as (_ & Hb4 & Hf4 & _).
    set (sk4 := wbbr_check_drain sk2 rs) in *. clearbody sk4.
    destruct (bw_model_fields _ _ (wbbr_update_min_rtt_bw_model K sk4 rs))
      as (_ & Hb5 & Hf5 & _).
    rewrite Hb5, Hf5, Hb4, Hf4, Hb2, Hf2, Hb1, Hf1.
    split; [apply Z.leb_le; exact Hfull | split; reflexivity].
  - intros Hin. split; [|split; [|split]].
    + apply (mode_step_follows_pipe _ _ (wbbr_main_tail_mode_step K sk rs)).
      apply wbbr_update_model_follows_pipe. exact Hin.
    + apply (wbbr_set_state_keeps K (fun w => mode_follows_pipe w));
        try (intros w x H; exact H); [|exact Hin].
      intros sk0 rs0. unfold mode_follows_pipe. rewrite wbbr_lt_bw_sampling_mode.
      destruct (wbbr_lt_bw_sampling_untouched K sk0 rs0) as (_ & (_ & Hc) & _).
      rewrite Hc. auto.
    + apply (mode_step_follows_pipe _ _ (wbbr_cwnd_event_mode_step K sk event)). exact Hin.
    + apply (mode_step_follows_pipe _ _ (wbbr_ssthresh_mode_step sk)). exact Hin.
Qed.

Lemma wbbr_mode_follows_full_pipe_witness :
  let K := test_kernel 0 0 in
  let sk := upd (set_full_bw_cnt 3) (wbbr_init sock_blank) in
  let rs := {| rs_prior_delivered := 0; rs_delivered := 1; rs_interval_us := 10000;
               rs_rtt_us := 10000; rs_losses := 0; rs_acked_sacked := 1;
               rs_prior_in_flight := 1; rs_is_app_limited := false |} in
  mode (ca (wbbr_main sk rs)) <> WBBR_STARTUP /\
  wbbr_full_bw_reached (wbbr_main sk rs) = true /\
  mode_follows_pipe (ca (wbbr_main (wbbr_init sock_blank) rs)).
Proof.
  intros K sk rs.
  destruct (wbbr_mode_follows_full_pipe K sk rs TCP_CA_Loss CA_EVENT_TX_START)
    as (Hout & Hsticky & _).
  destruct (wbbr_mode_follows_full_pipe K (wbbr_init sock_blank) rs TCP_CA_Loss
              CA_EVENT_TX_START) as (_ & _ & Hkept).
  destruct (Hsticky eq_refl) as (Hfull & _).
  split; [apply Hout; exact Hfull | split; [exact Hfull|]].
  apply Hkept. intros [Hm|Hm]; discriminate Hm.
Defined.

(** ** What the callbacks write *)

Lemma tcp_facts_fields (sk sk' : sock) :
  tcp_facts sk' = tcp_facts sk ->
  snd_cwnd_clamp sk' = snd_cwnd_clamp sk /\ sk_max_pacing_rate sk' = sk_max_pacing_rate sk /\
  mss_cache sk' = mss_cache sk /\ delivered sk' = delivered sk /\
  packets_in_flight sk' = packets_in_flight sk.
Proof.
  unfold tcp_facts.
  generalize (snd_cwnd_clamp sk') (snd_cwnd_clamp sk) (delivered sk') (delivered sk)
    (lost sk') (lost sk) (delivered_mstamp sk') (delivered_mstamp sk) (srtt_us sk')
    (srtt_us sk) (mss_cache sk') (mss_cache sk) (tcp_min_rtt sk') (tcp_min_rtt sk)
    (packets_in_flight sk') (packets_in_flight sk) (icsk_ca_state sk') (icsk_ca_state sk)
    (sk_max_pacing_rate sk') (sk_max_pacing_rate sk) (can_send sk') (can_send sk)
    (siblings sk') (siblings sk).
  intros. inversion H. repeat split; reflexivity.
Qed.

Lemma wbbr_update_bw_tcp_facts (K : kernel) (sk : sock) (rs : rate_sample) :
  tcp_facts (wbbr_update_bw sk rs) = tcp_facts sk /\
  app_limited (wbbr_update_bw sk rs) = app_limited sk.
Proof.
  unfold wbbr_update_bw.
  destruct ((rs_delivered rs <? 0) || (rs_interval_us rs <=? 0)); [split; reflexivity|].
  set (sk1 := if negb (before _ _) then _ else upd (set_round_start false) sk).
  assert (H1 : tcp_facts sk1 = tcp_facts sk /\ app_limited sk1 = app_limited sk).
  { subst sk1. destruct (negb (before _ _)); split; reflexivity. }
  destruct H1 as (Ht1 & Ha1). clearbody sk1.
  destruct (wbbr_lt_bw_sampling_untouched K sk1 rs) as (_ & _ & (_ & _ & Ha2 & Ht2) & _).
  set (sk2 := wbbr_lt_bw_sampling sk1 rs) in *. clearbody sk2.
  assert (Hupd : forall f s, tcp_facts (upd f s) = tcp_facts s /\
                             app_limited (upd f s) = app_limited s)
    by (intros f s; split; reflexivity).
  destruct (negb (rs_is_app_limited rs) || _);
    [destruct (Hupd (set_bw (minmax_running_max (bw (ca sk2)) wbbr_bw_rtts (rtt_cnt (ca sk2))
                               (u32 (do_div (rs_delivered rs * BW_UNIT) (rs_interval_us rs)))))
                    sk2) as (Ht3 & Ha3); rewrite Ht3, Ha3 |];
    rewrite Ht2, Ha2, Ht1, Ha1; split; reflexivity.
Qed.

Lemma wbbr_update_model_tcp_facts (K : kernel) (sk : sock) (rs : rate_sample) :
  tcp_facts (wbbr_update_model sk rs) = tcp_facts sk.
Proof.
  unfold wbbr_update_model. cbv zeta.
  assert (Hrtt : forall sk0, tcp_facts (wbbr_update_min_rtt sk0 rs) = tcp_facts sk0).
  { intros sk0. unfold wbbr_update_min_rtt, wbbr_reset_mode, wbbr_save_cwnd. frame_ifs. }
  assert (Hdrain : forall sk0, tcp_facts (wbbr_check_drain sk0 rs) = tcp_facts sk0).
  { intros sk0. unfold wbbr_check_drain. frame_ifs. }
  assert (Hfull : forall sk0, tcp_facts (wbbr_check_full_bw_reached sk0 rs) = tcp_facts sk0).
  { intros sk0. unfold wbbr_check_full_bw_reached. frame_ifs. }
  assert (Hcycle : forall sk0, tcp_facts (wbbr_update_cycle_phase sk0 rs) = tcp_facts sk0).
  { intros sk0. unfold wbbr_update_cycle_phase. frame_ifs. }
  rewrite Hrtt, Hdrain, Hfull, Hcycle. apply wbbr_update_bw_tcp_facts.
Qed.

(** X24: the callbacks keep to their own fields.  [wbbr_main] writes, of
    the connection, only the window, the pacing rate and the app-limited
    mark; [wbbr_set_state] and [wbbr_ssthresh] write the private block
    only, and [wbbr_cwnd_event] the block and the pacing rate: counters,
    clamp, MSS, RTT estimate, congestion state and the sibling list are
    never written. *)
Theorem wbbr_callbacks_leave_tcp_state (K : kernel) (sk : sock) (rs : rate_sample)
    (new_state : Z) (event : tcp_ca_event) :
  tcp_facts (wbbr_main sk rs) = tcp_facts sk /\
  (tcp_facts (wbbr_set_state sk new_state) = tcp_facts sk /\
   snd_cwnd (wbbr_set_state sk new_state) = snd_cwnd sk /\
   sk_pacing_rate (wbbr_set_state sk new_state) = sk_pacing_rate sk /\
   app_limited (wbbr_set_state sk new_state) = app_limited sk) /\
  (tcp_facts (wbbr_cwnd_event sk event) = tcp_facts sk /\
   snd_cwnd (wbbr_cwnd_event sk event) = snd_cwnd sk /\
   app_limited (wbbr_cwnd_event sk event) = app_limited sk) /\
  (tcp_facts (wbbr_ssthresh sk) = tcp_facts sk /\
   snd_cwnd (wbbr_ssthresh sk) = snd_cwnd sk /\
   sk_pacing_rate (wbbr_ssthresh sk) = sk_pacing_rate sk /\
   app_limited (wbbr_ssthresh sk) = app_limited sk).
Proof.
  split; [|split; [|split]].
  - destruct (wbbr_main_after_model K sk rs) as (_ & _ & _ & _ & Htail).
    rewrite Htail. apply wbbr_update_model_tcp_facts.
  - unfold wbbr_set_state. destruct (new_state =? TCP_CA_Loss); [|repeat split; reflexivity].
    match goal with
    | |- context [wbbr_lt_bw_sampling ?s ?r] =>
      destruct (wbbr_lt_bw_sampling_untouched K s r) as (_ & _ & (Hw & Hp & Ha & Ht) & _)
    end.
    rewrite Hw, Hp, Ha, Ht. repeat split; reflexivity.
  - unfold wbbr_cwnd_event.
    destruct (is_tx_start event && negb (app_limited sk =? 0)); [|repeat split; reflexivity].
    cbn [ca upd set_ca mode set_idle_restart].
    destruct (wbbr_mode_eqb (mode (ca sk)) WBBR_PROBE_BW); [|repeat split; reflexivity].
    match goal with
    | |- context [wbbr_set_pacing_rate ?s ?r ?g] =>
      destruct (wbbr_set_pacing_rate_block K s r g) as (_ & _ & _ & _ & _ & Hw & Ha & Ht & _)
    end.
    rewrite Hw, Ha, Ht. repeat split; reflexivity.
  - unfold wbbr_ssthresh, wbbr_save_cwnd.
    destruct ((prev_ca_state (ca sk) <? TCP_CA_Recovery)
              && negb (wbbr_mode_eqb (mode (ca sk)) WBBR_PROBE_RTT));
      repeat split; reflexivity.
Qed.

(** ** Window and pacing rate across an invocation *)

Lemma wbbr_main_tail_window (K : kernel) (model : sock) (rs : rate_sample) (rate gain : Z) :
  let sk1 := upd (set_instant_rate rate) model in
  let sk2 := wbbr_set_pacing_rate sk1 rate (wbbr_weighted_gain sk1) in
  let sk' := wbbr_set_cwnd (wbbr_set_tso_segs_goal sk2) rs (rs_acked_sacked rs) rate gain in
  (rs_acked_sacked rs = 0 -> snd_cwnd sk' = snd_cwnd model) /\
  (rs_acked_sacked rs <> 0 ->
   snd_cwnd sk' <= snd_cwnd_clamp model /\
   (mode (ca sk') = WBBR_PROBE_RTT -> snd_cwnd sk' <= wbbr_cwnd_min_target)).
Proof.
  intros sk1 sk2 sk'.
  destruct (wbbr_set_pacing_rate_block K sk1 rate (wbbr_weighted_gain sk1))
    as (Hm2 & _ & _ & _ & _ & Hw2 & _).
  pose proof (wbbr_set_pacing_rate_clamp K sk1 rate (wbbr_weighted_gain sk1)) as Hc2.
  fold sk2 in Hm2, Hw2, Hc2.
  assert (H3 : mode (ca (wbbr_set_tso_segs_goal sk2)) = mode (ca model) /\
               snd_cwnd (wbbr_set_tso_segs_goal sk2) = snd_cwnd model /\
               snd_cwnd_clamp (wbbr_set_tso_segs_goal sk2) = snd_cwnd_clamp model).
  { cbn [wbbr_set_tso_segs_goal ca upd set_ca mode set_tso_segs_goal snd_cwnd snd_cwnd_clamp].
    rewrite Hm2, Hw2, Hc2. repeat split; reflexivity. }
  destruct H3 as (Hm3 & Hw3 & Hc3). subst sk'.
  set (sk3 := wbbr_set_tso_segs_goal sk2) in *. clearbody sk3. clear Hm2 Hw2 Hc2.
  split.
  - intros ->. rewrite wbbr_set_cwnd_nothing_acked. exact Hw3.
  - intros Hacked.
    destruct (wbbr_set_cwnd_clamp_bound sk3 rs (rs_acked_sacked rs) rate gain Hacked)
      as (Hclamp & Hprobe).
    destruct (wbbr_set_cwnd_block sk3 rs (rs_acked_sacked rs) rate gain) as (Hm4 & _).
    rewrite Hm4. rewrite <- Hc3. split; [exact Hclamp | exact Hprobe].
Qed.

(** X25: an invocation of [wbbr_main] that acknowledges nothing leaves the
    window alone; one that acknowledges packets commits a window within the
    clamp of the connection, and of at most 4 packets when it ends in
    PROBE_RTT. *)
Theorem wbbr_main_window (K : kernel) (sk : sock) (rs : rate_sample) :
  (rs_acked_sacked rs = 0 -> snd_cwnd (wbbr_main sk rs) = snd_cwnd sk) /\
  (rs_acked_sacked rs <> 0 ->
   snd_cwnd (wbbr_main sk rs) <= snd_cwnd_clamp sk /\
   (mode (ca (wbbr_main sk rs)) = WBBR_PROBE_RTT ->
    snd_cwnd (wbbr_main sk rs) <= wbbr_cwnd_min_target)).
Proof.
  destruct (stack_view_fields _ _ (wbbr_update_model_stack_view K sk rs))
    as (Hw & Hc & _).
  revert Hw Hc. unfold wbbr_main.
  set (model := wbbr_update_model sk rs). clearbody model. cbv zeta.
  intros Hw Hc.
  set (sk1 := upd (set_instant_rate (wbbr_bw model)) model).
  set (sk2 := wbbr_set_pacing_rate sk1 (wbbr_bw model) (wbbr_weighted_gain sk1)).
  set (gain := cwnd_gain (ca (wbbr_set_tso_segs_goal sk2))). clearbody gain.
  rewrite <- Hw, <- Hc.
  exact (wbbr_main_tail_window K model rs (wbbr_bw model) gain).
Qed.

Lemma wbbr_main_window_witness :
  let K := test_kernel 20000 0 in
  let sk := upd (set_min_rtt_stamp 0) (wbbr_init sock_blank) in
  let rs := {| rs_prior_delivered := 0; rs_delivered := 1; rs_interval_us := 10000;
               rs_rtt_us := 10000; rs_losses := 0; rs_acked_sacked := 1;
               rs_prior_in_flight := 1; rs_is_app_limited := false |} in
  snd_cwnd (wbbr_main sk rs) <= wbbr_cwnd_min_target /\
  snd_cwnd (wbbr_main sk sample_blank) = snd_cwnd sk.
Proof.
  intros K sk rs.
  destruct (wbbr_main_window K sk rs) as (_ & Hacked).
  destruct (wbbr_main_window K sk sample_blank) as (Hnone & _).
  split; [|apply Hnone; reflexivity].
  destruct Hacked as (_ & Hprobe); [discriminate|].
  apply Hprobe. reflexivity.
Defined.

Lemma wbbr_init_pacing_rate_from_rtt_cap (K : kernel) (sk : sock) :
  0 <= sk_max_pacing_rate sk < 2 ^ 32 ->
  0 <= sk_pacing_rate (wbbr_init_pacing_rate_from_rtt sk) <= sk_max_pacing_rate sk.
Proof.
  intros Hcap. unfold wbbr_init_pacing_rate_from_rtt.
  destruct (negb (srtt_us sk =? 0)); cbn [sk_pacing_rate set_sk_pacing_rate];
    match goal with
    | |- _ <= wbbr_bw_to_pacing_rate ?s ?r ?g <= _ =>
      apply (wbbr_bw_to_pacing_rate_bound K s r g); exact Hcap
    end.
Qed.

Lemma wbbr_set_pacing_rate_cap (K : kernel) (sk : sock) (rate gain : Z) :
  0 <= sk_max_pacing_rate sk < 2 ^ 32 ->
  0 <= sk_pacing_rate sk <= sk_max_pacing_rate sk ->
  0 <= sk_pacing_rate (wbbr_set_pacing_rate sk rate gain) <= sk_max_pacing_rate sk.
Proof.
  intros Hcap Hold. rewrite wbbr_set_pacing_rate_commits.
  pose proof (wbbr_bw_to_pacing_rate_bound K sk rate gain Hcap) as Hrate.
  pose proof (wbbr_init_pacing_rate_from_rtt_cap K sk Hcap) as Hboot.
  destruct (wbbr_full_bw_reached sk); [exact Hrate|].
  destruct (negb (has_seen_rtt (ca sk)) && negb (srtt_us sk =? 0)); lia.
Qed.

Lemma sk_pacing_rate_upd (f : wbbr -> wbbr) (sk : sock) :
  sk_pacing_rate (upd f sk) = sk_pacing_rate sk /\
  sk_max_pacing_rate (upd f sk) = sk_max_pacing_rate sk.
Proof. split; reflexivity. Qed.

(** X26: the pacing rate stays within the cap of the socket: with
    [sk_max_pacing_rate] a 32-bit value, the rate that [wbbr_init] sets is
    within [0, sk_max_pacing_rate], and a rate within that range still is
    after [wbbr_main] and after [wbbr_cwnd_event]. *)
Theorem wbbr_pacing_rate_within_cap (K : kernel) (sk : sock) (rs : rate_sample)
    (event : tcp_ca_event) :
  0 <= sk_max_pacing_rate sk < 2 ^ 32 ->
  0 <= sk_pacing_rate (wbbr_init sk) <= sk_max_pacing_rate sk /\
  (0 <= sk_pacing_rate sk <= sk_max_pacing_rate sk ->
   0 <= sk_pacing_rate (wbbr_main sk rs) <= sk_max_pacing_rate sk /\
   0 <= sk_pacing_rate (wbbr_cwnd_event sk event) <= sk_max_pacing_rate sk).
Proof.
  intros Hcap. split; [|intros Hold; split].
  - unfold wbbr_init, wbbr_reset_startup_mode, wbbr_reset_lt_bw_sampling,
      wbbr_reset_lt_bw_sampling_interval.
    cbv zeta.
    rewrite !(proj1 (sk_pacing_rate_upd _ _)).
    match goal with
    | |- _ <= sk_pacing_rate (wbbr_init_pacing_rate_from_rtt ?s) <= _ =>
      pose proof (wbbr_init_pacing_rate_from_rtt_cap K s) as Hinit
    end.
    rewrite !(proj2 (sk_pacing_rate_upd _ _)) in Hinit.
    exact (Hinit Hcap).
  - rewrite wbbr_main_pacing_rate.
    destruct (stack_view_fields _ _ (wbbr_update_model_stack_view K sk rs))
      as (_ & _ & Hp & _).
    destruct (tcp_facts_fields _ _ (wbbr_update_model_tcp_facts K sk rs))
      as (_ & Hmax & _).
    set (model := wbbr_update_model sk rs) in *. clearbody model.
    rewrite <- Hmax in Hcap |- *. rewrite <- Hp in Hold. rewrite <- Hmax in Hold.
    set (sk1 := upd (set_instant_rate (wbbr_bw model)) model).
    assert (H1 : 0 <= sk_max_pacing_rate sk1 < 2 ^ 32 /\
                 0 <= sk_pacing_rate sk1 <= sk_max_pacing_rate sk1 /\
                 sk_max_pacing_rate sk1 = sk_max_pacing_rate model)
      by (split; [exact Hcap | split; [exact Hold | reflexivity]]).
    destruct H1 as (Hcap1 & Hold1 & Hmax1).
    set (rate := wbbr_bw model). clearbody sk1 rate.
    rewrite <- Hmax1.
    apply wbbr_set_pacing_rate_cap; assumption.
  - unfold wbbr_cwnd_event.
    destruct (is_tx_start event && negb (app_limited sk =? 0)); [|exact Hold].
    cbv zeta.
    set (sk1 := upd (set_idle_restart true) sk).
    assert (H1 : 0 <= sk_max_pacing_rate sk1 < 2 ^ 32 /\
                 0 <= sk_pacing_rate sk1 <= sk_max_pacing_rate sk1 /\
                 sk_max_pacing_rate sk1 = sk_max_pacing_rate sk)
      by (split; [exact Hcap | split; [exact Hold | reflexivity]]).
    destruct H1 as (Hcap1 & Hold1 & Hmax1). clearbody sk1.
    rewrite <- Hmax1.
    destruct (wbbr_mode_eqb (mode (ca sk1)) WBBR_PROBE_BW); [|exact Hold1].
    apply wbbr_set_pacing_rate_cap; assumption.
Qed.

Lemma wbbr_pacing_rate_within_cap_witness :
  let K := test_kernel 0 0 in
  let sk := {| snd_cwnd := 10; snd_cwnd_clamp := 2 ^ 32 - 1; delivered := 0; lost := 0;
               delivered_mstamp := no_stamp; app_limited := 0; srtt_us := 8000;
               mss_cache := 1460; tcp_min_rtt := 1000; packets_in_flight := 0;
               icsk_ca_state := TCP_CA_Open; sk_pacing_rate := 0;
               sk_max_pacing_rate := 1000000; can_send := true; siblings := None;
               ca := wbbr_blank |} in
  0 <= sk_pacing_rate (wbbr_init sk) <= 1000000 /\
  0 <= sk_pacing_rate (wbbr_main sk sample_blank) <= 1000000.
Proof.
  intros K sk.
  assert (Hcap : 0 <= sk_max_pacing_rate sk < 2 ^ 32)
    by (vm_compute; split; [discriminate | reflexivity]).
  destruct (wbbr_pacing_rate_within_cap K sk sample_blank CA_EVENT_TX_START Hcap)
    as (Hinit & Hkept).
  split; [exact Hinit|].
  apply Hkept. vm_compute. split; discriminate.
Defined.
